(** * run_pipeline_dbt: the report renderers of the SUS Unified dbt pipeline

    A shallow embedding of [sus_unified_dbt_project/run_pipeline_dbt.py]:
    the summary renderer ([build_summary_table]), the pivot renderer with its
    weekday/weekend anomaly classification ([build_pivot_table], with the
    nested [map_status]), the report they make up ([export_to_excel]), the
    layout of the [__main__] block, and the two steps before the renderers:
    the dbt commands ([run_dbt]) and the arguments of the Snowflake
    connection.

    Conventions.
    - Python values that reach the renderers are dynamically typed; they are
      the constructors of [pyval].  Python [float] is IEEE binary64, embedded
      as Rocq's primitive [float]; Python [int] is [Z].  The elements of a
      numpy array of integers are numpy scalars, which are not [int]s: they
      have a constructor of their own.
    - Fallible code runs in the error monad [result]; a [try]/[except] is a
      [match] on it.
    - A pandas DataFrame is the list of its rows, a Series the list of its
      values, as Python objects.  The dtype of a column is the one pandas
      infers from these values ([infer_dtype]), as [pd.DataFrame(rows)] does
      at line 51: the pivot of line 140 and the row iteration of line 199 go
      through arrays of that dtype.  The in-place column assignments of
      [build_pivot_table] are returned as the extended frame.
    - An openpyxl worksheet is abstracted to the block of rows a renderer
      writes, top to bottom: the script always starts a block below the
      rows already written.  Only cell values and fills are kept (borders,
      alignment and column widths are not modelled), and a cell read back
      from the sheet holds the value that was written to it, a numpy scalar
      included.
    - Library functions whose results the script only passes on (pandas'
      [Series.mean] and [Series.std], Python's [float(str)] and [int(str)],
      the wall clock) are the parameters of the sections [Pipeline] and
      [Facts]. *)

From Stdlib Require Import ZArith Floats String Ascii List Lia.
From stdpp Require Import base option list strings sorting gmap.

Local Open Scope string_scope.
Local Open Scope list_scope.
Local Open Scope Z_scope.

(** ** Exceptions and the error monad *)

Inductive exn : Type :=
  | TypeError
  | ValueError
  | OverflowError
  | IndexError
  | KeyError.

Inductive result (A : Type) : Type :=
  | Ok (a : A)
  | Raise (e : exn).

Arguments Ok {A} a.
Arguments Raise {A} e.

Definition bind {A B : Type} (m : result A) (k : A -> result B) : result B :=
  match m with
  | Ok a => k a
  | Raise e => Raise e
  end.

Notation "'let!' x := m 'in' k" := (bind m (fun x => k))
  (at level 10, x name, m at level 100, k at level 200).

(** [for i, x in enumerate(l, start)]: the body may raise, the results are
    collected in order. *)
Fixpoint enumerate_mapM {A B : Type} (f : nat -> A -> result B) (start : nat)
    (l : list A) : result (list B) :=
  match l with
  | [] => Ok []
  | x :: l' =>
      let! y := f start x in
      let! ys := enumerate_mapM f (S start) l' in
      Ok (y :: ys)
  end.

(** [l[i]] on a Python list or [.iloc[i]] on a frame, for [i >= 0]. *)
Definition index {A : Type} (l : list A) (i : nat) : result A :=
  match l !! i with
  | Some x => Ok x
  | None => Raise IndexError
  end.

(** ** Python values *)

Inductive pyval : Type :=
  | PNone                      (* None *)
  | PInt (n : Z)               (* an int *)
  | PFloat (f : float)         (* a float, NaN included; numpy.float64 is a subclass of float *)
  | PStr (s : string)
  | PNumpy (n : Z).            (* a numpy.int64 or numpy.uint64 scalar: not an int *)

(** The binary64 number nearest to an integer, ties to even. *)
Definition float_of_Z (n : Z) : float := SF2Prim (binary_normalize prec emax n 0 false).

(** [float(n)] for an [int]: [OverflowError] when the nearest binary64 is an
    infinity. *)
Definition float_of_int (n : Z) : result float :=
  let f := float_of_Z n in
  if PrimFloat.is_infinity f then Raise OverflowError else Ok f.

(** [int(f)] for a [float]: truncation towards zero; [ValueError] on NaN and
    [OverflowError] on an infinity. *)
Definition int_of_spec_float (x : spec_float) : result Z :=
  match x with
  | S754_zero _ => Ok 0
  | S754_nan => Raise ValueError
  | S754_infinity _ => Raise OverflowError
  | S754_finite s m e =>
      let a := if 0 <=? e then Zpos m * 2 ^ e else Zpos m / 2 ^ (- e) in
      Ok (if s then - a else a)
  end.

Definition int_of_float (f : float) : result Z := int_of_spec_float (Prim2SF f).

(** [m * 2 ^ k] on a mantissa. *)
Fixpoint shift_left (k : nat) (m : positive) : positive :=
  match k with
  | O => m
  | S k' => xO (shift_left k' m)
  end.

(** A record count as the data model has it: an integer, or missing. *)
Definition integer_or_missing (v : pyval) : Prop := v = PNone \/ exists n, v = PInt n.

(** [pd.isna(val)] on a scalar. *)
Definition isna (val : pyval) : bool :=
  match val with
  | PNone => true
  | PFloat f => PrimFloat.is_nan f
  | PInt _ | PStr _ | PNumpy _ => false
  end.

(** One element of the comparison [series > 0]: absent values compare false,
    a string against a number is a [TypeError]. *)
Definition gt_zero (val : pyval) : result bool :=
  match val with
  | PNone => Ok false
  | PInt n | PNumpy n => Ok (0 <? n)
  | PFloat f => Ok (0 <? f)%float
  | PStr _ => Raise TypeError
  end.

(** [isinstance(v, (int, float))]: a numpy integer is not an instance of
    [int]. *)
Definition is_number (val : pyval) : bool :=
  match val with
  | PInt _ | PFloat _ => true
  | PNone | PStr _ | PNumpy _ => false
  end.

(** ** Column dtypes

    The dtypes pandas gives the columns of the script.  Everything that is
    not an array of machine integers or of binary64 numbers is an array of
    Python objects. *)

Inductive dtype : Type := int64 | uint64 | float64 | object.

#[global] Instance dtype_eq_dec : EqDecision dtype.
Proof. solve_decision. Defined.

Definition in_int64 (n : Z) : bool := (- 2 ^ 63 <=? n) && (n <? 2 ^ 63).

Definition in_uint64 (n : Z) : bool := (0 <=? n) && (n <? 2 ^ 64).

(** The dtype pandas infers for a column of Python values: int64 for ints
    that all fit, uint64 for ints that fit once none is negative, float64
    for floats, object otherwise.  A column that holds [None] or a string
    beside its numbers is a column of objects, which keeps every value as
    it is. *)
Definition infer_dtype (values : list pyval) : dtype :=
  if forallb (fun v => match v with PInt n => in_int64 n | _ => false end) values then int64
  else if forallb (fun v => match v with PInt n => in_uint64 n | _ => false end) values
  then uint64
  else if forallb (fun v => match v with PFloat _ => true | _ => false end) values
  then float64
  else object.

(** The dtype of the array that holds columns of these dtypes together
    ([DataFrame.values]): int64 with uint64 is float64. *)
Definition common_dtype (dtypes : list dtype) : dtype :=
  if bool_decide (object ∈ dtypes) then object
  else if forallb (fun dt => bool_decide (dt = int64)) dtypes then int64
  else if forallb (fun dt => bool_decide (dt = uint64)) dtypes then uint64
  else float64.

(** An integer held in a float64 array, read back as a Python object. *)
Definition as_float64 (v : pyval) : pyval :=
  match v with
  | PInt n => PFloat (float_of_Z n)
  | _ => v
  end.

(** An element of an array of the given dtype, as iterating over the array
    yields it: a numpy scalar, or the Python object itself. *)
Definition array_scalar (dt : dtype) (v : pyval) : pyval :=
  match dt, v with
  | (int64 | uint64), PInt n => PNumpy n
  | float64, PInt n => PFloat (float_of_Z n)
  | _, _ => v
  end.

(** ** Calendar dates

    [ACTIVITY_DATE] holds pandas Timestamps at midnight; only their calendar
    fields are used. *)

Record date : Type := mkDate { year : Z; month : Z; day : Z }.

#[global] Instance date_eq_dec : EqDecision date.
Proof. solve_decision. Defined.

(** Dates as Python's [datetime] accepts them. *)
Definition date_in_range (d : date) : Prop :=
  1 <= year d <= 9999 /\ 1 <= month d <= 12 /\ 1 <= day d <= 31.

#[global] Instance date_in_range_dec (d : date) : Decision (date_in_range d).
Proof. unfold date_in_range. apply _. Defined.

(** Days since 1970-01-01 in the proleptic Gregorian calendar. *)
Definition days_from_civil (d : date) : Z :=
  let y := if month d <=? 2 then year d - 1 else year d in
  let era := y / 400 in
  let yoe := y - era * 400 in
  let mp := if 2 <? month d then month d - 3 else month d + 9 in
  let doy := (153 * mp + 2) / 5 + day d - 1 in
  let doe := yoe * 365 + yoe / 4 - yoe / 100 + doy in
  era * 146097 + doe - 719468.

(** [Timestamp.weekday()]: Monday is 0 and Sunday is 6. *)
Definition weekday_of (d : date) : Z := (days_from_civil d + 3) mod 7.

(** [Timestamp.day_name()]. *)
Definition day_name (d : date) : string :=
  nth (Z.to_nat (weekday_of d))
    ["Monday"; "Tuesday"; "Wednesday"; "Thursday"; "Friday"; "Saturday"; "Sunday"]
    "".

(** The weekend test of the script, [weekday() >= 5]. *)
Definition is_weekend (d : date) : bool := 5 <=? weekday_of d.

Definition digit (n : Z) : ascii := ascii_of_nat (48 + Z.to_nat n).

Definition pad2 (n : Z) : string :=
  String (digit (n / 10)) (String (digit (n mod 10)) EmptyString).

Definition pad4 (n : Z) : string :=
  String (digit (n / 1000)) (String (digit (n / 100 mod 10))
    (String (digit (n / 10 mod 10)) (String (digit (n mod 10)) EmptyString))).

(** [strftime("%d/%m/%Y")]. *)
Definition strftime_dmy (d : date) : string :=
  String.append (pad2 (day d))
    (String.append "/" (String.append (pad2 (month d))
       (String.append "/" (pad4 (year d))))).

(** Chronological order, on the calendar fields. *)
Definition date_le (a b : date) : Prop :=
  year a < year b \/
  (year a = year b /\ (month a < month b \/ (month a = month b /\ day a <= day b))).

Definition date_lt (a b : date) : Prop := date_le a b /\ a <> b.

#[global] Instance date_le_dec : RelDecision date_le.
Proof. intros a b. unfold date_le. apply _. Defined.

(** Code-point order on strings, as Python's [sorted] uses it. *)
Definition str_le (a b : string) : Prop := String.leb a b = true.

Definition str_lt (a b : string) : Prop := str_le a b /\ a <> b.

#[global] Instance str_le_dec : RelDecision str_le.
Proof. intros a b. unfold str_le. apply _. Defined.

(** [Series.unique()] and [DataFrame.drop_duplicates()]: the first occurrence
    of every value, in order of appearance. *)
Fixpoint drop_duplicates {A : Type} `{EqDecision A} (l : list A) : list A :=
  match l with
  | [] => []
  | x :: l' => x :: filter (fun y => y <> x) (drop_duplicates l')
  end.

(** ** Frames and worksheets *)

(** A row of an activity query: the columns of the SQL result. *)
Record activity_record : Type := mkActivity {
  PROVIDER : string;
  ACTIVITY_DATE : date;
  RECORDS : pyval
}.

(** The same row once [build_pivot_table] has assigned its two display
    columns. *)
Record pivot_row : Type := mkPivotRow {
  base : activity_record;
  DAY_LABEL : string;
  WEEKDAY : string
}.

(** A row of [PROVIDER_MISSING_SUMMARY]. *)
Record summary_row : Type := mkSummary {
  SUMMARY_PROVIDER : pyval;
  APC_MISSING_DAYS : pyval;
  OP_MISSING_DAYS : pyval;
  ECDS_MISSING_DAYS : pyval;
  TOTAL_MISSING_SUBMISSIONS : pyval;
  ACTION_REQUIRED : pyval
}.

(** The [PatternFill]s of the script, by the name it gives them;
    [weekend_fill] is the unnamed D9D9D9 fill of weekend headers. *)
Inductive pattern_fill : Type :=
  | red_fill
  | green_fill
  | yellow_fill
  | orange_fill
  | weekend_fill.

#[global] Instance pattern_fill_eq_dec : EqDecision pattern_fill.
Proof. solve_decision. Defined.

Record cell : Type := mkCell { value : pyval; fill : option pattern_fill }.

Definition new_cell (v : pyval) : cell := {| value := v; fill := None |}.

Definition set_fill (f : pattern_fill) (c : cell) : cell :=
  {| value := value c; fill := Some f |}.

(** The rows a renderer writes, first row first. *)
Definition worksheet : Type := list (list cell).

(** [ws.append(values)]. *)
Definition ws_append (ws : worksheet) (values : list pyval) : worksheet :=
  ws ++ [fmap new_cell values].

(** The entry of a sheet block at a row and a column, both counted from 0. *)
Definition sheet_cell (ws : worksheet) (r c : nat) : option cell :=
  match ws !! r with
  | Some row => row !! c
  | None => None
  end.

(** Baseline statistics of one provider and one weekday class. *)
Record baseline : Type := mkBaseline { mean : float; std : float }.

(** [provider_stats[provider]]: the dictionary with the two keys
    ["weekday"] and ["weekend"]. *)
Record class_stats : Type := mkStats {
  weekday : option baseline;
  weekend : option baseline
}.

(** An entry of [day_order]: the three columns it keeps. *)
Definition day_entry : Type := date * string * string.

Definition entry_date (t : day_entry) : date := t.1.1.
Definition entry_label (t : day_entry) : string := t.1.2.
Definition entry_weekday (t : day_entry) : string := t.2.

Definition entry_le (a b : day_entry) : Prop := date_le (entry_date a) (entry_date b).

#[global] Instance entry_le_dec : RelDecision entry_le.
Proof. intros a b. unfold entry_le. apply _. Defined.

(** The anomaly classes of the specification, read off a data cell's fill. *)
Inductive classification : Type := MISSING | SEVERE | MODERATE | NORMAL.

Definition classify (f : option pattern_fill) : option classification :=
  match f with
  | Some red_fill => Some MISSING
  | Some orange_fill => Some SEVERE
  | Some yellow_fill => Some MODERATE
  | Some green_fill => Some NORMAL
  | Some weekend_fill | None => None
  end.

(** ** The dbt commands and the Snowflake connection

    [run_dbt] (lines 25-35) and the connection the two query functions open
    (lines 38-46 and 57-65) act on the outside world.  What the commands do
    and what the process environment holds are inputs; what [run_dbt] prints
    and launches is returned as a trace. *)

(** What [subprocess.run(args, check=True)] meets: the command cannot be
    started (an [OSError], such as [FileNotFoundError]), or it runs and
    exits with a return code. *)
Inductive completed : Type :=
  | NotStarted
  | Exited (returncode : Z).

Inductive action : Type :=
  | Printed (text : string)
  | Launch (args : list string) (cwd : string).

(** How a call of [run_dbt] ends. *)
Inductive dbt_outcome : Type :=
  | Returned
  | CalledProcessError (args : list string) (returncode : Z)
  | OSError (args : list string).

Definition project_dir : string := "c:/dev/dbt test/sus_unified_dbt_project".

Definition dbt_test_warning : string := "⚠️ dbt test failed, continuing with pipeline...".

(** Lines 25-35.  [check=True] raises [CalledProcessError] on a return code
    other than 0; only the one of [dbt test] is caught. *)
Definition run_dbt (dbt : list string -> completed) : list action * dbt_outcome :=
  let trace := [Printed "Running dbt models..."; Launch ["dbt"; "run"] project_dir] in
  match dbt ["dbt"; "run"] with
  | NotStarted => (trace, OSError ["dbt"; "run"])
  | Exited code =>
      if code =? 0 then
        let trace :=
          trace ++ [Printed "Running dbt tests..."; Launch ["dbt"; "test"] project_dir] in
        match dbt ["dbt"; "test"] with
        | NotStarted => (trace, OSError ["dbt"; "test"])
        | Exited code' =>
            if code' =? 0 then (trace, Returned)
            else (trace ++ [Printed dbt_test_warning], Returned)
        end
      else (trace, CalledProcessError ["dbt"; "run"] code)
  end.

(** [os.environ]. *)
Definition environ : Type := gmap string string.

(** [os.environ[name]]. *)
Definition environ_getitem (env : environ) (name : string) : result string :=
  match env !! name with
  | Some v => Ok v
  | None => Raise KeyError
  end.

(** The keyword arguments of [snowflake.connector.connect]. *)
Record connect_args : Type := mkConnect {
  user : string;
  account : string;
  warehouse : string;
  database : string;
  schema : string;
  role : option string;
  authenticator : string
}.

(** Lines 38-46 and 57-65: the arguments are evaluated in order, before the
    connection is attempted; [os.environ.get] returns [None], or its
    default, for a variable that is not set. *)
Definition connect_arguments (env : environ) : result connect_args :=
  let! user := environ_getitem env "SNOWFLAKE_USER" in
  let! account := environ_getitem env "SNOWFLAKE_ACCOUNT" in
  let! warehouse := environ_getitem env "SNOWFLAKE_WAREHOUSE" in
  let! database := environ_getitem env "SNOWFLAKE_DATABASE" in
  let! schema := environ_getitem env "SNOWFLAKE_SCHEMA" in
  Ok {| user := user; account := account; warehouse := warehouse; database := database;
        schema := schema;
        role := env !! "SNOWFLAKE_ROLE";
        authenticator := default "externalbrowser" (env !! "SNOWFLAKE_AUTHENTICATOR") |}.

(** ** Reference instances of the library parameters

    Used to run the renderers on concrete frames: the textbook mean and
    sample standard deviation (ddof = 1) in binary64, summed left to right,
    and a reader of unsigned decimal literals. *)

Definition value_as_float (v : pyval) : float :=
  match v with
  | PInt n => float_of_Z n
  | PNumpy n => float_of_Z n
  | PFloat f => f
  | PNone | PStr _ => nan
  end.

Definition float_sum (l : list float) : float := foldl PrimFloat.add 0%float l.

Definition mean_ref (l : list pyval) : float :=
  (float_sum (fmap value_as_float l) / float_of_Z (Z.of_nat (length l)))%float.

Definition std_ref (l : list pyval) : float :=
  let m := mean_ref l in
  let sq := fmap (fun v => let d := (value_as_float v - m)%float in (d * d)%float) l in
  sqrt (float_sum sq / float_of_Z (Z.of_nat (length l) - 1))%float.

Fixpoint digits_value (s : string) (acc : Z) : option Z :=
  match s with
  | EmptyString => Some acc
  | String c s' =>
      let n := Z.of_nat (nat_of_ascii c) in
      if (48 <=? n) && (n <=? 57) then digits_value s' (10 * acc + (n - 48)) else None
  end.

Definition int_of_str_ref (s : string) : option Z :=
  match s with
  | EmptyString => None
  | _ => digits_value s 0
  end.

Definition float_of_str_ref (s : string) : option float :=
  fmap float_of_Z (int_of_str_ref s).

Section Pipeline.

(** Python's [float(s)] and [int(s)] on a string; [None] is a [ValueError]. *)
Variable float_of_str : string -> option float.
Variable int_of_str : string -> option Z.

(** pandas' [Series.mean()] and [Series.std()] on the qualifying values. *)
Variable series_mean : list pyval -> float.
Variable series_std : list pyval -> float.

(** [datetime.now().strftime("dbt Pipeline run at ...")]. *)
Variable timestamp : string.

(** [float(val)]. *)
Definition py_float (val : pyval) : result float :=
  match val with
  | PNone => Raise TypeError
  | PInt n | PNumpy n => float_of_int n
  | PFloat f => Ok f
  | PStr s =>
      match float_of_str s with
      | Some f => Ok f
      | None => Raise ValueError
      end
  end.

(** [int(val)]: a [TypeError] on [None]; on a float, NaN is a [ValueError]
    and an infinity an [OverflowError]. *)
Definition py_int (val : pyval) : result Z :=
  match val with
  | PNone => Raise TypeError
  | PInt n | PNumpy n => Ok n
  | PFloat f => int_of_float f
  | PStr s =>
      match int_of_str s with
      | Some n => Ok n
      | None => Raise ValueError
      end
  end.

(** *** build_summary_table (lines 82-128) *)

Definition summary_headers : list pyval :=
  [PStr "Provider"; PStr "APC Missing"; PStr "OP Missing"; PStr "ECDS Missing";
   PStr "Total Missing"; PStr "Action Required"].

Definition summary_values (row : summary_row) : list pyval :=
  [SUMMARY_PROVIDER row; APC_MISSING_DAYS row; OP_MISSING_DAYS row;
   ECDS_MISSING_DAYS row; TOTAL_MISSING_SUBMISSIONS row; ACTION_REQUIRED row].

(** The body of the loop of lines 118-128 on one data row. *)
Definition fill_summary_row (row : list cell) : result (list cell) :=
  match row with
  | [provider; apc; op; ecds; total; action] =>
      let! t := py_int (value total) in
      if 0 <? t then Ok (fmap (set_fill red_fill) row)
      else Ok (fmap (set_fill green_fill) row)
  | _ => Raise ValueError
  end.

(** The renderer returns the frame it was given, which it only reads, and
    the block it wrote: the title row, the header row and one row per frame
    row. *)
Definition build_summary_table (df : list summary_row) (title : string)
    : result (list summary_row * worksheet) :=
  let ws := [[new_cell (PStr title)]] in
  let ws := ws_append ws summary_headers in
  let ws := foldl (fun ws row => ws_append ws (summary_values row)) ws df in
  let first_data_row := 2%nat in
  let! data := enumerate_mapM (fun _ row => fill_summary_row row) 0 (drop first_data_row ws) in
  Ok (df, take first_data_row ws ++ data).

(** *** build_pivot_table (lines 130-250) *)

(** Lines 131-133: [ACTIVITY_DATE] is already a Timestamp and is kept;
    [DAY_LABEL] and [WEEKDAY] are assigned. *)
Definition assign_columns (df : list activity_record) : list pivot_row :=
  fmap (fun r => {| base := r;
                   DAY_LABEL := strftime_dmy (ACTIVITY_DATE r);
                   WEEKDAY := substring 0 3 (day_name (ACTIVITY_DATE r)) |}) df.

(** Line 135. *)
Definition day_order (df : list pivot_row) : list day_entry :=
  merge_sort entry_le
    (drop_duplicates (fmap (fun r => (ACTIVITY_DATE (base r), DAY_LABEL r, WEEKDAY r)) df)).

(** The entry [day_order] keeps for a date. *)
Definition day_entry_of (d : date) : day_entry :=
  (d, strftime_dmy d, substring 0 3 (day_name d)).

(** Line 138. *)
Definition providers (df : list pivot_row) : list string :=
  merge_sort str_le (drop_duplicates (fmap (fun r => PROVIDER (base r)) df)).

(** The index and the column of a row in the pivot of line 140. *)
Definition pivot_key (r : pivot_row) : string * string := (PROVIDER (base r), DAY_LABEL r).

(** Line 140, [df.pivot]: one entry per (PROVIDER, DAY_LABEL) pair, and a
    [ValueError] when a pair occurs twice. *)
Fixpoint pivot_entries (df : list pivot_row) (acc : gmap (string * string) pyval)
    : result (gmap (string * string) pyval) :=
  match df with
  | [] => Ok acc
  | r :: df' =>
      let k := pivot_key r in
      match acc !! k with
      | Some _ => Raise ValueError
      | None => pivot_entries df' (<[k := RECORDS (base r)]> acc)
      end
  end.

(** Line 140, [df.pivot]: the entries, in one array.  When a provider has no
    row for one of the days, the array has a NaN there, and an array of
    integers cannot hold it: the counts of an int64 or uint64 column are
    then held as float64, each rounded to the nearest binary64. *)
Definition df_pivot (df : list pivot_row) : result (gmap (string * string) pyval) :=
  let! entries := pivot_entries df ∅ in
  let index := drop_duplicates (fmap (fun r => PROVIDER (base r)) df) in
  let columns := drop_duplicates (fmap DAY_LABEL df) in
  let full :=
    forallb (fun p => forallb (fun l => bool_decide (is_Some (entries !! (p, l)))) columns)
      index in
  match infer_dtype (fmap (fun r => RECORDS (base r)) df) with
  | int64 | uint64 => Ok (if full then entries else fmap as_float64 entries)
  | float64 | object => Ok entries
  end.

(** Line 141, [reindex]: the grid by provider and label, with NaN where the
    pivot has no entry. *)
Definition reindex (m : gmap (string * string) pyval) (index columns : list string)
    : list (list pyval) :=
  fmap (fun p => fmap (fun l => default (PFloat nan) (m !! (p, l))) columns) index.

(** The column of a grid at a position counted from 0. *)
Definition grid_column (grid : list (list pyval)) (j : nat) : list pyval :=
  omap (fun row : list pyval => row !! j) grid.

(** Lines 167 and 199-200.  [DataFrame.map] infers the dtype of every column
    of its result, and [iterrows] takes the rows from the one array of all
    the columns: the elements of a row are Python objects when that array is
    an array of objects, and numpy scalars otherwise. *)
Definition values_dtype (width : nat) (pivot : list (list pyval)) : dtype :=
  common_dtype (fmap (fun j => infer_dtype (grid_column pivot j)) (seq 0 width)).

Definition iterrows (width : nat) (pivot : list (list pyval)) : list (list pyval) :=
  fmap (fun row : list pyval => fmap (array_scalar (values_dtype width pivot)) row) pivot.

(** The value of the grid in a row and a column, both counted from 0. *)
Definition grid_cell (grid : list (list pyval)) (i j : nat) : option pyval :=
  match grid !! i with
  | Some row => row !! j
  | None => None
  end.

(** Line 152: [series[series.notna() & (series > 0)]]. *)
Fixpoint valid_values (series : list pyval) : result (list pyval) :=
  match series with
  | [] => Ok []
  | v :: series' =>
      let! positive := gt_zero v in
      let! rest := valid_values series' in
      Ok (if negb (isna v) && positive then v :: rest else rest)
  end.

(** Lines 152-156, the body of the loop over the two labels. *)
Definition series_stats (series : list pyval) : result (option baseline) :=
  let! valid := valid_values series in
  if (2 <? length valid)%nat
  then Ok (Some {| mean := series_mean valid; std := series_std valid |})
  else Ok None.

(** Lines 146-156, the body of the loop over the providers. *)
Definition stats_of_provider (df : list pivot_row) (provider : string) : result class_stats :=
  let provider_data := filter (fun r => PROVIDER (base r) = provider) df in
  let weekday_data :=
    fmap (fun r => RECORDS (base r))
      (filter (fun r => weekday_of (ACTIVITY_DATE (base r)) < 5) provider_data) in
  let weekend_data :=
    fmap (fun r => RECORDS (base r))
      (filter (fun r => 5 <= weekday_of (ACTIVITY_DATE (base r))) provider_data) in
  let! on_weekdays := series_stats weekday_data in
  let! on_weekends := series_stats weekend_data in
  Ok {| weekday := on_weekdays; weekend := on_weekends |}.

(** The qualifying values in the words of the specification: the record
    counts of a provider in one weekday class that are not missing and
    strictly positive, in frame order.  [stats_of_provider] is compared with
    it below. *)
Definition qualifies (provider : string) (on_weekend : bool) (r : activity_record) : bool :=
  bool_decide (PROVIDER r = provider)
  && bool_decide (is_weekend (ACTIVITY_DATE r) = on_weekend)
  && negb (isna (RECORDS r))
  && match gt_zero (RECORDS r) with Ok b => b | Raise _ => false end.

Definition qualifying_values (df : list activity_record) (provider : string)
    (on_weekend : bool) : list pyval :=
  fmap RECORDS (filter (fun r => qualifies provider on_weekend r = true) df).

(** Lines 144-157. *)
Fixpoint provider_stats_loop (df : list pivot_row) (ps : list string)
    (provider_stats : gmap string class_stats) : result (gmap string class_stats) :=
  match ps with
  | [] => Ok provider_stats
  | provider :: ps' =>
      let! stats := stats_of_provider df provider in
      provider_stats_loop df ps' (<[provider := stats]> provider_stats)
  end.

(** Lines 159-165. *)
Definition map_status (val : pyval) : pyval :=
  if isna val then PStr "MISSING"
  else
    match
      (let! f := py_float val in
       if (f =? 0)%float then Ok (PStr "MISSING")
       else let! n := py_int val in Ok (PInt n))
    with
    | Ok v => v
    | Raise _ => PStr "MISSING"
    end.

(** [c.value == "MISSING"]. *)
Definition is_missing (v : pyval) : bool :=
  match v with
  | PStr s => String.eqb s "MISSING"
  | PNone | PInt _ | PFloat _ | PNumpy _ => false
  end.

(** The dtype of the array [iterrows] takes the rows of line 199 from, for
    the pivot [m] of a frame. *)
Definition status_dtype (df : list pivot_row) (m : gmap (string * string) pyval) : dtype :=
  let columns := fmap entry_label (day_order df) in
  values_dtype (length columns)
    (fmap (fun row : list pyval => fmap map_status row) (reindex m (providers df) columns)).

(** [ws[header_row]] after [ws.append(values)]: the cells of the row from
    column 1 to the last column in use anywhere on the sheet; the cells
    beyond the appended values are created empty. *)
Definition header_cells (max_column : nat) (values : list pyval) : list cell :=
  fmap new_cell values ++ replicate (max_column - length values) (new_cell PNone).

(** Lines 178-185 and 189-196: the weekend highlight of one header cell.
    [idx] counts the cells of the row from 1. *)
Definition fill_header_cell (order : list day_entry) (idx : nat) (c : cell) : result cell :=
  if (1 <? idx)%nat then
    let! entry := index order (idx - 2) in
    if 5 <=? weekday_of (entry_date entry) then Ok (set_fill weekend_fill c) else Ok c
  else Ok c.

(** A header cell once [fill_header_cell] has visited it in the column of
    entry [e]. *)
Definition weekend_mark (e : day_entry) (c : cell) : cell :=
  if is_weekend (entry_date e) then set_fill weekend_fill c else c.

(** Lines 234-243: the fill chosen from the baseline of the cell's class. *)
Definition baseline_fill (stats : option baseline) (v : pyval) : result pattern_fill :=
  match stats with
  | Some b =>
      if (0 <? std b)%float then
        let! x := py_float v in
        let z_score := abs ((x - mean b) / std b)%float in
        if (3 <? z_score)%float then Ok orange_fill
        else if (2 <? z_score)%float then Ok yellow_fill
        else Ok green_fill
      else Ok green_fill
  | None => Ok green_fill
  end.

(** Lines 222-245: the body of the loop over the cells of a data row.
    [j] counts the cells of the row from 1.  A cell that holds neither
    ["MISSING"] nor an [int] or a [float] is filled green at line 245. *)
Definition fill_data_cell (order : list day_entry) (provider_stats : gmap string class_stats)
    (provider_name : string) (j : nat) (c : cell) : result cell :=
  if (j =? 1)%nat then Ok c
  else if is_missing (value c) then Ok (set_fill red_fill c)
  else if is_number (value c) then
    let! entry := index order (j - 2) in
    let is_weekend := 5 <=? weekday_of (entry_date entry) in
    match provider_stats !! provider_name with
    | None => Raise KeyError
    | Some stats_of =>
        let stats := if is_weekend then weekend stats_of else weekday stats_of in
        let! f := baseline_fill stats (value c) in
        Ok (set_fill f c)
    end
  else Ok (set_fill green_fill c).

(** Lines 220-245: the body of the loop over the data rows. *)
Definition fill_data_row (order : list day_entry) (provider_stats : gmap string class_stats)
    (ps : list string) (row_idx : nat) (row : list cell) : result (list cell) :=
  let! provider_name := index ps row_idx in
  enumerate_mapM (fill_data_cell order provider_stats provider_name) 1 row.

(** The renderer returns the frame with its assigned columns and the block it
    wrote: three title rows, the weekday row, the date header row and one
    data row per provider.  [max_column] is the width of the sheet before
    the call; the script always passes a [start_row] below the rows already
    written, so the block is what the row loops of the renderer visit. *)
Definition build_pivot_table (max_column : nat) (df : list activity_record) (title : string)
    : result (list pivot_row * worksheet) :=
  let df := assign_columns df in
  let order := day_order df in
  let day_labels_sorted := fmap entry_label order in
  let weekday_labels_sorted := fmap entry_weekday order in
  let ps := providers df in
  let! pivot_records := df_pivot df in
  let pivot_records := reindex pivot_records ps day_labels_sorted in
  let! provider_stats := provider_stats_loop df ps ∅ in
  let pivot := fmap (fun row : list pyval => fmap map_status row) pivot_records in
  let ws := [[new_cell (PStr timestamp)]; [new_cell (PStr "")]; [new_cell (PStr title)]] in
  let header_row := 3%nat in
  let! weekday_cells :=
    enumerate_mapM (fill_header_cell order) 1
      (header_cells max_column (PStr "" :: fmap PStr weekday_labels_sorted)) in
  let ws := ws ++ [weekday_cells] in
  let! date_cells :=
    enumerate_mapM (fill_header_cell order) 1
      (header_cells max_column (PStr "Provider" :: fmap PStr day_labels_sorted)) in
  let ws := ws ++ [date_cells] in
  let ws :=
    foldl (fun ws '(provider, row) => ws_append ws (PStr provider :: row)) ws
      (zip ps (iterrows (length day_labels_sorted) pivot)) in
  let first_data_row := (header_row + 2)%nat in
  let! data :=
    enumerate_mapM (fill_data_row order provider_stats ps) 0 (drop first_data_row ws) in
  Ok (df, take first_data_row ws ++ data).

(** *** export_to_excel (lines 253-276) and the [__main__] block *)

(** The width of a block. *)
Definition block_width (ws : worksheet) : nat := foldr (fun row n => max (length row) n) 0%nat ws.

(** The blocks follow one another: the two empty rows appended after the
    summary receive the first two title rows of the inpatient block, and
    [start_row = ws.max_row + 3] leaves two empty rows before the next
    blocks. *)
Definition export_to_excel (df_summary : list summary_row)
    (df_inpatient df_op df_ecds : list activity_record) : result worksheet :=
  let! summary :=
    build_summary_table df_summary
      "Provider Missing Days Summary (Rolling 20 Day Monitoring Window)" in
  let ws := summary.2 in
  let! inpatient :=
    build_pivot_table (block_width ws) df_inpatient "Inpatient Provider Daily Status" in
  let ws := ws ++ inpatient.2 in
  let! outpatient :=
    build_pivot_table (block_width ws) df_op "Outpatient Provider Daily Status" in
  let ws := ws ++ [[]; []] ++ outpatient.2 in
  let! ecds :=
    build_pivot_table (block_width ws) df_ecds "Emergency Attendances (ECDS) Daily Status" in
  Ok (ws ++ [[]; []] ++ ecds.2).

(** How a run of the script ends. *)
Inductive outcome : Type :=
  | SysExit (code : Z)                          (* [sys.exit(code)], nothing written *)
  | Saved (filename : string) (ws : worksheet)  (* the report is written, status 0 *)
  | Uncaught (e : exn)                          (* traceback, status 1 *)
  | Rejected (lineno : nat).                    (* the file does not compile, status 1 *)

Definition exit_code (o : outcome) : Z :=
  match o with
  | SysExit code => code
  | Saved _ _ => 0
  | Uncaught _ | Rejected _ => 1
  end.

Definition output_file (o : outcome) : option string :=
  match o with
  | Saved filename _ => Some filename
  | SysExit _ | Uncaught _ | Rejected _ => None
  end.

(** [df.empty] on a frame with its columns. *)
Definition empty {A : Type} (df : list A) : bool :=
  match df with
  | [] => true
  | _ :: _ => false
  end.

(** The statements of lines 308-314, read as the body they are meant to be:
    the guard, then the export. *)
Definition main_body (df_summary : list summary_row)
    (df_inpatient df_op df_ecds : list activity_record) : outcome :=
  if empty df_summary || empty df_inpatient || empty df_op || empty df_ecds
  then SysExit 0
  else
    match export_to_excel df_summary df_inpatient df_op df_ecds with
    | Ok ws => Saved "provider_status.xlsx" ws
    | Raise e => Uncaught e
    end.

(** *** The layout of the [__main__] block (lines 284-314)

    Python compiles a file before it runs any of it.  A logical line is kept
    with the number of its first physical line, its indentation and whether
    it ends in a colon. *)

Record logical_line : Type := mkLine { lineno : nat; indent : nat; opens_block : bool }.

Definition main_block : list logical_line :=
  [ mkLine 284 0 true;     (* if __name__ == "__main__": *)
    mkLine 285 4 false;    (* run_dbt() *)
    mkLine 286 4 false;    (* df_summary = query_snowflake_summary() *)
    mkLine 287 4 false;    (* df_inpatient = query_snowflake_activity(...), to line 292 *)
    mkLine 294 0 false;    (* df_op = query_snowflake_activity(...), to line 299 *)
    mkLine 301 0 false;    (* df_ecds = query_snowflake_activity(...), to line 306 *)
    mkLine 308 4 true;     (* if df_summary.empty or ...: *)
    mkLine 309 8 false;    (* print(...) *)
    mkLine 310 8 false;    (* sys.exit(0) *)
    mkLine 312 4 false;    (* filename = export_to_excel(...) *)
    mkLine 313 4 false;    (* open_excel(filename) *)
    mkLine 314 4 false ].  (* print(...) *)

(** The open levels that are left once the levels deeper than [n] are
    closed. *)
Fixpoint dropwhile_gt (n : nat) (stack : list nat) : list nat :=
  match stack with
  | [] => []
  | top :: stack' => if (n <? top)%nat then dropwhile_gt n stack' else stack
  end.

(** Python's indentation rule on a sequence of logical lines: [stack] holds
    the open indentation levels, innermost first, and [after_colon] says
    whether the previous line opened a block.  The result is the line of the
    first [IndentationError], if there is one. *)
Fixpoint check_indent (stack : list nat) (after_colon : bool) (lines : list logical_line)
    : option nat :=
  match lines with
  | [] => None
  | l :: lines' =>
      let top := hd 0%nat stack in
      if (top <? indent l)%nat then
        (* deeper: only as the body of the block just opened *)
        if after_colon then check_indent (indent l :: stack) (opens_block l) lines'
        else Some (lineno l)
      else if after_colon then Some (lineno l)
      else
        (* same level or a dedent to an open level *)
        let stack' := dropwhile_gt (indent l) stack in
        if (hd 0%nat stack' =? indent l)%nat
        then check_indent stack' (opens_block l) lines'
        else Some (lineno l)
  end.

(** A run of the script as it is written: it is compiled first. *)
Definition run_script (df_summary : list summary_row)
    (df_inpatient df_op df_ecds : list activity_record) : outcome :=
  match check_indent [0%nat] false main_block with
  | Some line => Rejected line
  | None => main_body df_summary df_inpatient df_op df_ecds
  end.

End Pipeline.

(** ** Frames for the examples *)

Definition january (k : Z) : date := mkDate 2024 1 k.

(** Three weeks of January 2024, which starts on a Monday.  Trust A reports
    every day, with one spike on Wednesday the 10th and nothing on Saturday
    the 13th; Trust B reports three times only; Trust C reports on weekdays,
    twice at double its usual count. *)
Definition inpatient_frame : list activity_record :=
  fmap (fun k => mkActivity "Trust A" (january k)
                   (PInt (if k =? 10 then 400 else if k =? 13 then 0 else 100)))
       (seqZ 1 21)
  ++ [ mkActivity "Trust B" (january 2) (PInt 12);
       mkActivity "Trust B" (january 3) (PInt 900);
       mkActivity "Trust B" (january 7) (PFloat 0.5) ]
  ++ fmap (fun k => mkActivity "Trust C" (january k)
                      (PInt (if (k =? 9) || (k =? 16) then 200 else 100)))
          (filter (fun k => is_weekend (january k) = false) (seqZ 1 21)).

(** Providers A and B on the first two days of 2024; B has no row for the
    first day. *)
Definition two_by_two_frame : list activity_record :=
  [ mkActivity "B" (mkDate 2024 1 2) (PInt 5);
    mkActivity "A" (mkDate 2024 1 1) (PInt 3);
    mkActivity "A" (mkDate 2024 1 2) (PInt 4) ].

Definition summary_frame : list summary_row :=
  [ mkSummary (PStr "Trust A") (PInt 0) (PInt 0) (PInt 0) (PInt 0) (PStr "No");
    mkSummary (PStr "Trust B") (PInt 2) (PInt 0) (PInt 0) (PInt 2) (PStr "Yes") ].

Definition run_timestamp : string := "dbt Pipeline run at 09:00 GMT, 03 Nov 2026".

(** The inpatient block of the report on [inpatient_frame], on a sheet that
    so far holds the six columns of the summary, and the summary block on
    [summary_frame], with the reference instances of the parameters. *)
Definition inpatient_title : string := "Inpatient Provider Daily Status".

Definition inpatient_run : result (list pivot_row * worksheet) :=
  Eval vm_compute in
    build_pivot_table float_of_str_ref int_of_str_ref mean_ref std_ref run_timestamp
      6 inpatient_frame inpatient_title.

Definition inpatient_rows : list pivot_row :=
  match inpatient_run with
  | Ok (df, _) => df
  | Raise _ => []
  end.

Definition inpatient_sheet : worksheet :=
  match inpatient_run with
  | Ok (_, ws) => ws
  | Raise _ => []
  end.

Definition trust_a_stats : class_stats :=
  Eval vm_compute in
    match stats_of_provider mean_ref std_ref inpatient_rows "Trust A" with
    | Ok st => st
    | Raise _ => {| weekday := None; weekend := None |}
    end.

Definition trust_b_stats : class_stats :=
  Eval vm_compute in
    match stats_of_provider mean_ref std_ref inpatient_rows "Trust B" with
    | Ok st => st
    | Raise _ => {| weekday := None; weekend := None |}
    end.

Definition summary_title : string :=
  "Provider Missing Days Summary (Rolling 20 Day Monitoring Window)".

Definition summary_run : result (list summary_row * worksheet) :=
  Eval vm_compute in build_summary_table int_of_str_ref summary_frame summary_title.

Definition summary_sheet : worksheet :=
  match summary_run with
  | Ok (_, ws) => ws
  | Raise _ => []
  end.

(** Trust A alone, on every day of the same three weeks: 100 records on a
    weekday and 30 on a weekend day, but 400 on Wednesday the 10th and 100
    on Saturday the 13th.  No count is zero and no day is left out. *)
Definition full_frame : list activity_record :=
  fmap (fun k => mkActivity "Trust A" (january k)
                   (PInt (if k =? 10 then 400 else if k =? 13 then 100
                          else if is_weekend (january k) then 30 else 100)))
       (seqZ 1 21).

Definition full_run : result (list pivot_row * worksheet) :=
  Eval vm_compute in
    build_pivot_table float_of_str_ref int_of_str_ref mean_ref std_ref run_timestamp
      6 full_frame inpatient_title.

Definition full_sheet : worksheet :=
  match full_run with
  | Ok (_, ws) => ws
  | Raise _ => []
  end.

Definition full_stats : class_stats :=
  Eval vm_compute in
    match stats_of_provider mean_ref std_ref (assign_columns full_frame) "Trust A" with
    | Ok st => st
    | Raise _ => {| weekday := None; weekend := None |}
    end.

(** Trust A alone with counts that are floats: 100 every day, but half a
    record on Wednesday the 10th. *)
Definition fraction_frame : list activity_record :=
  fmap (fun k => mkActivity "Trust A" (january k) (PFloat (if k =? 10 then 0.5 else 100)))
       (seqZ 1 21).

Definition fraction_run : result (list pivot_row * worksheet) :=
  Eval vm_compute in
    build_pivot_table float_of_str_ref int_of_str_ref mean_ref std_ref run_timestamp
      6 fraction_frame inpatient_title.

Definition fraction_sheet : worksheet :=
  match fraction_run with
  | Ok (_, ws) => ws
  | Raise _ => []
  end.

Definition fraction_stats : class_stats :=
  Eval vm_compute in
    match stats_of_provider mean_ref std_ref (assign_columns fraction_frame) "Trust A" with
    | Ok st => st
    | Raise _ => {| weekday := None; weekend := None |}
    end.

(** A week of outpatient counts: Trust A reports every day, with nothing on
    Thursday the 4th; Trust B has one row, without a count. *)
Definition outpatient_frame : list activity_record :=
  fmap (fun k => mkActivity "Trust A" (january k) (PInt (if k =? 4 then 0 else 50)))
       (seqZ 1 7)
  ++ [ mkActivity "Trust B" (january 3) PNone ].

(** Trust A twice on the same day. *)
Definition repeated_frame : list activity_record :=
  [ mkActivity "Trust A" (january 1) (PInt 100);
    mkActivity "Trust B" (january 1) (PInt 80);
    mkActivity "Trust A" (january 1) (PInt 100) ].

(** A count that is text. *)
Definition text_frame : list activity_record :=
  [ mkActivity "Trust A" (january 1) (PInt 100);
    mkActivity "Trust A" (january 2) (PStr "n/a") ].

(** A summary row without a total. *)
Definition absent_total_frame : list summary_row :=
  [ mkSummary (PStr "Trust A") (PInt 0) (PInt 0) (PInt 0) (PInt 0) (PStr "No");
    mkSummary (PStr "Trust C") (PInt 1) PNone (PInt 0) PNone (PStr "Yes") ].

(** The report on [summary_frame] and, for the three feeds, on
    [outpatient_frame]. *)
Definition report_run : result worksheet :=
  Eval vm_compute in
    export_to_excel float_of_str_ref int_of_str_ref mean_ref std_ref run_timestamp
      summary_frame outpatient_frame outpatient_frame outpatient_frame.

Definition report_sheet : worksheet :=
  match report_run with
  | Ok ws => ws
  | Raise _ => []
  end.

(** A process environment with the five required variables and a role. *)
Definition snowflake_env : environ :=
  list_to_map
    [ ("SNOWFLAKE_USER", "reporter"); ("SNOWFLAKE_ACCOUNT", "nhs-sus");
      ("SNOWFLAKE_WAREHOUSE", "REPORTING"); ("SNOWFLAKE_DATABASE", "SUS");
      ("SNOWFLAKE_SCHEMA", "UNIFIED"); ("SNOWFLAKE_ROLE", "ANALYST") ].

(** * Lemmas on the data model

    ** The error monad and the loops *)

Lemma bind_Ok {A B : Type} (m : result A) (k : A -> result B) (b : B) :
  bind m k = Ok b -> exists a, m = Ok a /\ k a = Ok b.
Proof. destruct m as [a|e]; simpl; [eauto | discriminate]. Qed.

Ltac bind_inv H :=
  let a := fresh "a" in
  let Ha := fresh "Ha" in
  apply bind_Ok in H; destruct H as (a & Ha & H).

Lemma index_Ok {A : Type} (l : list A) (i : nat) (x : A) :
  index l i = Ok x <-> l !! i = Some x.
Proof. unfold index. destruct (l !! i); split; congruence. Qed.

Lemma enumerate_mapM_Ok {A B : Type} (f : nat -> A -> result B) (l : list A) :
  forall (start : nat) (l' : list B),
    enumerate_mapM f start l = Ok l' ->
    length l' = length l /\
    forall (k : nat) (x : A), l !! k = Some x ->
      exists y, f (start + k)%nat x = Ok y /\ l' !! k = Some y.
Proof.
  induction l as [|x0 l IH]; intros start l' H; simpl in H.
  - injection H as <-. split; [reflexivity | intros k x Hk; discriminate].
  - bind_inv H. bind_inv H. injection H as <-.
    destruct (IH _ _ Ha0) as [Hlen Hnth]. split; [simpl; congruence |].
    intros [|k] x Hk; simpl in Hk.
    + injection Hk as <-. exists a. rewrite Nat.add_0_r. auto.
    + destruct (Hnth k x Hk) as (y & Hy & Hl). exists y.
      rewrite Nat.add_succ_r. auto.
Qed.

Lemma enumerate_mapM_total {A B : Type} (f : nat -> A -> result B) (l : list A) :
  forall (start : nat),
    (forall (k : nat) (x : A), l !! k = Some x -> exists y, f (start + k)%nat x = Ok y) ->
    exists l', enumerate_mapM f start l = Ok l'.
Proof.
  induction l as [|x0 l IH]; intros start H; simpl.
  - eauto.
  - destruct (H 0%nat x0 eq_refl) as [y Hy]. rewrite Nat.add_0_r in Hy. rewrite Hy. simpl.
    destruct (IH (S start)) as [ys Hys].
    + intros k x Hk. specialize (H (S k) x Hk). rewrite Nat.add_succ_r in H. exact H.
    + rewrite Hys. simpl. eauto.
Qed.

(** ** Duplicates and sorting *)

Lemma elem_of_drop_duplicates {A : Type} `{EqDecision A} (l : list A) (x : A) :
  x ∈ drop_duplicates l <-> x ∈ l.
Proof.
  induction l as [|y l IH]; simpl; [reflexivity |].
  rewrite !elem_of_cons, list_elem_of_filter, IH.
  destruct (decide (x = y)); intuition.
Qed.

Lemma NoDup_drop_duplicates {A : Type} `{EqDecision A} (l : list A) :
  NoDup (drop_duplicates l).
Proof.
  induction l as [|y l IH]; simpl; constructor.
  - rewrite list_elem_of_filter. intros [Hne _]. congruence.
  - apply NoDup_filter, IH.
Qed.

Lemma ascii_compare_N (a b : ascii) :
  Ascii.compare a b = N.compare (N_of_ascii a) (N_of_ascii b).
Proof. reflexivity. Qed.

Lemma string_compare_le_trans (a b c : string) :
  String.compare a b <> Gt -> String.compare b c <> Gt -> String.compare a c <> Gt.
Proof.
  revert b c. induction a as [|x a IH]; intros [|y b] [|z c]; simpl; try congruence.
  rewrite !ascii_compare_N.
  destruct (N.compare_spec (N_of_ascii x) (N_of_ascii y)) as [Hxy|Hxy|Hxy];
    destruct (N.compare_spec (N_of_ascii y) (N_of_ascii z)) as [Hyz|Hyz|Hyz];
    destruct (N.compare_spec (N_of_ascii x) (N_of_ascii z)) as [Hxz|Hxz|Hxz];
    try congruence; try lia.
  apply IH.
Qed.

#[local] Instance str_le_total : Total str_le.
Proof. intros a b. apply String.leb_total. Qed.

#[local] Instance str_le_trans : Transitive str_le.
Proof.
  intros a b c. unfold str_le, String.leb. intros Hab Hbc.
  pose proof (string_compare_le_trans a b c) as H.
  destruct (String.compare a b), (String.compare b c), (String.compare a c);
    try reflexivity; try discriminate; exfalso; apply H; congruence.
Qed.

#[local] Instance str_le_antisym : AntiSymm eq str_le.
Proof. intros a b. apply String.leb_antisym. Qed.

#[local] Instance date_le_total : Total date_le.
Proof. intros [] []. unfold date_le. simpl. lia. Qed.

#[local] Instance date_le_trans : Transitive date_le.
Proof. intros [] [] []. unfold date_le. simpl. lia. Qed.

#[local] Instance date_le_antisym : AntiSymm eq date_le.
Proof.
  intros [y1 m1 d1] [y2 m2 d2]. unfold date_le. simpl. intros H1 H2.
  assert (y1 = y2 /\ m1 = m2 /\ d1 = d2) as (-> & -> & ->) by lia. reflexivity.
Qed.

#[local] Instance entry_le_total : Total entry_le.
Proof. intros a b. unfold entry_le. apply total, _. Qed.

#[local] Instance entry_le_trans : Transitive entry_le.
Proof. intros a b c. unfold entry_le. apply transitivity. Qed.

(** A sorted list without repetition is strictly sorted. *)
Lemma StronglySorted_strict {A : Type} (R : relation A) (l : list A) :
  StronglySorted R l -> NoDup l -> StronglySorted (fun a b => R a b /\ a <> b) l.
Proof.
  induction 1 as [|x l Hs IH Hall]; intros Hnd; constructor.
  - apply IH. by apply NoDup_cons in Hnd as [_ ?].
  - apply NoDup_cons in Hnd as [Hx _].
    rewrite Forall_forall in Hall |- *. intros y Hy. split; [by apply Hall |].
    intros ->. apply Hx. by apply list_elem_of_In.
Qed.

Lemma StronglySorted_map {A B : Type} (R : relation B) (f : A -> B) (l : list A) :
  StronglySorted (fun a b => R (f a) (f b)) l -> StronglySorted R (fmap f l).
Proof.
  induction 1 as [|x l Hs IH Hall]; simpl; constructor; [exact IH |].
  apply Forall_fmap. exact Hall.
Qed.

Lemma sorted_unique_spec {A : Type} `{EqDecision A} (R : relation A)
    `{!RelDecision R, !Transitive R, !Total R} (l : list A) :
  let s := merge_sort R (drop_duplicates l) in
  StronglySorted R s /\ NoDup s /\ forall x, x ∈ s <-> x ∈ l.
Proof.
  intros s. pose proof (merge_sort_Permutation R (drop_duplicates l)) as Hp.
  split; [apply StronglySorted_merge_sort; apply _ |].
  split.
  - unfold s. rewrite Hp. apply NoDup_drop_duplicates.
  - intros x. unfold s. rewrite Hp. apply elem_of_drop_duplicates.
Qed.

(** ** Dates and their labels *)

Lemma digit_inj (a b : Z) :
  0 <= a < 10 -> 0 <= b < 10 -> digit a = digit b -> a = b.
Proof.
  intros Ha Hb H. apply (f_equal nat_of_ascii) in H. unfold digit in H.
  rewrite !nat_ascii_embedding in H by lia. lia.
Qed.

Lemma strftime_dmy_inj (a b : date) :
  date_in_range a -> date_in_range b -> strftime_dmy a = strftime_dmy b -> a = b.
Proof.
  destruct a as [y1 m1 d1], b as [y2 m2 d2].
  unfold date_in_range, strftime_dmy, pad2, pad4. simpl.
  intros (Hy1 & Hm1 & Hd1) (Hy2 & Hm2 & Hd2) H.
  injection H as D1 D0 M1 M0 Y3 Y2 Y1 Y0.
  apply digit_inj in D1, D0, M1, M0, Y3, Y2, Y1, Y0;
    try (Z.div_mod_to_equations; lia).
  assert (d1 = d2) as -> by (Z.div_mod_to_equations; lia).
  assert (m1 = m2) as -> by (Z.div_mod_to_equations; lia).
  assert (y1 = y2) as -> by (Z.div_mod_to_equations; lia).
  reflexivity.
Qed.

Lemma weekday_of_range (d : date) : 0 <= weekday_of d < 7.
Proof. unfold weekday_of. apply Z.mod_pos_bound. lia. Qed.

(** ** Comparisons and truncation of binary64 numbers *)

Lemma SFcompare_antisym (x y : spec_float) :
  SFcompare y x = CompOpp <$> SFcompare x y.
Proof.
  destruct x as [sx|sx| |sx mx ex], y as [sy|sy| |sy my ey]; simpl;
    try destruct sx; try destruct sy; try reflexivity.
  all: rewrite (Z.compare_antisym ex ey), !Pos.compare_cont_spec; simpl.
  all: rewrite (Pos.compare_antisym mx my).
  all: by destruct (ex ?= ey), (mx ?= my)%positive.
Qed.

Lemma float_leb_not_gt (x y : float) :
  (x <=? y)%float = true -> (y <? x)%float = false.
Proof.
  rewrite FloatAxioms.leb_spec, FloatAxioms.ltb_spec. unfold SFleb, SFltb. rewrite (SFcompare_antisym (Prim2SF x)).
  by destruct (SFcompare (Prim2SF x) (Prim2SF y)) as [[]|].
Qed.

Lemma float_eqb_not_gt (x y : float) :
  (x =? y)%float = true -> (y <? x)%float = false.
Proof.
  rewrite FloatAxioms.eqb_spec, FloatAxioms.ltb_spec. unfold SFeqb, SFltb. rewrite (SFcompare_antisym (Prim2SF x)).
  by destruct (SFcompare (Prim2SF x) (Prim2SF y)) as [[]|].
Qed.

Lemma Prim2SF_2 : Prim2SF 2 = S754_finite false 4503599627370496 (-51).
Proof. vm_compute. reflexivity. Qed.

Lemma Prim2SF_3 : Prim2SF 3 = S754_finite false 6755399441055744 (-51).
Proof. vm_compute. reflexivity. Qed.

(** A score of at most 2 is not above 3. *)
Lemma float_le_2_not_gt_3 (z : float) :
  (z <=? 2)%float = true -> (3 <? z)%float = false.
Proof.
  rewrite FloatAxioms.leb_spec, FloatAxioms.ltb_spec. unfold SFleb, SFltb.
  rewrite Prim2SF_2, Prim2SF_3.
  destruct (Prim2SF z) as [s|s| |s m e]; cbn [SFcompare]; try destruct s; try done.
  rewrite (Z.compare_antisym e (-51)).
  destruct (e ?= -51); cbn [CompOpp]; try done.
  rewrite !Pos.compare_cont_spec. cbn [Pos.switch_Eq].
  destruct (Pos.compare_spec m 4503599627370496) as [->|Hm|Hm]; cbn [Pos.switch_Eq]; try done.
  intros _.
  destruct (Pos.compare_spec 6755399441055744 m) as [Hm'|Hm'|Hm']; cbn [Pos.switch_Eq].
  - reflexivity.
  - pose proof (Pos.lt_trans _ _ _ Hm' Hm) as H. vm_compute in H. discriminate H.
  - reflexivity.
Qed.

(** Truncation of a number strictly between 0 and 1. *)
Lemma digits2_pos_bound (m : positive) : Zpos m < 2 ^ Zpos (digits2_pos m).
Proof.
  induction m as [m IH|m IH|]; cbn [digits2_pos].
  - rewrite Pos2Z.inj_succ, Z.pow_succ_r by lia. rewrite Pos2Z.inj_xI. lia.
  - rewrite Pos2Z.inj_succ, Z.pow_succ_r by lia. rewrite Pos2Z.inj_xO. lia.
  - reflexivity.
Qed.

Lemma digits2_pos_lower (m : positive) : 2 ^ (Zpos (digits2_pos m) - 1) <= Zpos m.
Proof.
  induction m as [m IH|m IH|]; cbn [digits2_pos]; [| | reflexivity];
    rewrite Pos2Z.inj_succ;
    replace (Z.succ (Zpos (digits2_pos m)) - 1) with (Z.succ (Zpos (digits2_pos m) - 1)) by lia;
    rewrite Z.pow_succ_r by lia;
    [change (Zpos m~1) with (2 * Zpos m + 1) | change (Zpos m~0) with (2 * Zpos m)]; lia.
Qed.

Lemma digits2_pos_shift_left (k : nat) (m : positive) :
  Zpos (digits2_pos (shift_left k m)) = Zpos (digits2_pos m) + Z.of_nat k.
Proof.
  induction k as [|k IH]; simpl shift_left; [lia |].
  cbn [digits2_pos]. rewrite Pos2Z.inj_succ, IH. lia.
Qed.

Lemma Zpos_shift_left (k : nat) (m : positive) :
  Zpos (shift_left k m) = Zpos m * 2 ^ Z.of_nat k.
Proof.
  induction k as [|k IH]; simpl shift_left; [rewrite Z.pow_0_r; lia |].
  rewrite Pos2Z.inj_xO, IH, Nat2Z.inj_succ, Z.pow_succ_r by lia. lia.
Qed.

Lemma shift_left_add (j k : nat) (m : positive) :
  shift_left (j + k) m = shift_left j (shift_left k m).
Proof. induction j as [|j IH]; simpl; [reflexivity | by rewrite IH]. Qed.

Lemma Pos_iter_xO (p m : positive) : Pos.iter xO m p = shift_left (Pos.to_nat p) m.
Proof.
  induction p as [|p IH] using Pos.peano_ind.
  - reflexivity.
  - rewrite Pos.iter_succ, IH, Pos2Nat.inj_succ. reflexivity.
Qed.

Lemma iter_pos_nat {A : Type} (f : A -> A) (p : positive) :
  forall x, SpecFloat.iter_pos f p x = Nat.iter (Pos.to_nat p) f x.
Proof.
  induction p as [p IH|p IH|]; intros x; cbn [SpecFloat.iter_pos].
  - rewrite !IH, Pos2Nat.inj_xI.
    replace (S (2 * Pos.to_nat p)) with (Pos.to_nat p + (Pos.to_nat p + 1))%nat by lia.
    rewrite !Nat.iter_add. reflexivity.
  - rewrite !IH, Pos2Nat.inj_xO.
    replace (2 * Pos.to_nat p)%nat with (Pos.to_nat p + Pos.to_nat p)%nat by lia.
    rewrite Nat.iter_add. reflexivity.
  - reflexivity.
Qed.

Lemma shr_1_shift_left (j k : nat) (m : positive) :
  (j <= k)%nat ->
  Nat.iter j shr_1 {| shr_m := Zpos (shift_left k m); shr_r := false; shr_s := false |}
  = {| shr_m := Zpos (shift_left (k - j) m); shr_r := false; shr_s := false |}.
Proof.
  induction j as [|j IH]; intros Hj; [by rewrite Nat.sub_0_r |].
  rewrite Nat.iter_succ, IH by lia.
  replace (k - j)%nat with (S (k - S j)) by lia. reflexivity.
Qed.

(** Rounding a number with at most 53 significant bits is exact. *)
Lemma binary_round_shift_left (s : bool) (k : nat) (m : positive) :
  Zpos (digits2_pos m) <= 53 ->
  Zpos (digits2_pos m) + Z.of_nat k <= 1024 ->
  binary_round prec emax s (shift_left k m) 0
  = S754_finite s (shift_left (Z.to_nat (53 - Zpos (digits2_pos m))) m)
      (Zpos (digits2_pos m) + Z.of_nat k - 53).
Proof.
  intros Hd Hk. set (d := Zpos (digits2_pos m)) in *.
  assert (0 < d) as Hd0 by (unfold d; lia).
  unfold binary_round, shl_align. rewrite digits2_pos_shift_left. fold d.
  unfold fexp, emin, prec, emax.
  replace (Z.max (d + Z.of_nat k + 0 - 53) (3 - 1024 - 53)) with (d + Z.of_nat k - 53) by lia.
  replace (d + Z.of_nat k - 53 - 0) with (d + Z.of_nat k - 53) by lia.
  destruct (d + Z.of_nat k - 53) as [|E|E] eqn:HE.
  - (* 53 digits already *)
    unfold binary_round_aux, shr_fexp, Zdigits2. rewrite digits2_pos_shift_left. fold d.
    unfold fexp, emin, prec, emax, shr_record_of_loc.
    replace (Z.max (d + Z.of_nat k + 0 - 53) (3 - 1024 - 53) - 0) with 0 by lia.
    cbn [shr loc_of_shr_record round_nearest_even shr_m].
    rewrite digits2_pos_shift_left. fold d.
    replace (Z.max (d + Z.of_nat k + 0 - 53) (3 - 1024 - 53) - 0) with 0 by lia.
    cbn [shr shr_m]. cbn [Z.leb Z.compare Z.sub Z.opp Z.add Z.pos_sub].
    replace (Z.to_nat (53 - d)) with k by lia. reflexivity.
  - (* more than 53 digits: the low bits are zeros *)
    unfold binary_round_aux, shr_fexp, Zdigits2. rewrite digits2_pos_shift_left. fold d.
    unfold fexp, emin, prec, emax, shr_record_of_loc.
    replace (Z.max (d + Z.of_nat k + 0 - 53) (3 - 1024 - 53) - 0) with (Zpos E) by lia.
    cbn [shr]. rewrite iter_pos_nat, shr_1_shift_left by lia.
    cbn [loc_of_shr_record round_nearest_even shr_m].
    rewrite digits2_pos_shift_left. fold d.
    replace (Z.max (d + Z.of_nat (k - Pos.to_nat E) + (0 + Zpos E) - 53) (3 - 1024 - 53)
             - (0 + Zpos E)) with 0 by lia.
    cbn [shr shr_m].
    assert ((0 + Zpos E <=? 1024 - 53) = true) as -> by (apply Z.leb_le; lia).
    replace (Z.to_nat (53 - d)) with (k - Pos.to_nat E)%nat by lia.
    f_equal.
  - (* fewer than 53 digits: the mantissa is shifted left *)
    rewrite Pos_iter_xO, <- shift_left_add.
    unfold binary_round_aux, shr_fexp, Zdigits2. rewrite digits2_pos_shift_left. fold d.
    unfold fexp, emin, prec, emax, shr_record_of_loc.
    replace (Z.max (d + Z.of_nat (Pos.to_nat E + k) + Zneg E - 53) (3 - 1024 - 53) - Zneg E)
      with 0 by lia.
    cbn [shr loc_of_shr_record round_nearest_even shr_m].
    rewrite digits2_pos_shift_left. fold d.
    replace (Z.max (d + Z.of_nat (Pos.to_nat E + k) + Zneg E - 53) (3 - 1024 - 53) - Zneg E)
      with 0 by lia.
    cbn [shr shr_m].
    assert ((Zneg E <=? 1024 - 53) = true) as -> by (apply Z.leb_le; lia).
    replace (Z.to_nat (53 - d)) with (Pos.to_nat E + k)%nat by lia. reflexivity.
Qed.

Lemma binary_round_shift_left_valid (s : bool) (k : nat) (m : positive) :
  Zpos (digits2_pos m) <= 53 ->
  Zpos (digits2_pos m) + Z.of_nat k <= 1024 ->
  valid_binary (binary_round prec emax s (shift_left k m) 0) = true /\
  SFeqb (SFabs (binary_round prec emax s (shift_left k m) 0)) (S754_infinity false) = false.
Proof.
  intros Hd Hk. rewrite binary_round_shift_left by assumption. split; [| reflexivity].
  unfold valid_binary, SpecFloat.valid_binary, bounded, canonical_mantissa.
  rewrite digits2_pos_shift_left. unfold fexp, emin, prec, emax.
  apply andb_true_intro. split; [apply Z.eqb_eq | apply Z.leb_le]; lia.
Qed.

(** [float(n)] does not overflow on an integer with at most 53 significant
    bits, shifted or not. *)
Lemma float_of_int_shift_left (s : bool) (k : nat) (m : positive) :
  Zpos (digits2_pos m) <= 53 ->
  Zpos (digits2_pos m) + Z.of_nat k <= 1024 ->
  exists x, float_of_int (if s then Zneg (shift_left k m) else Zpos (shift_left k m)) = Ok x.
Proof.
  intros Hd Hk. unfold float_of_int, float_of_Z.
  destruct (binary_round_shift_left_valid s k m Hd Hk) as [Hv Hinf].
  assert (binary_normalize prec emax
            (if s then Zneg (shift_left k m) else Zpos (shift_left k m)) 0 false
          = binary_round prec emax s (shift_left k m) 0) as -> by (by destruct s).
  cbv zeta. unfold is_infinity.
  rewrite FloatAxioms.eqb_spec, abs_spec, Prim2SF_SF2Prim by exact Hv.
  replace (Prim2SF infinity) with (S754_infinity false) by (vm_compute; reflexivity).
  rewrite Hinf. eauto.
Qed.

(** [float(int(f))] does not overflow. *)
Lemma float_of_int_of_float (f : float) (n : Z) :
  int_of_float f = Ok n -> exists x, float_of_int n = Ok x.
Proof.
  unfold int_of_float. pose proof (Prim2SF_valid f) as Hv.
  destruct (Prim2SF f) as [s|s| |s m e]; cbn [int_of_spec_float]; try discriminate.
  - intros [= <-]. exists 0%float. vm_compute. reflexivity.
  - unfold valid_binary, SpecFloat.valid_binary, bounded, canonical_mantissa in Hv.
    apply andb_prop in Hv as [Hc He]. apply Z.eqb_eq in Hc. apply Z.leb_le in He.
    unfold fexp, emin, prec, emax in Hc, He.
    assert (Zpos (digits2_pos m) <= 53) as Hd by lia.
    intros [= <-]. destruct (Z.leb_spec 0 e) as [Hpos|Hneg].
    + destruct (float_of_int_shift_left s (Z.to_nat e) m Hd ltac:(lia)) as [x Hx].
      exists x. rewrite <- Hx. f_equal.
      assert (Zpos m * 2 ^ e = Zpos (shift_left (Z.to_nat e) m)) as ->.
      { rewrite Zpos_shift_left, Z2Nat.id by lia. reflexivity. }
      by destruct s.
    + pose proof (digits2_pos_bound m) as Hm.
      assert (0 <= Zpos m / 2 ^ (- e) <= Zpos m) as Hq.
      { split; [apply Z.div_pos; lia |].
        apply Z.div_le_upper_bound; [lia |].
        assert (1 <= 2 ^ (- e)) by (apply (Z.pow_le_mono_r 2 0); lia). nia. }
      destruct (Zpos m / 2 ^ (- e)) as [|q|q] eqn:Hqe; [| | lia].
      * exists 0%float. destruct s; vm_compute; reflexivity.
      * assert (Zpos (digits2_pos q) <= 53) as Hdq.
        { pose proof (digits2_pos_lower q) as Hl.
          assert (2 ^ (Zpos (digits2_pos q) - 1) < 2 ^ Zpos (digits2_pos m)) as Hlt by lia.
          apply Z.pow_lt_mono_r_iff in Hlt; lia. }
        destruct (float_of_int_shift_left s 0 q Hdq ltac:(simpl; lia)) as [x Hx].
        exists x. rewrite <- Hx. by destruct s.
Qed.

Lemma Prim2SF_1 : Prim2SF 1 = S754_finite false 4503599627370496 (-52).
Proof. vm_compute. reflexivity. Qed.
Lemma Prim2SF_0 : Prim2SF 0 = S754_zero false.
Proof. vm_compute. reflexivity. Qed.

Lemma valid_mantissa_small (m : positive) (e : Z) :
  valid_binary (S754_finite false m e) = true -> e < -52 -> Zpos m / 2 ^ (- e) = 0.
Proof.
  intros Hv He. apply Z.div_small. split; [lia |].
  unfold valid_binary, SpecFloat.valid_binary, bounded, canonical_mantissa, fexp, emin in Hv.
  apply andb_prop in Hv as [Hc _]. apply Z.eqb_eq in Hc.
  pose proof (digits2_pos_bound m) as Hd.
  eapply Z.lt_le_trans; [exact Hd |].
  apply Z.pow_le_mono_r; [lia |].
  unfold prec, emax in Hc. lia.
Qed.

Lemma float_unit_interval (f : float) :
  (0 <? f)%float = true -> (f <? 1)%float = true ->
  is_nan f = false /\ (f =? 0)%float = false /\ int_of_float f = Ok 0.
Proof.
  unfold is_nan, int_of_float.
  rewrite !FloatAxioms.ltb_spec, !FloatAxioms.eqb_spec, Prim2SF_0, Prim2SF_1.
  pose proof (Prim2SF_valid f) as Hv.
  unfold SFltb, SFeqb.
  destruct (Prim2SF f) as [s|s| |s m e]; cbn [SFcompare]; try destruct s; try done.
  intros _ Hlt.
  rewrite Z.compare_refl, Pos.compare_cont_refl.
  cbn [negb int_of_spec_float].
  split; [reflexivity |].
  split; [reflexivity |].
  destruct (Z.compare_spec e (-52)) as [->|He|He]; try done.
  - rewrite Pos.compare_cont_spec in Hlt.
    cbn [Pos.switch_Eq] in Hlt.
    destruct (Pos.compare_spec m 4503599627370496) as [?|Hm|?]; try done.
    cbn [Z.leb Z.compare Z.opp].
    f_equal.
    apply Z.div_small.
    split; [apply Pos2Z.is_nonneg |].
    apply Pos2Z.pos_lt_pos in Hm.
    exact Hm.
  - assert ((0 <=? e) = false) as -> by (apply Z.leb_gt; lia).
    f_equal. apply valid_mantissa_small; assumption.
Qed.

(** The score of the specification, [|x - mean| / std], is the score the
    code computes, [|(x - mean) / std|], when [std > 0]. *)
Lemma SFabs_binary_round_aux (s : bool) (m e : Z) (l : location) :
  SFabs (binary_round_aux prec emax s m e l) = binary_round_aux prec emax false m e l.
Proof.
  unfold binary_round_aux.
  destruct (shr_fexp prec emax m e l) as [mrs' e'].
  destruct (shr_fexp prec emax _ e' loc_Exact) as [mrs'' e''].
  destruct (shr_m mrs''); try reflexivity.
  by destruct (e'' <=? emax - prec).
Qed.

Lemma SFabs_SFdiv (x y : spec_float) :
  SFltb (S754_zero false) y = true ->
  SFabs (SFdiv prec emax x y) = SFdiv prec emax (SFabs x) y.
Proof.
  destruct y as [sy|sy| |sy my ey]; try destruct sy; try discriminate; intros _.
  - destruct x as [sx|sx| |sx mx ex]; try destruct sx; reflexivity.
  - destruct x as [sx|sx| |sx mx ex]; try (destruct sx; reflexivity); try reflexivity.
    cbn [SFdiv SFabs].
    destruct (SFdiv_core_binary prec emax (Z.pos mx) ex (Z.pos my) ey) as [[mz ez] lz].
    apply SFabs_binary_round_aux.
Qed.

Lemma float_abs_div (a s : float) :
  (0 <? s)%float = true -> abs (a / s) = (abs a / s)%float.
Proof.
  rewrite FloatAxioms.ltb_spec, Prim2SF_0. intros Hs.
  apply Prim2SF_inj.
  rewrite abs_spec, !div_spec, abs_spec. by apply SFabs_SFdiv.
Qed.

(** ** The pivot and the baselines *)

Lemma pivot_entries_keeps (df : list pivot_row) :
  forall acc m k v,
    pivot_entries df acc = Ok m -> acc !! k = Some v -> m !! k = Some v.
Proof.
  induction df as [|r df IH]; intros acc m k v H Hk; simpl in H.
  - by injection H as <-.
  - destruct (acc !! pivot_key r) eqn:Hr; [discriminate |].
    apply (IH _ _ _ _ H). rewrite lookup_insert_ne; [exact Hk | congruence].
Qed.

Lemma pivot_entries_fresh (df : list pivot_row) :
  forall acc m r,
    pivot_entries df acc = Ok m -> r ∈ df -> acc !! pivot_key r = None.
Proof.
  induction df as [|r0 df IH]; intros acc m r H Hr; simpl in H.
  - by apply elem_of_nil in Hr.
  - destruct (acc !! pivot_key r0) eqn:Hr0; [discriminate |].
    apply elem_of_cons in Hr as [->|Hr]; [exact Hr0 |].
    pose proof (IH _ _ _ H Hr) as Hnone.
    destruct (decide (pivot_key r0 = pivot_key r)) as [Heq|Hne].
    + rewrite Heq, lookup_insert_eq in Hnone. discriminate.
    + by rewrite lookup_insert_ne in Hnone.
Qed.

Lemma pivot_entries_present (df : list pivot_row) :
  forall acc m r,
    pivot_entries df acc = Ok m -> r ∈ df -> m !! pivot_key r = Some (RECORDS (base r)).
Proof.
  induction df as [|r0 df IH]; intros acc m r H Hr; simpl in H.
  - by apply elem_of_nil in Hr.
  - destruct (acc !! pivot_key r0) eqn:Hr0; [discriminate |].
    apply elem_of_cons in Hr as [->|Hr].
    + apply (pivot_entries_keeps _ _ _ _ _ H). apply lookup_insert_eq.
    + by apply (IH _ _ _ H).
Qed.

Lemma pivot_entries_absent (df : list pivot_row) :
  forall acc m k,
    pivot_entries df acc = Ok m -> acc !! k = None ->
    (forall r, r ∈ df -> pivot_key r <> k) -> m !! k = None.
Proof.
  induction df as [|r0 df IH]; intros acc m k H Hk Hdf; simpl in H.
  - by injection H as <-.
  - destruct (acc !! pivot_key r0) eqn:Hr0; [discriminate |].
    apply (IH _ _ _ H).
    + rewrite lookup_insert_ne; [exact Hk |]. apply (Hdf r0). by left.
    + intros r Hr. apply Hdf. by right.
Qed.

Lemma pivot_entries_NoDup (df : list pivot_row) :
  forall acc m, pivot_entries df acc = Ok m -> NoDup (fmap pivot_key df).
Proof.
  induction df as [|r0 df IH]; intros acc m H; simpl in H; [constructor |].
  destruct (acc !! pivot_key r0) eqn:Hr0; [discriminate |].
  rewrite fmap_cons. constructor; [| by eapply IH].
  intros Hin. apply list_elem_of_fmap in Hin as (r & Hkey & Hr).
  pose proof (pivot_entries_fresh _ _ _ _ H Hr) as Hnone.
  rewrite Hkey, lookup_insert_eq in Hnone. discriminate.
Qed.

Lemma pivot_entries_total (df : list pivot_row) :
  forall acc,
    NoDup (fmap pivot_key df) -> (forall r, r ∈ df -> acc !! pivot_key r = None) ->
    exists m, pivot_entries df acc = Ok m.
Proof.
  induction df as [|r0 df IH]; intros acc Hnd Hacc; simpl; [eauto |].
  rewrite fmap_cons in Hnd. apply NoDup_cons in Hnd as [Hr0 Hnd].
  rewrite (Hacc r0 (list_elem_of_here _ _)).
  apply IH; [exact Hnd |]. intros r Hr.
  rewrite lookup_insert_ne.
  - apply Hacc. by right.
  - intros Heq. apply Hr0. apply list_elem_of_fmap. exists r. split; [exact Heq | exact Hr].
Qed.

(** ** Loops that raise, and what the pivot and the baselines can raise *)

Lemma enumerate_mapM_Ok_inv {A B : Type} (f : nat -> A -> result B) (l : list A)
    (start : nat) (l' : list B) :
  enumerate_mapM f start l = Ok l' ->
  forall (k : nat) (y : B), l' !! k = Some y ->
    exists x, l !! k = Some x /\ f (start + k)%nat x = Ok y.
Proof.
  intros H k y Hy. apply enumerate_mapM_Ok in H as [Hlen H].
  destruct (lookup_lt_is_Some_2 l k) as [x Hx].
  { rewrite <- Hlen. by eapply lookup_lt_Some. }
  destruct (H k x Hx) as (y' & Hf & Hy'). exists x. split; [exact Hx |]. congruence.
Qed.

(** A loop whose body can only raise [e], and does on one element, raises
    [e]. *)
Lemma enumerate_mapM_Raise {A B : Type} (f : nat -> A -> result B) (e : exn) (l : list A) :
  forall start : nat,
    (forall k x e', l !! k = Some x -> f (start + k)%nat x = Raise e' -> e' = e) ->
    (exists k x e', l !! k = Some x /\ f (start + k)%nat x = Raise e') ->
    enumerate_mapM f start l = Raise e.
Proof.
  induction l as [|x0 l IH]; intros start Honly (k & x & e' & Hk & Hf); [discriminate |].
  simpl. destruct (f start x0) as [y|e0] eqn:H0; simpl.
  - rewrite (IH (S start)); [reflexivity | |].
    + intros k' x' e'' Hk' Hf'. apply (Honly (S k') x' e''); [exact Hk' |].
      by rewrite Nat.add_succ_r.
    + destruct k as [|k]; simpl in Hk.
      * injection Hk as <-. rewrite Nat.add_0_r in Hf. congruence.
      * exists k, x, e'. split; [exact Hk |]. by rewrite Nat.add_succ_r in Hf.
  - f_equal. apply (Honly 0%nat x0 e0); [reflexivity |]. by rewrite Nat.add_0_r.
Qed.

Lemma pivot_entries_cases (df : list pivot_row) :
  forall acc, (exists m, pivot_entries df acc = Ok m) \/ pivot_entries df acc = Raise ValueError.
Proof.
  induction df as [|r df IH]; intros acc; simpl; [left; eauto |].
  destruct (acc !! pivot_key r); [by right | apply IH].
Qed.

Lemma pivot_entries_lookup_key (df : list pivot_row) :
  forall acc m k v,
    pivot_entries df acc = Ok m -> m !! k = Some v ->
    acc !! k = Some v \/ exists r, r ∈ df /\ pivot_key r = k /\ RECORDS (base r) = v.
Proof.
  induction df as [|r0 df IH]; intros acc m k v H Hk; simpl in H.
  - injection H as <-. by left.
  - destruct (acc !! pivot_key r0) eqn:Hr0; [discriminate |].
    destruct (IH _ _ _ _ H Hk) as [Hacc|(r & Hr & Hkey & Hv)].
    + destruct (decide (pivot_key r0 = k)) as [<-|Hne].
      * rewrite lookup_insert_eq in Hacc. injection Hacc as <-.
        right. exists r0. split; [by left | by split].
      * rewrite lookup_insert_ne in Hacc by done. by left.
    + right. exists r. split; [by right | by split].
Qed.

Lemma valid_values_cases (series : list pyval) :
  (exists valid, valid_values series = Ok valid) \/ valid_values series = Raise TypeError.
Proof.
  induction series as [|v series IH]; simpl; [left; eauto |].
  destruct v as [|n|f|s|n]; simpl; try (by right);
    destruct IH as [[valid ->]| ->]; simpl; eauto.
Qed.

Lemma valid_values_text (series : list pyval) (s : string) :
  PStr s ∈ series -> valid_values series = Raise TypeError.
Proof.
  induction series as [|v series IH]; intros H; [by apply elem_of_nil in H |].
  apply elem_of_cons in H as [<-|H]; [reflexivity |].
  simpl. rewrite (IH H). by destruct v.
Qed.

Lemma filter_none {A : Type} (P : A -> Prop) {P_dec : forall x, Decision (P x)} (l : list A) :
  Forall (fun x => ~ P x) l -> filter P l = [].
Proof.
  induction 1 as [|x l Hx _ IH]; [reflexivity |].
  rewrite filter_cons, IH. by destruct (decide (P x)).
Qed.

(** ** The width of a block *)

Lemma block_width_app (ws1 ws2 : worksheet) :
  block_width (ws1 ++ ws2) = (block_width ws1 `max` block_width ws2)%nat.
Proof.
  unfold block_width. induction ws1 as [|row ws1 IH]; simpl; [reflexivity |].
  rewrite IH. lia.
Qed.

Lemma block_width_le (ws : worksheet) (n : nat) :
  Forall (fun row => (length row <= n)%nat) ws -> (block_width ws <= n)%nat.
Proof. unfold block_width. induction 1; simpl; lia. Qed.

Lemma block_width_ge (ws : worksheet) (row : list cell) :
  row ∈ ws -> (length row <= block_width ws)%nat.
Proof.
  unfold block_width. induction ws as [|row0 ws IH]; intros H; [by apply elem_of_nil in H |].
  apply elem_of_cons in H as [<-|H]; simpl; [lia |]. specialize (IH H). lia.
Qed.

(** ** Infinities *)

Lemma Prim2SF_infinity : Prim2SF infinity = S754_infinity false.
Proof. vm_compute. reflexivity. Qed.

Lemma is_infinity_spec (f : float) :
  is_infinity f = true -> exists s, Prim2SF f = S754_infinity s.
Proof.
  unfold is_infinity. rewrite FloatAxioms.eqb_spec, abs_spec, Prim2SF_infinity.
  destruct (Prim2SF f) as [s|s| |s m e]; try discriminate. intros _. by exists s.
Qed.

Lemma float_infinity_int (f : float) :
  is_infinity f = true ->
  is_nan f = false /\ (f =? 0)%float = false /\ int_of_float f = Raise OverflowError.
Proof.
  intros H. apply is_infinity_spec in H as [s Hs].
  unfold is_nan, int_of_float. rewrite !FloatAxioms.eqb_spec, Prim2SF_0, Hs.
  by destruct s.
Qed.

(** The header loop on a sheet that is wider than the block. *)
(** ** The pivot and the dtypes *)

Lemma df_pivot_cases (df : list pivot_row) :
  (exists m0 m, pivot_entries df ∅ = Ok m0 /\ df_pivot df = Ok m /\
     (m = m0 \/ m = as_float64 <$> m0)) \/
  (pivot_entries df ∅ = Raise ValueError /\ df_pivot df = Raise ValueError).
Proof.
  unfold df_pivot.
  destruct (pivot_entries_cases df ∅) as [[m0 Hm0]|Hm0]; rewrite Hm0; cbn [bind].
  - left. exists m0.
    destruct (infer_dtype _); try destruct (forallb _ _); eauto 10.
  - by right.
Qed.

Lemma df_pivot_Ok (df : list pivot_row) (m : gmap (string * string) pyval) :
  df_pivot df = Ok m ->
  exists m0, pivot_entries df ∅ = Ok m0 /\ (m = m0 \/ m = as_float64 <$> m0).
Proof.
  intros H. destruct (df_pivot_cases df) as [(m0 & m' & Hm0 & Hm' & Hcase)|[_ Hraise]].
  - exists m0. split; [exact Hm0 |]. congruence.
  - congruence.
Qed.

Lemma df_pivot_total (df : list pivot_row) (m0 : gmap (string * string) pyval) :
  pivot_entries df ∅ = Ok m0 -> exists m, df_pivot df = Ok m.
Proof.
  intros H. destruct (df_pivot_cases df) as [(m0' & m & _ & Hm & _)|[Hraise _]].
  - by exists m.
  - congruence.
Qed.

(** The entry the pivot holds for a key is the entry of the frame, as it is
    or as a float. *)
Lemma df_pivot_lookup (m0 m : gmap (string * string) pyval) (k : string * string) :
  m = m0 \/ m = as_float64 <$> m0 ->
  (m !! k = None <-> m0 !! k = None) /\
  forall v, m !! k = Some v ->
    exists v0, m0 !! k = Some v0 /\ (v = v0 \/ v = as_float64 v0).
Proof.
  intros [->| ->].
  - split; [reflexivity |]. intros v Hv. exists v. by split; [| left].
  - rewrite lookup_fmap. destruct (m0 !! k) as [v0|]; simpl.
    + split; [split; discriminate |]. intros v [= <-]. exists v0. by split; [| right].
    + split; [reflexivity | discriminate].
Qed.

Lemma infer_dtype_text (values : list pyval) (s : string) :
  PStr s ∈ values -> infer_dtype values = object.
Proof.
  intros H. unfold infer_dtype.
  assert (forall f : pyval -> bool, f (PStr s) = false -> forallb f values = false) as Hf.
  { intros f Hs. destruct (forallb f values) eqn:Hall; [| done].
    rewrite forallb_forall in Hall. rewrite <- Hs. symmetry. apply Hall.
    by apply list_elem_of_In. }
  by rewrite !Hf.
Qed.

(** A string anywhere in the grid makes the array of its rows an array of
    objects. *)
Lemma values_dtype_text (width : nat) (grid : list (list pyval)) (i j : nat)
    (row : list pyval) (s : string) :
  grid !! i = Some row -> row !! j = Some (PStr s) -> (j < width)%nat ->
  values_dtype width grid = object.
Proof.
  intros Hrow Hs Hj. unfold values_dtype, common_dtype.
  rewrite bool_decide_eq_true_2; [reflexivity |].
  apply list_elem_of_fmap. exists j. split; [| apply elem_of_seq; lia].
  symmetry. apply (infer_dtype_text _ s). unfold grid_column.
  apply list_elem_of_omap. exists row. split; [by eapply list_elem_of_lookup_2 | exact Hs].
Qed.

Lemma infer_dtype_int64 (values : list pyval) :
  Forall (fun v => exists n, v = PInt n /\ in_int64 n = true) values ->
  infer_dtype values = int64.
Proof.
  intros H. unfold infer_dtype. rewrite (proj2 (forallb_forall _ _)); [reflexivity |].
  intros v Hv. apply list_elem_of_In in Hv. rewrite Forall_forall in H.
  by destruct (H v Hv) as (n & -> & Hn).
Qed.

(** A grid of integers that fit is read back as an array of int64. *)
Lemma values_dtype_int64 (width : nat) (grid : list (list pyval)) :
  Forall (Forall (fun v => exists n, v = PInt n /\ in_int64 n = true)) grid ->
  values_dtype width grid = int64.
Proof.
  intros H. unfold values_dtype, common_dtype.
  set (dtypes := fmap _ _).
  assert (Forall (fun dt => dt = int64) dtypes) as Hall.
  { apply Forall_fmap, Forall_forall. intros j _. simpl. apply infer_dtype_int64.
    apply Forall_forall. intros v Hv. unfold grid_column in Hv.
    apply list_elem_of_omap in Hv as (row & Hrow & Hv).
    rewrite Forall_forall in H. specialize (H row Hrow). rewrite Forall_forall in H.
    apply H. by eapply list_elem_of_lookup_2. }
  rewrite Forall_forall in Hall.
  rewrite bool_decide_eq_false_2.
  - rewrite (proj2 (forallb_forall _ _)); [reflexivity |].
    intros dt Hdt. apply list_elem_of_In in Hdt. by apply bool_decide_eq_true_2, Hall.
  - intros Hin. by specialize (Hall _ Hin).
Qed.

Lemma array_scalar_text (dt : dtype) (s : string) : array_scalar dt (PStr s) = PStr s.
Proof. by destruct dt. Qed.

Lemma array_scalar_int (dt : dtype) (n : Z) :
  (dt = object /\ array_scalar dt (PInt n) = PInt n) \/
  (array_scalar dt (PInt n) = PNumpy n) \/
  (dt = float64 /\ array_scalar dt (PInt n) = PFloat (float_of_Z n)).
Proof. destruct dt; auto. Qed.

Lemma header_row_width (order : list day_entry) (max_column : nat) (values : list pyval)
    (cells : list cell) :
  length values = S (length order) ->
  enumerate_mapM (fill_header_cell order) 1 (header_cells max_column values) = Ok cells ->
  (max_column <= S (length order))%nat /\ length cells = S (length order).
Proof.
  intros Hlen H. apply enumerate_mapM_Ok in H as [Hl H].
  assert (max_column <= S (length order))%nat as Hmax.
  { destruct (decide (max_column <= S (length order))%nat) as [|Hgt]; [done | exfalso].
    destruct (H (S (length order)) (new_cell PNone)) as (y & Hy & _).
    - unfold header_cells. rewrite lookup_app_r; rewrite length_fmap, Hlen; [| lia].
      rewrite Nat.sub_diag. apply lookup_replicate_2. lia.
    - unfold fill_header_cell, index in Hy. simpl in Hy.
      rewrite Nat.sub_0_r, lookup_ge_None_2 in Hy by lia. discriminate. }
  split; [exact Hmax |]. rewrite Hl. unfold header_cells.
  rewrite length_app, length_fmap, length_replicate. lia.
Qed.

Lemma header_row_raises (order : list day_entry) (max_column : nat) (values : list pyval) :
  length values = S (length order) -> (S (length order) < max_column)%nat ->
  enumerate_mapM (fill_header_cell order) 1 (header_cells max_column values)
  = Raise IndexError.
Proof.
  intros Hlen Hmax. apply enumerate_mapM_Raise.
  - intros k c e _. unfold fill_header_cell, index.
    destruct (1 <? 1 + k)%nat; [| discriminate].
    destruct (order !! (1 + k - 2)%nat) as [d|]; simpl.
    + destruct (5 <=? weekday_of (entry_date d)); discriminate.
    + by intros [= <-].
  - exists (S (length order)), (new_cell PNone), IndexError. split.
    + unfold header_cells. rewrite lookup_app_r; rewrite length_fmap, Hlen; [| lia].
      rewrite Nat.sub_diag. apply lookup_replicate_2. lia.
    + unfold fill_header_cell, index. simpl.
      by rewrite Nat.sub_0_r, lookup_ge_None_2 by lia.
Qed.

(** * Facts

    The parameters again, and the functions of the script applied to them. *)

Section Facts.

Variable float_of_str : string -> option float.
Variable int_of_str : string -> option Z.
Variable series_mean : list pyval -> float.
Variable series_std : list pyval -> float.
Variable timestamp : string.

#[local] Abbreviation py_float := (py_float float_of_str).
#[local] Abbreviation py_int := (py_int int_of_str).
#[local] Abbreviation fill_summary_row := (fill_summary_row int_of_str).
#[local] Abbreviation build_summary_table := (build_summary_table int_of_str).
#[local] Abbreviation series_stats := (series_stats series_mean series_std).
#[local] Abbreviation stats_of_provider := (stats_of_provider series_mean series_std).
#[local] Abbreviation provider_stats_loop := (provider_stats_loop series_mean series_std).
#[local] Abbreviation map_status := (map_status float_of_str int_of_str).
#[local] Abbreviation status_dtype := (status_dtype float_of_str int_of_str).
#[local] Abbreviation baseline_fill := (baseline_fill float_of_str).
#[local] Abbreviation fill_data_cell := (fill_data_cell float_of_str).
#[local] Abbreviation fill_data_row := (fill_data_row float_of_str).
#[local] Abbreviation build_pivot_table :=
  (build_pivot_table float_of_str int_of_str series_mean series_std timestamp).
#[local] Abbreviation export_to_excel :=
  (export_to_excel float_of_str int_of_str series_mean series_std timestamp).
#[local] Abbreviation main_body :=
  (main_body float_of_str int_of_str series_mean series_std timestamp).
#[local] Abbreviation run_script :=
  (run_script float_of_str int_of_str series_mean series_std timestamp).

Lemma provider_stats_loop_spec (df : list pivot_row) (ps : list string) :
  forall acc pst,
    provider_stats_loop df ps acc = Ok pst ->
    (forall p, p ∈ ps -> exists st, stats_of_provider df p = Ok st /\ pst !! p = Some st) /\
    (forall p, p ∉ ps -> pst !! p = acc !! p).
Proof.
  induction ps as [|q ps IH]; intros acc pst H; simpl in H.
  - injection H as <-. split; [intros p Hp; by apply elem_of_nil in Hp | done].
  - bind_inv H. destruct (IH _ _ H) as [Hin Hout]. split.
    + intros p Hp. destruct (decide (p ∈ ps)) as [Hps|Hps]; [by apply Hin |].
      apply elem_of_cons in Hp as [->|Hp]; [| done].
      exists a. split; [exact Ha |]. rewrite (Hout _ Hps). apply lookup_insert_eq.
    + intros p Hp. apply not_elem_of_cons in Hp as [Hne Hp].
      rewrite (Hout _ Hp). by rewrite lookup_insert_ne.
Qed.

Lemma foldl_ws_append {A : Type} (g : A -> list pyval) (l : list A) :
  forall ws : worksheet,
    foldl (fun ws x => ws_append ws (g x)) ws l = ws ++ fmap (fun x => fmap new_cell (g x)) l.
Proof.
  induction l as [|x l IH]; intros ws; simpl.
  - by rewrite app_nil_r.
  - rewrite IH. unfold ws_append. by rewrite <- app_assoc.
Qed.

Lemma foldl_data_rows (l : list (string * list pyval)) (ws : worksheet) :
  foldl (fun ws '(provider, row) => ws_append ws (PStr provider :: row)) ws l
  = ws ++ fmap (fun x => fmap new_cell (PStr x.1 :: x.2)) l.
Proof.
  rewrite <- (foldl_ws_append (fun x => PStr x.1 :: x.2)).
  revert ws. induction l as [|[provider row] l IH]; intros ws; simpl; [reflexivity |].
  apply IH.
Qed.

(** ** The sheet block of build_pivot_table *)

(** The data cell of a provider and a day: the value of the pivot for them,
    through [map_status], as the array of line 199 yields it, and filled by
    the data loop. *)
Lemma build_pivot_table_cells (max_column : nat) (df : list activity_record)
    (title : string) (df' : list pivot_row) (ws : worksheet) :
  build_pivot_table max_column df title = Ok (df', ws) ->
  df' = assign_columns df /\
  exists m pst,
    df_pivot df' = Ok m /\
    provider_stats_loop df' (providers df') ∅ = Ok pst /\
    forall i j p e,
      providers df' !! i = Some p -> day_order df' !! j = Some e ->
      exists c,
        sheet_cell ws (5 + i) (1 + j) = Some c /\
        fill_data_cell (day_order df') pst p (2 + j)
          (new_cell (array_scalar (status_dtype df' m)
                       (map_status (default (PFloat nan) (m !! (p, entry_label e))))))
        = Ok c.
Proof.
  unfold build_pivot_table. intros H.
  bind_inv H. rename a into m, Ha into Hm.
  bind_inv H. rename a into pst, Ha into Hpst.
  bind_inv H. rename a into weekday_cells.
  bind_inv H. rename a into date_cells.
  bind_inv H. rename a into data, Ha1 into Hdata.
  injection H as <- <-. split; [reflexivity |].
  exists m, pst. split; [exact Hm |]. split; [exact Hpst |].
  intros i j p e Hp He. unfold status_dtype.
  set (order := day_order (assign_columns df)) in *.
  set (ps := providers (assign_columns df)) in *.
  set (dt := values_dtype _ _) in *.
  rewrite foldl_data_rows in Hdata |- *.
  rewrite drop_app_length' in Hdata by reflexivity.
  rewrite take_app_length' by reflexivity.
  apply enumerate_mapM_Ok in Hdata as [Hlen Hrows].
  set (raw := fmap (fun l => default (PFloat nan) (m !! (p, l))) (fmap entry_label order)).
  destruct (Hrows i (fmap new_cell (PStr p :: fmap (array_scalar dt) (fmap map_status raw))))
    as (row' & Hrow' & Hi).
  { rewrite list_lookup_fmap, lookup_zip_with. rewrite Hp. simpl.
    unfold iterrows. fold dt. rewrite !list_lookup_fmap. unfold reindex.
    rewrite list_lookup_fmap, Hp. reflexivity. }
  unfold fill_data_row in Hrow'. cbn [Nat.add] in Hrow'.
  apply index_Ok in Hp as Hidx. rewrite Hidx in Hrow'. cbn [bind] in Hrow'.
  apply enumerate_mapM_Ok in Hrow' as [Hlen' Hcells].
  destruct (Hcells (S j)
              (new_cell (array_scalar dt
                           (map_status (default (PFloat nan) (m !! (p, entry_label e)))))))
    as (c & Hc & Hj).
  { simpl. rewrite !list_lookup_fmap. unfold raw. rewrite !list_lookup_fmap, He. reflexivity. }
  exists c. split; [| exact Hc].
  unfold sheet_cell.
  change ((_ ++ data) !! (5 + i)%nat) with (data !! i).
  rewrite Hi. exact Hj.
Qed.

Lemma map_status_cases (val : pyval) :
  map_status val = PStr "MISSING" \/ exists n, map_status val = PInt n.
Proof.
  unfold map_status. destruct (isna val); [by left |].
  destruct (py_float val) as [f|]; simpl; [| by left].
  destruct (f =? 0)%float; [by left |].
  destruct (py_int val) as [n|]; simpl; [right; by exists n | by left].
Qed.

Lemma fill_data_cell_missing (order : list day_entry) (pst : gmap string class_stats)
    (p : string) (j : nat) (c : cell) :
  is_missing (value c) = true ->
  fill_data_cell order pst p (2 + j) c = Ok (set_fill red_fill c).
Proof. intros H. unfold fill_data_cell. simpl. by rewrite H. Qed.

Lemma fill_data_cell_number (order : list day_entry) (pst : gmap string class_stats)
    (p : string) (j : nat) (c : cell) (e : day_entry) (st : class_stats) :
  is_missing (value c) = false -> is_number (value c) = true ->
  order !! j = Some e -> pst !! p = Some st ->
  fill_data_cell order pst p (2 + j) c =
    (let! f := baseline_fill
                 (if is_weekend (entry_date e) then weekend st else weekday st) (value c) in
     Ok (set_fill f c)).
Proof.
  intros Hm Hn He Hst. unfold fill_data_cell. simpl. rewrite Hm, Hn.
  rewrite Nat.sub_0_r. apply index_Ok in He. rewrite He. simpl. by rewrite Hst.
Qed.

Lemma fill_data_cell_numpy (order : list day_entry) (pst : gmap string class_stats)
    (p : string) (j : nat) (n : Z) :
  fill_data_cell order pst p (2 + j) (new_cell (PNumpy n))
  = Ok (set_fill green_fill (new_cell (PNumpy n))).
Proof. reflexivity. Qed.

(** What the data loop makes of a cell, by the array the rows come from: the
    red ["MISSING"] cell; an [int], or a float that holds an integer, filled
    from the baseline of its provider and of the class of its day; or a
    numpy integer, filled green. *)
Lemma build_pivot_table_data_cell (max_column : nat) (df : list activity_record)
    (title : string) (df' : list pivot_row) (ws : worksheet) :
  build_pivot_table max_column df title = Ok (df', ws) ->
  exists m,
    df_pivot df' = Ok m /\
    forall i j p e c,
      providers df' !! i = Some p -> day_order df' !! j = Some e ->
      sheet_cell ws (5 + i) (1 + j) = Some c ->
      (map_status (default (PFloat nan) (m !! (p, entry_label e))) = PStr "MISSING" /\
       value c = PStr "MISSING" /\ fill c = Some red_fill) \/
      (exists n,
          map_status (default (PFloat nan) (m !! (p, entry_label e))) = PInt n /\
          ((value c = PNumpy n /\ fill c = Some green_fill /\
            (status_dtype df' m = int64 \/ status_dtype df' m = uint64)) \/
           (exists st f,
               (value c = PInt n /\ status_dtype df' m = object \/
                value c = PFloat (float_of_Z n) /\ status_dtype df' m = float64) /\
               stats_of_provider df' p = Ok st /\
               baseline_fill (if is_weekend (entry_date e) then weekend st else weekday st)
                 (value c) = Ok f /\
               fill c = Some f))).
Proof.
  intros H.
  destruct (build_pivot_table_cells _ _ _ _ _ H) as (-> & m & pst & Hm & Hpst & Hcells).
  exists m. split; [exact Hm |]. intros i j p e c Hp He Hc.
  destruct (Hcells i j p e Hp He) as (c' & Hc' & Hfill).
  rewrite Hc in Hc'. injection Hc' as <-.
  destruct (provider_stats_loop_spec _ _ _ _ Hpst) as [Hin _].
  destruct (Hin p) as (st & Hst & Hlook); [by eapply list_elem_of_lookup_2 |].
  destruct (map_status_cases (default (PFloat nan) (m !! (p, entry_label e)))) as [Hv|[n Hv]];
    rewrite Hv in Hfill |- *.
  - left. rewrite array_scalar_text, fill_data_cell_missing in Hfill by reflexivity.
    injection Hfill as <-. by repeat split.
  - right. exists n. split; [reflexivity |].
    destruct (status_dtype (assign_columns df) m) eqn:Hdt; cbn [array_scalar] in Hfill.
    + left. rewrite fill_data_cell_numpy in Hfill. injection Hfill as <-. by auto.
    + left. rewrite fill_data_cell_numpy in Hfill. injection Hfill as <-. by auto.
    + right. rewrite (fill_data_cell_number _ _ _ _ _ e st) in Hfill by done.
      simpl in Hfill. bind_inv Hfill. injection Hfill as <-.
      exists st, a. by auto.
    + right. rewrite (fill_data_cell_number _ _ _ _ _ e st) in Hfill by done.
      simpl in Hfill. bind_inv Hfill. injection Hfill as <-.
      exists st, a. by auto.
Qed.

(** ** The index and the columns of the grid *)

Lemma day_entry_of_date (df : list activity_record) :
  fmap (fun r => (ACTIVITY_DATE (base r), DAY_LABEL r, WEEKDAY r)) (assign_columns df)
  = fmap (fun r => day_entry_of (ACTIVITY_DATE r)) df.
Proof. unfold assign_columns. rewrite <- list_fmap_compose. reflexivity. Qed.

Lemma elem_of_day_order (df : list activity_record) (e : day_entry) :
  e ∈ day_order (assign_columns df) <->
  exists r, r ∈ df /\ e = day_entry_of (ACTIVITY_DATE r).
Proof.
  unfold day_order. rewrite day_entry_of_date.
  destruct (sorted_unique_spec entry_le (fmap (fun r => day_entry_of (ACTIVITY_DATE r)) df))
    as (_ & _ & Hin).
  rewrite Hin, list_elem_of_fmap. split; intros (r & H1 & H2); exists r; by split.
Qed.

Lemma day_order_entry (df : list activity_record) (j : nat) (e : day_entry) :
  day_order (assign_columns df) !! j = Some e ->
  e = day_entry_of (entry_date e) /\ exists r, r ∈ df /\ ACTIVITY_DATE r = entry_date e.
Proof.
  intros He. apply list_elem_of_lookup_2 in He.
  apply elem_of_day_order in He as (r & Hr & ->). split; [reflexivity | by exists r].
Qed.

Lemma day_order_sorted (df : list activity_record) :
  StronglySorted date_lt (fmap entry_date (day_order (assign_columns df))).
Proof.
  unfold day_order. rewrite day_entry_of_date.
  set (l := fmap (fun r => day_entry_of (ACTIVITY_DATE r)) df).
  destruct (sorted_unique_spec entry_le l) as (Hs & Hnd & Hin).
  apply StronglySorted_strict.
  - by apply StronglySorted_map.
  - apply (NoDup_fmap_2_strong entry_date); [| exact Hnd].
    intros a b Ha Hb Hab. apply Hin in Ha, Hb. unfold l in Ha, Hb.
    apply list_elem_of_fmap in Ha as (ra & -> & _), Hb as (rb & -> & _).
    unfold day_entry_of, entry_date in *. simpl in Hab. by rewrite Hab.
Qed.

Lemma elem_of_providers (df : list activity_record) (p : string) :
  p ∈ providers (assign_columns df) <-> exists r, r ∈ df /\ PROVIDER r = p.
Proof.
  unfold providers, assign_columns. rewrite <- list_fmap_compose.
  destruct (sorted_unique_spec str_le (fmap (fun r => PROVIDER r) df)) as (_ & _ & Hin).
  unfold compose. simpl. rewrite Hin, list_elem_of_fmap.
  split; intros (r & H1 & H2); exists r; by split.
Qed.

Lemma providers_sorted (df : list pivot_row) : StronglySorted str_lt (providers df).
Proof.
  unfold providers.
  destruct (sorted_unique_spec str_le (fmap (fun r => PROVIDER (base r)) df)) as (Hs & Hnd & _).
  by apply StronglySorted_strict.
Qed.

Lemma pivot_key_assign (df : list activity_record) (r' : pivot_row) :
  r' ∈ assign_columns df ->
  exists r, r ∈ df /\ base r' = r /\
    pivot_key r' = (PROVIDER r, strftime_dmy (ACTIVITY_DATE r)).
Proof.
  unfold assign_columns. intros H. apply list_elem_of_fmap in H as (r & -> & Hr).
  by exists r.
Qed.

(** The pivot holds the record count of every row of the frame. *)
Lemma pivot_value_present (df : list activity_record) (m : gmap (string * string) pyval)
    (r : activity_record) :
  pivot_entries (assign_columns df) ∅ = Ok m -> r ∈ df ->
  m !! (PROVIDER r, strftime_dmy (ACTIVITY_DATE r)) = Some (RECORDS r).
Proof.
  intros Hm Hr.
  apply (pivot_entries_present _ _ _
           {| base := r; DAY_LABEL := strftime_dmy (ACTIVITY_DATE r);
              WEEKDAY := substring 0 3 (day_name (ACTIVITY_DATE r)) |} Hm).
  unfold assign_columns. apply list_elem_of_fmap. by exists r.
Qed.

(** The pivot has no entry for a provider and a day without a row. *)
Lemma pivot_value_absent (df : list activity_record) (m : gmap (string * string) pyval)
    (p : string) (d : date) :
  pivot_entries (assign_columns df) ∅ = Ok m ->
  Forall (fun r => date_in_range (ACTIVITY_DATE r)) df -> date_in_range d ->
  (forall r, r ∈ df -> PROVIDER r = p -> ACTIVITY_DATE r <> d) ->
  m !! (p, strftime_dmy d) = None.
Proof.
  intros Hm Hrange Hd Habsent.
  apply (pivot_entries_absent _ _ _ _ Hm); [apply lookup_empty |].
  intros r' Hr'. apply pivot_key_assign in Hr' as (r & Hr & _ & ->).
  intros Heq.
  pose proof (f_equal fst Heq) as Hp. pose proof (f_equal snd Heq) as Hl.
  simpl in Hp, Hl. apply (Habsent r Hr Hp). apply strftime_dmy_inj; [| exact Hd | exact Hl].
  rewrite Forall_forall in Hrange. by apply Hrange.
Qed.

(** The pivot of line 140 holds the record count of every row of the frame,
    as it is or as a float. *)
Lemma df_pivot_present (df : list activity_record) (m : gmap (string * string) pyval)
    (r : activity_record) :
  df_pivot (assign_columns df) = Ok m -> r ∈ df ->
  exists v,
    m !! (PROVIDER r, strftime_dmy (ACTIVITY_DATE r)) = Some v /\
    (v = RECORDS r \/ v = as_float64 (RECORDS r)).
Proof.
  intros Hm Hr. apply df_pivot_Ok in Hm as (m0 & Hm0 & Hcase).
  pose proof (pivot_value_present df m0 r Hm0 Hr) as H0.
  destruct Hcase as [->| ->]; [by eauto |]. rewrite lookup_fmap, H0. simpl. by eauto.
Qed.

Lemma df_pivot_absent (df : list activity_record) (m : gmap (string * string) pyval)
    (p : string) (d : date) :
  df_pivot (assign_columns df) = Ok m ->
  Forall (fun r => date_in_range (ACTIVITY_DATE r)) df -> date_in_range d ->
  (forall r, r ∈ df -> PROVIDER r = p -> ACTIVITY_DATE r <> d) ->
  m !! (p, strftime_dmy d) = None.
Proof.
  intros Hm Hrange Hd Habsent. apply df_pivot_Ok in Hm as (m0 & Hm0 & Hcase).
  apply (df_pivot_lookup m0 m _ Hcase).
  by apply (pivot_value_absent df m0 p d Hm0 Hrange Hd).
Qed.

(** The entry of the pivot for a key comes from a row of the frame with that
    key. *)
Lemma df_pivot_lookup_key (df : list pivot_row) (m : gmap (string * string) pyval)
    (k : string * string) (v : pyval) :
  df_pivot df = Ok m -> m !! k = Some v ->
  exists r, r ∈ df /\ pivot_key r = k /\
    (v = RECORDS (base r) \/ v = as_float64 (RECORDS (base r))).
Proof.
  intros Hm Hv. apply df_pivot_Ok in Hm as (m0 & Hm0 & Hcase).
  destruct (df_pivot_lookup m0 m k Hcase) as [_ Hlook].
  destruct (Hlook v Hv) as (v0 & Hv0 & Hvv).
  destruct (pivot_entries_lookup_key _ _ _ _ _ Hm0 Hv0) as [Hempty|(r & Hr & Hkey & Hrec)].
  - by rewrite lookup_empty in Hempty.
  - exists r. rewrite Hrec. by repeat split.
Qed.

(** ** The baselines *)

Lemma valid_values_filter (series : list pyval) (valid : list pyval) :
  valid_values series = Ok valid ->
  valid = filter (fun v => negb (isna v)
                           && match gt_zero v with Ok b => b | Raise _ => false end = true)
            series.
Proof.
  revert valid. induction series as [|v series IH]; intros valid H; simpl in H.
  - by injection H as <-.
  - bind_inv H. bind_inv H. injection H as <-.
    rewrite filter_cons, Ha. rewrite <- (IH _ Ha0).
    destruct (negb (isna v) && a) eqn:Hb; by case_decide.
Qed.

Lemma filter_fmap {A B : Type} (f : A -> B) (P : B -> Prop)
    {P_dec : forall x, Decision (P x)} (l : list A) :
  filter P (fmap f l) = fmap f (filter (fun x => P (f x)) l).
Proof.
  induction l as [|x l IH]; [reflexivity |].
  rewrite fmap_cons, !filter_cons, IH. by destruct (decide (P (f x))).
Qed.

(** The series of one weekday class is the frame restricted to the provider
    and the class, whatever comparison on [weekday()] selects the class. *)
Lemma class_series_qualifying (df : list activity_record) (p : string) (on_weekend : bool)
    (in_class : date -> Prop) {in_class_dec : forall d, Decision (in_class d)}
    (valid : list pyval) :
  (forall d, in_class d <-> is_weekend d = on_weekend) ->
  valid_values
    (fmap (fun r => RECORDS (base r))
       (filter (fun r => in_class (ACTIVITY_DATE (base r)))
          (filter (fun r => PROVIDER (base r) = p) (assign_columns df)))) = Ok valid ->
  valid = qualifying_values df p on_weekend.
Proof.
  intros Hclass H. apply valid_values_filter in H as ->.
  unfold qualifying_values, assign_columns.
  rewrite !filter_fmap, <- list_fmap_compose, !list_filter_filter.
  f_equal. apply list_filter_iff. intros r. simpl. unfold qualifies.
  rewrite !andb_true_iff, !bool_decide_eq_true, Hclass. tauto.
Qed.

Lemma is_weekend_false (d : date) : weekday_of d < 5 <-> is_weekend d = false.
Proof. unfold is_weekend. rewrite Z.leb_gt. reflexivity. Qed.

Lemma is_weekend_true (d : date) : 5 <= weekday_of d <-> is_weekend d = true.
Proof. unfold is_weekend. rewrite Z.leb_le. reflexivity. Qed.

(** The baseline of a class is computed from the qualifying values, and only
    when there are more than two of them. *)
Lemma stats_of_provider_qualifying (df : list activity_record) (p : string) (st : class_stats)
    (on_weekend : bool) :
  stats_of_provider (assign_columns df) p = Ok st ->
  (if on_weekend then weekend st else weekday st) =
    (let valid := qualifying_values df p on_weekend in
     if (2 <? length valid)%nat
     then Some {| mean := series_mean valid; std := series_std valid |}
     else None).
Proof.
  unfold stats_of_provider, series_stats. intros H.
  bind_inv H. bind_inv Ha. bind_inv H. bind_inv Ha1. injection H as <-.
  pose proof (class_series_qualifying df p false (fun d => weekday_of d < 5) _
                is_weekend_false Ha0).
  pose proof (class_series_qualifying df p true (fun d => 5 <= weekday_of d) _
                is_weekend_true Ha2).
  subst. simpl. destruct on_weekend.
  - destruct (2 <? length (qualifying_values df p true))%nat; by injection Ha1 as <-.
  - destruct (2 <? length (qualifying_values df p false))%nat; by injection Ha as <-.
Qed.

(** ** The header rows *)

Lemma header_row_cell (order : list day_entry) (max_column : nat) (first : pyval)
    (labels : list string) (cells : list cell) (j : nat) (e : day_entry) (l : string) :
  enumerate_mapM (fill_header_cell order) 1 (header_cells max_column (first :: fmap PStr labels))
    = Ok cells ->
  order !! j = Some e -> labels !! j = Some l ->
  cells !! (1 + j)%nat = Some (weekend_mark e (new_cell (PStr l))).
Proof.
  intros H He Hl. apply enumerate_mapM_Ok in H as [_ H].
  destruct (H (S j) (new_cell (PStr l))) as (c & Hc & Hj).
  { unfold header_cells. apply lookup_app_l_Some.
    rewrite fmap_cons. simpl. by rewrite !list_lookup_fmap, Hl. }
  change (1 + j)%nat with (S j). rewrite Hj. f_equal.
  unfold fill_header_cell in Hc. simpl in Hc.
  rewrite Nat.sub_0_r in Hc. apply index_Ok in He. rewrite He in Hc. simpl in Hc.
  unfold weekend_mark, is_weekend.
  destruct (5 <=? weekday_of (entry_date e)); by injection Hc as <-.
Qed.

Lemma build_pivot_table_header (max_column : nat) (df : list activity_record)
    (title : string) (df' : list pivot_row) (ws : worksheet) (j : nat) (e : day_entry) :
  build_pivot_table max_column df title = Ok (df', ws) ->
  day_order df' !! j = Some e ->
  sheet_cell ws 3 (1 + j) = Some (weekend_mark e (new_cell (PStr (entry_weekday e)))) /\
  sheet_cell ws 4 (1 + j) = Some (weekend_mark e (new_cell (PStr (entry_label e)))).
Proof.
  unfold build_pivot_table. intros H He.
  bind_inv H. bind_inv H. bind_inv H. rename a1 into weekday_cells, Ha1 into Hw.
  bind_inv H. rename a1 into date_cells, Ha1 into Hd.
  bind_inv H. injection H as <- <-.
  rewrite foldl_data_rows, take_app_length' by reflexivity.
  unfold sheet_cell.
  change ((_ ++ a1) !! 3%nat) with (Some weekday_cells).
  change ((_ ++ a1) !! 4%nat) with (Some date_cells).
  split.
  - apply (header_row_cell _ _ _ _ _ _ _ _ Hw He). by rewrite list_lookup_fmap, He.
  - apply (header_row_cell _ _ _ _ _ _ _ _ Hd He). by rewrite list_lookup_fmap, He.
Qed.

(** ** The summary block *)

Lemma fill_summary_row_values (row : summary_row) (t : Z) :
  py_int (TOTAL_MISSING_SUBMISSIONS row) = Ok t ->
  fill_summary_row (fmap new_cell (summary_values row))
  = Ok (fmap (fun v => set_fill (if 0 <? t then red_fill else green_fill) (new_cell v))
          (summary_values row)).
Proof.
  intros Ht. unfold fill_summary_row, summary_values. simpl. rewrite Ht. simpl.
  by destruct (0 <? t).
Qed.

Lemma build_summary_table_rows (df : list summary_row) (title : string)
    (df' : list summary_row) (ws : worksheet) :
  build_summary_table df title = Ok (df', ws) ->
  df' = df /\
  forall i row, df !! i = Some row ->
    exists t, py_int (TOTAL_MISSING_SUBMISSIONS row) = Ok t /\
      ws !! (2 + i)%nat
      = Some (fmap (fun v => set_fill (if 0 <? t then red_fill else green_fill) (new_cell v))
                (summary_values row)).
Proof.
  unfold build_summary_table. intros H. bind_inv H. injection H as <- <-.
  split; [reflexivity |]. intros i row Hrow.
  rewrite foldl_ws_append in Ha |- *.
  rewrite drop_app_length' in Ha by reflexivity.
  rewrite take_app_length' by reflexivity.
  apply enumerate_mapM_Ok in Ha as [_ Ha].
  destruct (Ha i (fmap new_cell (summary_values row))) as (cells & Hcells & Hi).
  { by rewrite list_lookup_fmap, Hrow. }
  change ((_ ++ a) !! (2 + i)%nat) with (a !! i). rewrite Hi.
  unfold fill_summary_row in Hcells. unfold summary_values in Hcells at 1. simpl in Hcells.
  bind_inv Hcells. exists a0. split; [exact Ha0 |]. f_equal.
  destruct (0 <? a0); by injection Hcells as <-.
Qed.

Lemma build_summary_table_total (df : list summary_row) (title : string) :
  (forall row, row ∈ df -> exists t, py_int (TOTAL_MISSING_SUBMISSIONS row) = Ok t) ->
  exists ws, build_summary_table df title = Ok (df, ws).
Proof.
  intros Hdf. unfold build_summary_table.
  rewrite foldl_ws_append, drop_app_length' by reflexivity.
  destruct (enumerate_mapM_total (fun _ row => fill_summary_row row)
              (fmap (fun x => fmap new_cell (summary_values x)) df) 0) as [data Hdata].
  - intros k cells Hk. rewrite list_lookup_fmap in Hk.
    destruct (df !! k) as [row|] eqn:Hrow; [| discriminate]. injection Hk as <-.
    destruct (Hdf row) as [t Ht]; [by eapply list_elem_of_lookup_2 |].
    pose proof (fill_summary_row_values _ _ Ht) as Hfill. eauto.
  - rewrite Hdata. simpl. eauto.
Qed.

(** ** The pivot of a well-formed frame *)

(** The pivot of a frame with one row per provider and date succeeds. *)
Lemma pivot_entries_assign_total (df : list activity_record) :
  Forall (fun r => date_in_range (ACTIVITY_DATE r)) df ->
  NoDup (fmap (fun r => (PROVIDER r, ACTIVITY_DATE r)) df) ->
  exists m, pivot_entries (assign_columns df) ∅ = Ok m.
Proof.
  intros Hrange Hnd. apply pivot_entries_total; [| intros r _; apply lookup_empty].
  unfold assign_columns. rewrite <- list_fmap_compose.
  change (pivot_key ∘ _)
    with ((fun k : string * date => (k.1, strftime_dmy k.2))
            ∘ (fun r => (PROVIDER r, ACTIVITY_DATE r))).
  rewrite list_fmap_compose. apply NoDup_fmap_2_strong; [| exact Hnd].
  rewrite Forall_forall in Hrange.
  intros [p1 d1] [p2 d2] H1 H2 Heq.
  apply list_elem_of_fmap in H1 as (r1 & Hk1 & Hr1), H2 as (r2 & Hk2 & Hr2).
  pose proof (f_equal fst Heq) as Hp. pose proof (f_equal snd Heq) as Hl.
  simpl in Hp, Hl. subst p2. f_equal. apply strftime_dmy_inj; [| | exact Hl].
  - replace d1 with (ACTIVITY_DATE r1) by (by injection Hk1). by apply Hrange.
  - replace d2 with (ACTIVITY_DATE r2) by (by injection Hk2). by apply Hrange.
Qed.

(** ** The renderer returns on frames of integer counts *)

Lemma valid_values_total (series : list pyval) :
  Forall integer_or_missing series -> exists valid, valid_values series = Ok valid.
Proof.
  induction 1 as [|v series Hv _ [valid IH]]; simpl; [eauto |].
  destruct Hv as [->|[n ->]]; simpl; rewrite IH; simpl; eauto.
Qed.

Lemma Forall_filter_keep {A : Type} (P Q : A -> Prop) {Q_dec : forall x, Decision (Q x)}
    (l : list A) :
  Forall P l -> Forall P (filter Q l).
Proof.
  rewrite !Forall_forall. intros H x Hx.
  apply list_elem_of_filter in Hx as [_ Hx]. by apply H.
Qed.

Lemma stats_of_provider_total (df : list pivot_row) (p : string) :
  Forall (fun r => integer_or_missing (RECORDS (base r))) df ->
  exists st, stats_of_provider df p = Ok st.
Proof.
  intros Hdf. unfold stats_of_provider, series_stats.
  assert (forall (P Q : pivot_row -> Prop) `{!forall r, Decision (P r)}
                 `{!forall r, Decision (Q r)},
            exists valid,
              valid_values (fmap (fun r => RECORDS (base r)) (filter P (filter Q df)))
              = Ok valid) as Hvalid.
  { intros P Q ? ?. apply valid_values_total, Forall_fmap.
    by do 2 apply Forall_filter_keep. }
  destruct (Hvalid (fun r => weekday_of (ACTIVITY_DATE (base r)) < 5)
                   (fun r => PROVIDER (base r) = p) _ _) as [v1 ->].
  destruct (Hvalid (fun r => 5 <= weekday_of (ACTIVITY_DATE (base r)))
                   (fun r => PROVIDER (base r) = p) _ _) as [v2 ->].
  simpl. destruct (2 <? length v1)%nat, (2 <? length v2)%nat; simpl; eauto.
Qed.

Lemma provider_stats_loop_total (df : list pivot_row) (ps : list string) :
  Forall (fun r => integer_or_missing (RECORDS (base r))) df ->
  forall acc, exists pst, provider_stats_loop df ps acc = Ok pst.
Proof.
  intros Hdf. induction ps as [|p ps IH]; intros acc; simpl; [eauto |].
  destruct (stats_of_provider_total df p Hdf) as [st ->]. simpl. apply IH.
Qed.

(** [float()] does not overflow on the integer [map_status] makes of a
    number. *)
Lemma map_status_number (v : pyval) (n : Z) :
  (forall s, v <> PStr s) -> map_status v = PInt n -> exists x, float_of_int n = Ok x.
Proof.
  intros Hs. unfold map_status. destruct (isna v); [discriminate |].
  destruct v as [|n0|f|s|n0]; simpl.
  - discriminate.
  - destruct (float_of_int n0) as [x|] eqn:Hx; simpl; [| discriminate].
    destruct (x =? 0)%float; [discriminate |]. intros [= <-]. by exists x.
  - destruct (f =? 0)%float; [discriminate |].
    destruct (int_of_float f) as [k|] eqn:Hk; simpl; [| discriminate].
    intros [= <-]. by apply (float_of_int_of_float f).
  - by destruct (Hs s).
  - destruct (float_of_int n0) as [x|] eqn:Hx; simpl; [| discriminate].
    destruct (x =? 0)%float; [discriminate |]. intros [= <-]. by exists x.
Qed.

Lemma baseline_fill_total (stats : option baseline) (v : pyval) (x : float) :
  py_float v = Ok x -> exists f, baseline_fill stats v = Ok f.
Proof.
  intros Hx. unfold baseline_fill. destruct stats as [b|]; [| eauto].
  destruct (0 <? std b)%float; [| eauto]. rewrite Hx. simpl.
  repeat match goal with |- context [if ?c then _ else _] => destruct c end; eauto.
Qed.

Lemma baseline_fill_range (stats : option baseline) (v : pyval) (f : pattern_fill) :
  baseline_fill stats v = Ok f -> f = green_fill \/ f = yellow_fill \/ f = orange_fill.
Proof.
  unfold baseline_fill. destruct stats as [b|]; [| intros [= <-]; by left].
  destruct (0 <? std b)%float; [| intros [= <-]; by left].
  intros H. bind_inv H.
  repeat match type of H with context [if ?x then _ else _] => destruct x end;
    injection H as <-; auto.
Qed.

(** The data loop returns on a cell that holds what [map_status] makes of a
    number. *)
Lemma fill_data_cell_total (order : list day_entry) (pst : gmap string class_stats)
    (p : string) (j : nat) (e : day_entry) (st : class_stats) (dt : dtype) (v : pyval) :
  order !! j = Some e -> pst !! p = Some st -> (forall s, v <> PStr s) ->
  exists c, fill_data_cell order pst p (2 + j) (new_cell (array_scalar dt (map_status v))) = Ok c.
Proof.
  intros He Hst Hv. destruct (map_status_cases v) as [Hs|[n Hs]]; rewrite Hs.
  - rewrite array_scalar_text, fill_data_cell_missing by reflexivity. eauto.
  - destruct (map_status_number v n Hv Hs) as [x Hx].
    destruct (array_scalar_int dt n) as [[_ ->]|[->|[_ ->]]].
    + rewrite (fill_data_cell_number _ _ _ _ _ e st) by done. simpl.
      destruct (baseline_fill_total
                  (if is_weekend (entry_date e) then weekend st else weekday st) (PInt n) x Hx)
        as [f ->].
      simpl. eauto.
    + rewrite fill_data_cell_numpy. eauto.
    + rewrite (fill_data_cell_number _ _ _ _ _ e st) by done. simpl.
      destruct (baseline_fill_total
                  (if is_weekend (entry_date e) then weekend st else weekday st)
                  (PFloat (float_of_Z n)) (float_of_Z n) eq_refl)
        as [f ->].
      simpl. eauto.
Qed.

Lemma header_row_total (order : list day_entry) (max_column : nat) (values : list pyval) :
  length values = S (length order) -> (max_column <= S (length order))%nat ->
  exists cells,
    enumerate_mapM (fill_header_cell order) 1 (header_cells max_column values) = Ok cells.
Proof.
  intros Hlen Hmax. apply enumerate_mapM_total. intros k c Hk.
  apply lookup_lt_Some in Hk. unfold header_cells in Hk.
  rewrite length_app, length_fmap, length_replicate in Hk.
  unfold fill_header_cell. destruct k as [|k]; simpl; [eauto |].
  rewrite Nat.sub_0_r. destruct (lookup_lt_is_Some_2 order k) as [e He]; [lia |].
  apply index_Ok in He. rewrite He. simpl.
  destruct (5 <=? weekday_of (entry_date e)); eauto.
Qed.

(** On a frame with one row per provider and date whose counts are integers
    or missing, and on a sheet no wider than the block, the renderer
    returns. *)
Lemma build_pivot_table_total (max_column : nat) (df : list activity_record)
    (title : string) :
  Forall (fun r => date_in_range (ACTIVITY_DATE r)) df ->
  NoDup (fmap (fun r => (PROVIDER r, ACTIVITY_DATE r)) df) ->
  Forall (fun r => integer_or_missing (RECORDS r)) df ->
  (max_column <= S (length (day_order (assign_columns df))))%nat ->
  exists ws, build_pivot_table max_column df title = Ok (assign_columns df, ws).
Proof.
  intros Hrange Hnd Hint Hmax.
  destruct (pivot_entries_assign_total df Hrange Hnd) as [m0 Hm0].
  destruct (df_pivot_total _ _ Hm0) as [m Hm].
  assert (Forall (fun r => integer_or_missing (RECORDS (base r))) (assign_columns df))
    as Hint' by (unfold assign_columns; by apply Forall_fmap).
  destruct (provider_stats_loop_total _ (providers (assign_columns df)) Hint' ∅)
    as [pst Hpst].
  unfold build_pivot_table. rewrite Hm, Hpst. cbn [bind].
  set (order := day_order (assign_columns df)) in *.
  set (ps := providers (assign_columns df)) in *.
  destruct (header_row_total order max_column
              (PStr "" :: fmap PStr (fmap entry_weekday order))) as [wc ->];
    [simpl; by rewrite !length_fmap | exact Hmax |].
  destruct (header_row_total order max_column
              (PStr "Provider" :: fmap PStr (fmap entry_label order))) as [dc ->];
    [simpl; by rewrite !length_fmap | exact Hmax |].
  cbn [bind]. rewrite foldl_data_rows, drop_app_length', take_app_length' by reflexivity.
  match goal with
  | |- context [enumerate_mapM ?f 0 ?rows] =>
      destruct (enumerate_mapM_total f rows 0) as [data ->]; [| cbn [bind]; eauto]
  end.
  intros i row Hrow. cbn [Nat.add].
  rewrite list_lookup_fmap, lookup_zip_with in Hrow.
  destruct (ps !! i) as [p|] eqn:Hp; [| discriminate]. simpl in Hrow.
  unfold iterrows in Hrow. set (dt := values_dtype _ _) in Hrow.
  rewrite !list_lookup_fmap in Hrow. unfold reindex in Hrow.
  rewrite list_lookup_fmap, Hp in Hrow. simpl in Hrow. injection Hrow as <-.
  unfold fill_data_row. apply index_Ok in Hp as Hidx. rewrite Hidx. cbn [bind].
  destruct (provider_stats_loop_spec _ _ _ _ Hpst) as [Hin _].
  destruct (Hin p) as (st & _ & Hst); [by eapply list_elem_of_lookup_2 |].
  apply enumerate_mapM_total. intros [|k] c Hc; simpl in Hc.
  { injection Hc as <-. simpl. eauto. }
  rewrite !list_lookup_fmap in Hc.
  destruct (order !! k) as [e|] eqn:He; [| discriminate]. simpl in Hc. injection Hc as <-.
  change (1 + S k)%nat with (2 + k)%nat.
  apply (fill_data_cell_total _ _ _ _ e st); [exact He | exact Hst |].
  intros s Hs. destruct (m !! (p, entry_label e)) as [v|] eqn:Hv; [| discriminate].
  simpl in Hs. subst v.
  destruct (df_pivot_lookup_key _ _ _ _ Hm Hv) as (r & Hr & _ & Hcase).
  rewrite Forall_forall in Hint'. specialize (Hint' r Hr). simpl in Hint'.
  destruct Hint' as [Hnone|[n Hn]]; [rewrite Hnone in Hcase | rewrite Hn in Hcase];
    by destruct Hcase.
Qed.

(** * The claims *)

(** ** C1: z-score classification *)

(** The classification of the specification, on the cells the data loop
    takes for numbers.  In the block [build_pivot_table] writes, a data cell
    that holds an [int] or a [float], whose provider has a baseline [b] for
    the weekday class of its day with [std b > 0], is filled by its score
    [z = |float(value) - mean b| / std b] in binary64: [z > 3] gives the
    orange fill (SEVERE), [2 < z <= 3] the yellow fill (MODERATE) and
    [z <= 2] the green fill (NORMAL); so a score of exactly 3 is MODERATE
    and a score of exactly 2 is NORMAL. *)
Lemma zscore_classification_of_number (max_column : nat) (df : list activity_record)
    (title : string) (df' : list pivot_row) (ws : worksheet) (i j : nat) (p : string)
    (e : day_entry) (c : cell) (st : class_stats) (b : baseline) :
  build_pivot_table max_column df title = Ok (df', ws) ->
  providers df' !! i = Some p ->
  day_order df' !! j = Some e ->
  sheet_cell ws (5 + i) (1 + j) = Some c ->
  is_number (value c) = true ->
  stats_of_provider df' p = Ok st ->
  (if is_weekend (entry_date e) then weekend st else weekday st) = Some b ->
  (0 <? std b)%float = true ->
  exists x,
    py_float (value c) = Ok x /\
    let z := (abs (x - mean b) / std b)%float in
    ((3 <? z)%float = true ->
       fill c = Some orange_fill /\ classify (fill c) = Some SEVERE) /\
    ((2 <? z)%float = true -> (z <=? 3)%float = true ->
       fill c = Some yellow_fill /\ classify (fill c) = Some MODERATE) /\
    ((z <=? 2)%float = true ->
       fill c = Some green_fill /\ classify (fill c) = Some NORMAL).
Proof.
  intros H Hp He Hc Hv Hst Hb Hstd.
  destruct (build_pivot_table_data_cell _ _ _ _ _ H) as (m & _ & Hcell).
  destruct (Hcell i j p e c Hp He Hc)
    as [(_ & Hm & _)|(n & _ & [(Hn & _)|(st' & f & _ & Hst' & Hf & Hfill)])].
  { by rewrite Hm in Hv. }
  { by rewrite Hn in Hv. }
  rewrite Hst in Hst'. injection Hst' as <-. rewrite Hb in Hf.
  unfold baseline_fill in Hf. rewrite Hstd in Hf. bind_inv Hf.
  exists a. split; [exact Ha |]. cbv zeta.
  rewrite <- (float_abs_div _ _ Hstd).
  set (z := abs ((a - mean b) / std b)%float) in *. rewrite Hfill.
  split; [| split].
  - intros Hz. rewrite Hz in Hf. by injection Hf as <-.
  - intros Hz2 Hz3. rewrite (float_leb_not_gt _ _ Hz3), Hz2 in Hf. by injection Hf as <-.
  - intros Hz. rewrite (float_le_2_not_gt_3 _ Hz), (float_leb_not_gt _ _ Hz) in Hf.
    by injection Hf as <-.
Qed.

(** Which cells the data loop takes for numbers.  One ["MISSING"] cell
    anywhere in the data rows makes the array of line 199 an array of
    objects, and every other data cell then holds an [int]; without one,
    the cells are numpy scalars. *)
Lemma data_cells_beside_missing (max_column : nat) (df : list activity_record)
    (title : string) (df' : list pivot_row) (ws : worksheet) (i0 j0 : nat) (p0 : string)
    (e0 : day_entry) (c0 : cell) :
  build_pivot_table max_column df title = Ok (df', ws) ->
  providers df' !! i0 = Some p0 -> day_order df' !! j0 = Some e0 ->
  sheet_cell ws (5 + i0) (1 + j0) = Some c0 -> value c0 = PStr "MISSING" ->
  forall i j p e c,
    providers df' !! i = Some p -> day_order df' !! j = Some e ->
    sheet_cell ws (5 + i) (1 + j) = Some c -> value c <> PStr "MISSING" ->
    exists n, value c = PInt n /\ is_number (value c) = true.
Proof.
  intros H Hp0 He0 Hc0 Hv0.
  destruct (build_pivot_table_data_cell _ _ _ _ _ H) as (m & _ & Hcell).
  assert (status_dtype df' m = object) as Hdt.
  { destruct (Hcell i0 j0 p0 e0 c0 Hp0 He0 Hc0)
      as [(Hm0 & _)|(n & _ & [(Hn & _)|(st & f & [[Hn _]|[Hn _]] & _)])];
      [| congruence | congruence | congruence].
    unfold status_dtype.
    apply (values_dtype_text _ _ i0 j0
             (fmap map_status
                (fmap (fun l => default (PFloat nan) (m !! (p0, l)))
                   (fmap entry_label (day_order df')))) "MISSING").
    - unfold reindex. rewrite !list_lookup_fmap, Hp0. reflexivity.
    - rewrite !list_lookup_fmap, He0. simpl. by rewrite Hm0.
    - rewrite length_fmap. by eapply lookup_lt_Some. }
  intros i j p e c Hp He Hc Hv.
  destruct (Hcell i j p e c Hp He Hc)
    as [(_ & Hm & _)|(n & _ & [(_ & _ & [Hd|Hd])|(st & f & [[Hn _]|[_ Hd]] & _)])];
    try congruence.
  exists n. by rewrite Hn.
Qed.

(** The boundaries on a baseline with mean 10 and deviation 2: the
    scores of 17, 16 and 14 are 3.5, exactly 3 and exactly 2. *)
Example baseline_fill_boundaries :
  let b := Some {| mean := 10; std := 2 |} in
  baseline_fill b (PInt 17) = Ok orange_fill /\
  baseline_fill b (PInt 16) = Ok yellow_fill /\
  baseline_fill b (PInt 14) = Ok green_fill.
Proof. repeat split; vm_compute; reflexivity. Qed.

(** Without a ["MISSING"] cell: when every entry of the pivot goes through
    [map_status] to an integer that fits int64, every data cell of the block
    holds a numpy integer and is green, whatever the baselines are. *)
Lemma integer_grid_is_green (max_column : nat) (df : list activity_record)
    (title : string) (df' : list pivot_row) (ws : worksheet) :
  build_pivot_table max_column df title = Ok (df', ws) ->
  exists m,
    df_pivot df' = Ok m /\
    ((forall p e, p ∈ providers df' -> e ∈ day_order df' ->
        exists n, map_status (default (PFloat nan) (m !! (p, entry_label e))) = PInt n /\
                  in_int64 n = true) ->
     forall i j p e c,
       providers df' !! i = Some p -> day_order df' !! j = Some e ->
       sheet_cell ws (5 + i) (1 + j) = Some c ->
       exists n, value c = PNumpy n /\ fill c = Some green_fill).
Proof.
  intros H.
  destruct (build_pivot_table_data_cell _ _ _ _ _ H) as (m & Hm & Hcell).
  exists m. split; [exact Hm |]. intros Hint.
  assert (status_dtype df' m = int64) as Hdt.
  { unfold status_dtype. apply values_dtype_int64.
    apply Forall_fmap, Forall_forall. intros row Hrow. simpl.
    unfold reindex in Hrow. apply list_elem_of_fmap in Hrow as (p & -> & Hp).
    apply Forall_fmap, Forall_fmap, Forall_fmap, Forall_forall. intros e He. simpl.
    by apply Hint. }
  intros i j p e c Hp He Hc.
  destruct (Hcell i j p e c Hp He Hc)
    as [(Hmiss & _)|(n & _ & [(Hn & Hf & _)|(st & f & [[_ Hd]|[_ Hd]] & _)])];
    [| by exists n | congruence | congruence].
  destruct (Hint p e) as (n & Hn & _);
    [by eapply list_elem_of_lookup_2 | by eapply list_elem_of_lookup_2 | congruence].
Qed.

(** ** C2: no flag without a credible baseline

    C2. For a provider of the block and either weekday class, the baseline is
    [Series.mean] and [Series.std] of the [qualifying_values] of that
    provider and class (the record counts that are not missing and strictly
    positive), and it exists exactly when there are more than 2 of them; and
    a data cell that is not MISSING whose class has no baseline, or a
    baseline with deviation zero, has the green fill (NORMAL), whatever its
    value. *)
Theorem baseline_needs_three_values (max_column : nat) (df : list activity_record)
    (title : string) (df' : list pivot_row) (ws : worksheet) (i : nat) (p : string) :
  build_pivot_table max_column df title = Ok (df', ws) ->
  providers df' !! i = Some p ->
  exists st,
    stats_of_provider df' p = Ok st /\
    (forall on_weekend : bool,
        let valid := qualifying_values df p on_weekend in
        (if on_weekend then weekend st else weekday st) =
          (if (2 <? length valid)%nat
           then Some {| mean := series_mean valid; std := series_std valid |}
           else None)) /\
    (forall j e c,
        day_order df' !! j = Some e ->
        sheet_cell ws (5 + i) (1 + j) = Some c ->
        value c <> PStr "MISSING" ->
        let stats := if is_weekend (entry_date e) then weekend st else weekday st in
        (stats = None \/ exists b, stats = Some b /\ (std b =? 0)%float = true) ->
        fill c = Some green_fill /\ classify (fill c) = Some NORMAL).
Proof.
  intros H Hp.
  destruct (build_pivot_table_cells _ _ _ _ _ H) as (Hdf & m & pst & _ & Hpst & _).
  destruct (provider_stats_loop_spec _ _ _ _ Hpst) as [Hin _].
  destruct (Hin p) as (st & Hst & _); [by eapply list_elem_of_lookup_2 |].
  exists st. split; [exact Hst |]. split.
  - intros on_weekend. subst df'. by apply stats_of_provider_qualifying.
  - intros j e c He Hc Hv stats Hstats.
    destruct (build_pivot_table_data_cell _ _ _ _ _ H) as (m' & _ & Hcell).
    destruct (Hcell i j p e c Hp He Hc)
      as [(_ & Hm & _)|(n & _ & [(_ & -> & _)|(st' & f & _ & Hst' & Hf & Hfill)])];
      [done | done |].
    rewrite Hst in Hst'. injection Hst' as <-. fold stats in Hf. rewrite Hfill.
    destruct Hstats as [->|(b & -> & Hzero)]; simpl in Hf.
    + by injection Hf as <-.
    + rewrite (float_eqb_not_gt _ _ Hzero) in Hf. by injection Hf as <-.
Qed.

(** ** C3: absent and zero counts are MISSING *)

Lemma map_status_absent_or_zero (v : pyval) :
  isna v = true \/ v = PInt 0 \/ (exists f, v = PFloat f /\ (f =? 0)%float = true) ->
  map_status v = PStr "MISSING".
Proof.
  intros [H|[->|(f & -> & H)]]; unfold map_status.
  - by rewrite H.
  - reflexivity.
  - simpl. rewrite H. by destruct (is_nan f).
Qed.

Lemma float_of_Z_0 : float_of_Z 0 = 0%float.
Proof. vm_compute. reflexivity. Qed.

(** The same when the pivot holds the count as a float. *)
Lemma map_status_absent_or_zero_float64 (v : pyval) :
  isna v = true \/ v = PInt 0 \/ (exists f, v = PFloat f /\ (f =? 0)%float = true) ->
  map_status (as_float64 v) = PStr "MISSING".
Proof.
  intros [H|[->|(f & -> & H)]].
  - apply map_status_absent_or_zero. left. by destruct v.
  - apply map_status_absent_or_zero. right. right. exists (float_of_Z 0).
    split; [reflexivity |]. by rewrite float_of_Z_0.
  - apply map_status_absent_or_zero. right. right. by exists f.
Qed.

Lemma isna_nan : isna (PFloat nan) = true.
Proof. vm_compute. reflexivity. Qed.

(** C3. In the block [build_pivot_table] writes, the cell of a provider and a
    day for which the frame has no row, or has a row whose record count is
    absent ([None] or NaN) or equal to zero (the integer 0 or a float equal
    to 0), holds ["MISSING"] and has the red fill.  No baseline occurs in
    the statement: the fill does not depend on one. *)
Theorem absent_or_zero_is_missing (max_column : nat) (df : list activity_record)
    (title : string) (df' : list pivot_row) (ws : worksheet) (i j : nat) (p : string)
    (e : day_entry) :
  build_pivot_table max_column df title = Ok (df', ws) ->
  Forall (fun r => date_in_range (ACTIVITY_DATE r)) df ->
  providers df' !! i = Some p ->
  day_order df' !! j = Some e ->
  ((forall r, r ∈ df -> PROVIDER r = p -> ACTIVITY_DATE r <> entry_date e) \/
   (exists r, r ∈ df /\ PROVIDER r = p /\ ACTIVITY_DATE r = entry_date e /\
      (isna (RECORDS r) = true \/ RECORDS r = PInt 0 \/
       exists f, RECORDS r = PFloat f /\ (f =? 0)%float = true))) ->
  exists c,
    sheet_cell ws (5 + i) (1 + j) = Some c /\
    value c = PStr "MISSING" /\ fill c = Some red_fill /\
    classify (fill c) = Some MISSING.
Proof.
  intros H Hrange Hp He Hcase.
  destruct (build_pivot_table_cells _ _ _ _ _ H) as (-> & m & pst & Hm & _ & Hcells).
  destruct (Hcells i j p e Hp He) as (c & Hc & Hfill).
  destruct (day_order_entry _ _ _ He) as (Hentry & r0 & Hr0 & Hd0).
  assert (entry_label e = strftime_dmy (entry_date e)) as Hlabel by (by rewrite Hentry at 1).
  assert (map_status (default (PFloat nan) (m !! (p, entry_label e))) = PStr "MISSING")
    as Hmissing.
  { rewrite Hlabel. destruct Hcase as [Habsent|(r & Hr & <- & <- & Hzero)].
    - rewrite (df_pivot_absent df m p (entry_date e) Hm Hrange); [| | exact Habsent].
      + apply map_status_absent_or_zero. left. apply isna_nan.
      + rewrite <- Hd0. rewrite Forall_forall in Hrange. by apply Hrange.
    - destruct (df_pivot_present df m r Hm Hr) as (v & -> & [->| ->]); simpl.
      + by apply map_status_absent_or_zero.
      + by apply map_status_absent_or_zero_float64. }
  rewrite Hmissing, array_scalar_text, fill_data_cell_missing in Hfill by reflexivity.
  injection Hfill as <-. exists (set_fill red_fill (new_cell (PStr "MISSING"))).
  by repeat split.
Qed.

(** ** C4: the shape of the pivot grid

    C4. For a frame of dates in range with one row per provider and date,
    the pivot of line 140 succeeds and the grid of line 141 has one row per
    provider of the frame, the providers in strictly increasing order, and
    one column per date of the frame, the dates in strictly increasing
    order.  The cell of a provider and a date holds the record count of
    their row, as the frame has it or, for an integer, as the binary64
    number nearest to it (the pivot of a column of integers holds floats
    once a provider has no row for a date).  Where they have no row the cell
    is NaN, [map_status] turns it into ["MISSING"] and the data loop fills
    it red, whatever the array of line 199 is. *)
Theorem pivot_grid_shape (df : list activity_record) :
  Forall (fun r => date_in_range (ACTIVITY_DATE r)) df ->
  NoDup (fmap (fun r => (PROVIDER r, ACTIVITY_DATE r)) df) ->
  let df' := assign_columns df in
  let ps := providers df' in
  let order := day_order df' in
  exists m,
    df_pivot df' = Ok m /\
    let grid := reindex m ps (fmap entry_label order) in
    length grid = length ps /\
    StronglySorted str_lt ps /\
    (forall p, p ∈ ps <-> exists r, r ∈ df /\ PROVIDER r = p) /\
    Forall (fun row => length row = length order) grid /\
    StronglySorted date_lt (fmap entry_date order) /\
    (forall d, d ∈ fmap entry_date order <-> exists r, r ∈ df /\ ACTIVITY_DATE r = d) /\
    forall i j p e,
      ps !! i = Some p -> order !! j = Some e ->
      exists v,
        grid_cell grid i j = Some v /\
        (forall r, r ∈ df -> PROVIDER r = p -> ACTIVITY_DATE r = entry_date e ->
           v = RECORDS r \/ exists n, RECORDS r = PInt n /\ v = PFloat (float_of_Z n)) /\
        ((forall r, r ∈ df -> PROVIDER r = p -> ACTIVITY_DATE r <> entry_date e) ->
           isna v = true /\ map_status v = PStr "MISSING" /\
           forall pst dt,
             fill_data_cell order pst p (2 + j) (new_cell (array_scalar dt (map_status v)))
             = Ok (set_fill red_fill (new_cell (PStr "MISSING")))).
Proof.
  intros Hrange Hnd df' ps order.
  destruct (pivot_entries_assign_total df Hrange Hnd) as [m0 Hm0].
  destruct (df_pivot_total _ _ Hm0) as [m Hm].
  exists m. split; [exact Hm |]. cbv zeta.
  split; [unfold reindex; by rewrite length_fmap |].
  split; [apply providers_sorted |].
  split; [apply elem_of_providers |].
  split.
  { unfold reindex. apply Forall_fmap, Forall_forall. intros p _. simpl.
    by rewrite !length_fmap. }
  split; [apply day_order_sorted |].
  split.
  { intros d. rewrite list_elem_of_fmap. split.
    - intros (e & -> & He). apply elem_of_day_order in He as (r & Hr & ->). by exists r.
    - intros (r & Hr & <-). exists (day_entry_of (ACTIVITY_DATE r)).
      split; [reflexivity |]. apply elem_of_day_order. by exists r. }
  intros i j p e Hp He.
  destruct (day_order_entry _ _ _ He) as (Hentry & r0 & Hr0 & Hd0).
  assert (entry_label e = strftime_dmy (entry_date e)) as Hlabel by (by rewrite Hentry at 1).
  exists (default (PFloat nan) (m !! (p, entry_label e))). split.
  { unfold grid_cell, reindex. rewrite list_lookup_fmap, Hp. simpl.
    by rewrite !list_lookup_fmap, He. }
  rewrite Hlabel. split.
  - intros r Hr <- <-.
    destruct (df_pivot_present df m r Hm Hr) as (v & -> & [->| ->]); simpl; [by left |].
    destruct (RECORDS r) as [|n|f|s|n]; simpl; eauto.
  - intros Habsent.
    rewrite (df_pivot_absent df m p (entry_date e) Hm Hrange); [| | exact Habsent].
    + simpl. split; [apply isna_nan |].
      assert (map_status (PFloat nan) = PStr "MISSING") as ->
        by (apply map_status_absent_or_zero; left; apply isna_nan).
      split; [reflexivity |]. intros pst dt.
      rewrite array_scalar_text. by apply fill_data_cell_missing.
    + rewrite <- Hd0. rewrite Forall_forall in Hrange. by apply Hrange.
Qed.

(** ** C5: weekend detection and the weekend baseline *)

Lemma is_weekend_day_name (d : date) :
  is_weekend d = true <-> day_name d = "Saturday" \/ day_name d = "Sunday".
Proof.
  unfold is_weekend, day_name. pose proof (weekday_of_range d) as Hr.
  rewrite Z.leb_le.
  assert (weekday_of d = 0 \/ weekday_of d = 1 \/ weekday_of d = 2 \/ weekday_of d = 3 \/
          weekday_of d = 4 \/ weekday_of d = 5 \/ weekday_of d = 6) as Hw by lia.
  destruct Hw as [->|[->|[->|[->|[->|[->| ->]]]]]]; simpl;
    (split; [intros ?; try lia; auto | intros [?|?]; try discriminate; lia]).
Qed.

(** The weekend test and the baseline of the specification, on the cells
    the data loop takes for numbers.  For a day of the block: the script's
    weekend test ([weekday() >= 5]) holds exactly when the day is a Saturday
    or a Sunday, and it is the test that marks the two header cells of the
    day's column; and the fill of a data cell of that column that holds an
    [int] or a [float] is the one [baseline_fill] computes from the
    provider's weekend baseline when the day is a weekend day, and from the
    provider's weekday baseline otherwise.  The other baseline does not
    occur. *)
Lemma weekend_baseline_of_number (max_column : nat) (df : list activity_record)
    (title : string) (df' : list pivot_row) (ws : worksheet) (j : nat) (e : day_entry) :
  build_pivot_table max_column df title = Ok (df', ws) ->
  day_order df' !! j = Some e ->
  (is_weekend (entry_date e) = true <->
     day_name (entry_date e) = "Saturday" \/ day_name (entry_date e) = "Sunday") /\
  sheet_cell ws 3 (1 + j) = Some (weekend_mark e (new_cell (PStr (entry_weekday e)))) /\
  sheet_cell ws 4 (1 + j) = Some (weekend_mark e (new_cell (PStr (entry_label e)))) /\
  forall i p c,
    providers df' !! i = Some p ->
    sheet_cell ws (5 + i) (1 + j) = Some c ->
    is_number (value c) = true ->
    exists st f,
      stats_of_provider df' p = Ok st /\ fill c = Some f /\
      (is_weekend (entry_date e) = true -> baseline_fill (weekend st) (value c) = Ok f) /\
      (is_weekend (entry_date e) = false -> baseline_fill (weekday st) (value c) = Ok f).
Proof.
  intros H He. split; [apply is_weekend_day_name |].
  destruct (build_pivot_table_header _ _ _ _ _ _ _ H He) as [H3 H4].
  split; [exact H3 |]. split; [exact H4 |].
  intros i p c Hp Hc Hv.
  destruct (build_pivot_table_data_cell _ _ _ _ _ H) as (m & _ & Hcell).
  destruct (Hcell i j p e c Hp He Hc)
    as [(_ & Hm & _)|(n & _ & [(Hn & _)|(st & f & _ & Hst & Hf & Hfill)])].
  { by rewrite Hm in Hv. }
  { by rewrite Hn in Hv. }
  exists st, f. split; [exact Hst |]. split; [exact Hfill |].
  split; intros Hw; by rewrite Hw in Hf.
Qed.

(** ** C6: the colour of a summary row

    C6. When every row of the summary frame has an integer total,
    [build_summary_table] returns, and the block row of a frame row with
    total [t] has six cells, all with the red fill if [t > 0] and all with
    the green fill otherwise. *)
Theorem summary_row_colour (df : list summary_row) (title : string) :
  (forall row, row ∈ df -> exists t, TOTAL_MISSING_SUBMISSIONS row = PInt t) ->
  exists ws,
    build_summary_table df title = Ok (df, ws) /\
    forall i row t,
      df !! i = Some row -> TOTAL_MISSING_SUBMISSIONS row = PInt t ->
      exists cells,
        ws !! (2 + i)%nat = Some cells /\ length cells = 6%nat /\
        fmap value cells = summary_values row /\
        (0 < t -> Forall (fun c => fill c = Some red_fill) cells) /\
        (t <= 0 -> Forall (fun c => fill c = Some green_fill) cells).
Proof.
  intros Hdf.
  destruct (build_summary_table_total df title) as [ws Hws].
  { intros row Hrow. destruct (Hdf row Hrow) as [t Ht]. exists t. by rewrite Ht. }
  exists ws. split; [exact Hws |]. intros i row t Hrow Ht.
  destruct (build_summary_table_rows _ _ _ _ Hws) as [_ Hrows].
  destruct (Hrows i row Hrow) as (t' & Ht' & Hi).
  rewrite Ht in Ht'. injection Ht' as <-.
  eexists. split; [exact Hi |]. unfold summary_values. simpl.
  split; [reflexivity |]. split; [reflexivity |]. split; intros Hsign.
  - assert ((0 <? t) = true) as -> by (by apply Z.ltb_lt). by repeat constructor.
  - assert ((0 <? t) = false) as -> by (by apply Z.ltb_ge). by repeat constructor.
Qed.

(** ** C7: the empty-dataset guard *)

(** The guard of lines 308-310, taken on its own, does what the
    specification says: with an empty dataset nothing is rendered and the
    exit status is 0. *)
Lemma main_body_empty_guard (df_summary : list summary_row)
    (df_inpatient df_op df_ecds : list activity_record) :
  df_summary = [] \/ df_inpatient = [] \/ df_op = [] \/ df_ecds = [] ->
  main_body df_summary df_inpatient df_op df_ecds = SysExit 0.
Proof.
  unfold main_body. intros [->|[->|[->| ->]]]; simpl; rewrite ?orb_true_r; reflexivity.
Qed.

(** C7. The script as it is written never reaches that guard.  Lines 294
    and 301 are at column 0, which closes the block of line 284, so the
    guard of line 308, indented by four columns, is an unexpected indent:
    the file is rejected at line 308 before any statement runs, whatever the
    datasets would be, and the process ends with status 1, not 0. *)
Theorem main_block_is_rejected (df_summary : list summary_row)
    (df_inpatient df_op df_ecds : list activity_record) :
  check_indent [0%nat] false main_block = Some 308%nat /\
  run_script df_summary df_inpatient df_op df_ecds = Rejected 308 /\
  exit_code (run_script df_summary df_inpatient df_op df_ecds) = 1 /\
  output_file (run_script df_summary df_inpatient df_op df_ecds) = None.
Proof. repeat split. Qed.

(** ** C8: the renderers and their input

    C8. [build_summary_table] returns the frame it was given.
    [build_pivot_table] returns the rows it was given, in order, each with
    its PROVIDER, ACTIVITY_DATE and RECORDS as they were and with the two
    columns it assigns: DAY_LABEL, the day formatted as dd/mm/yyyy, and
    WEEKDAY, the first three letters of the day's name. *)
Theorem renderers_keep_input (max_column : nat) (df : list activity_record)
    (title : string) (df' : list pivot_row) (ws : worksheet)
    (summary summary' : list summary_row) (summary_title : string)
    (summary_ws : worksheet) :
  build_pivot_table max_column df title = Ok (df', ws) ->
  build_summary_table summary summary_title = Ok (summary', summary_ws) ->
  summary' = summary /\
  fmap base df' = df /\
  fmap (fun r => PROVIDER (base r)) df' = fmap PROVIDER df /\
  fmap (fun r => RECORDS (base r)) df' = fmap RECORDS df /\
  Forall (fun r => DAY_LABEL r = strftime_dmy (ACTIVITY_DATE (base r)) /\
                   WEEKDAY r = substring 0 3 (day_name (ACTIVITY_DATE (base r)))) df'.
Proof.
  intros H Hs.
  destruct (build_pivot_table_cells _ _ _ _ _ H) as (-> & _).
  destruct (build_summary_table_rows _ _ _ _ Hs) as [-> _].
  unfold assign_columns. rewrite <- !list_fmap_compose.
  split; [reflexivity |]. split; [apply list_fmap_id |].
  split; [reflexivity |]. split; [reflexivity |].
  apply Forall_fmap, Forall_forall. intros r _. by split.
Qed.

(** ** C9: values that are not numbers *)

(** A string that [float()] cannot read. *)
Lemma map_status_unreadable_string (s : string) :
  float_of_str s = None -> map_status (PStr s) = PStr "MISSING".
Proof. intros H. unfold map_status. simpl. by rewrite H. Qed.

(** C9. [map_status] is a total function, and on a value that is present
    (not [None], not NaN) and on which [float()] raises it returns
    ["MISSING"]: the exception is caught. *)
Theorem map_status_not_a_number (val : pyval) (e : exn) :
  isna val = false ->
  py_float val = Raise e ->
  map_status val = PStr "MISSING".
Proof. intros Hna Hf. unfold map_status. by rewrite Hna, Hf. Qed.

(** ** C10: counts strictly between 0 and 1 *)

(** For a float [v] with [0 < v < 1], [map_status] returns the integer 0,
    which is not ["MISSING"].  Whatever the array of line 199 is, the cell
    shows 0 and is NORMAL, MODERATE or SEVERE, never MISSING; and when the
    cell holds an [int] or a [float] the data loop fills it from the
    baseline of its provider and class, with [baseline_fill]. *)
Lemma fraction_shows_zero (v : float) :
  (0 <? v)%float = true -> (v <? 1)%float = true ->
  map_status (PFloat v) = PInt 0 /\
  is_missing (map_status (PFloat v)) = false /\
  forall order pst p j dt c,
    fill_data_cell order pst p (2 + j)
      (new_cell (array_scalar dt (map_status (PFloat v)))) = Ok c ->
    py_int (value c) = Ok 0 /\
    (is_number (value c) = true ->
     exists e st f,
        order !! j = Some e /\ pst !! p = Some st /\
        baseline_fill (if is_weekend (entry_date e) then weekend st else weekday st)
          (value c) = Ok f /\
        fill c = Some f) /\
    (classify (fill c) = Some NORMAL \/ classify (fill c) = Some MODERATE \/
     classify (fill c) = Some SEVERE).
Proof.
  intros H0 H1. destruct (float_unit_interval v H0 H1) as (Hnan & Hzero & Hint).
  assert (map_status (PFloat v) = PInt 0) as Hv.
  { unfold map_status. simpl. by rewrite Hnan, Hzero, Hint. }
  rewrite Hv. split; [reflexivity |]. split; [reflexivity |].
  intros order pst p j dt c Hc.
  assert (forall x, is_number x = true -> py_int x = Ok 0 ->
            fill_data_cell order pst p (2 + j) (new_cell x) = Ok c ->
            py_int (value c) = Ok 0 /\
            (is_number (value c) = true ->
             exists e st f,
               order !! j = Some e /\ pst !! p = Some st /\
               baseline_fill (if is_weekend (entry_date e) then weekend st else weekday st)
                 (value c) = Ok f /\
               fill c = Some f) /\
            (classify (fill c) = Some NORMAL \/ classify (fill c) = Some MODERATE \/
             classify (fill c) = Some SEVERE)) as Hnumber.
  { intros x Hx Hx0 Hcx. unfold fill_data_cell in Hcx. simpl in Hcx.
    assert (is_missing x = false) as Hmx by (by destruct x).
    rewrite Hmx, Hx, Nat.sub_0_r in Hcx. bind_inv Hcx. apply index_Ok in Ha.
    destruct (pst !! p) as [st|] eqn:Hst; [| discriminate].
    bind_inv Hcx. injection Hcx as <-. simpl. split; [exact Hx0 |]. split.
    - intros _. exists a, st, a0. by repeat split.
    - apply baseline_fill_range in Ha0. destruct Ha0 as [->|[->| ->]]; auto. }
  destruct (array_scalar_int dt 0) as [[_ Hdt]|[Hdt|[_ Hdt]]]; rewrite Hdt in Hc.
  - by apply (Hnumber (PInt 0)).
  - rewrite fill_data_cell_numpy in Hc. injection Hc as <-. simpl.
    split; [reflexivity |]. split; [discriminate | by left].
  - apply (Hnumber (PFloat (float_of_Z 0))); [reflexivity | | exact Hc].
    simpl. by rewrite float_of_Z_0.
Qed.

(** * Further properties of the renderers

    What the renderers write around the cells of the claims, what they raise
    and on which inputs, and how [export_to_excel] composes them. *)

(** ** The parts of a pivot block *)

Lemma build_pivot_table_inv (max_column : nat) (df : list activity_record)
    (title : string) (df' : list pivot_row) (ws : worksheet) :
  build_pivot_table max_column df title = Ok (df', ws) ->
  df' = assign_columns df /\
  exists m pst weekday_cells date_cells data,
    df_pivot df' = Ok m /\
    provider_stats_loop df' (providers df') ∅ = Ok pst /\
    enumerate_mapM (fill_header_cell (day_order df')) 1
      (header_cells max_column (PStr "" :: fmap PStr (fmap entry_weekday (day_order df'))))
      = Ok weekday_cells /\
    enumerate_mapM (fill_header_cell (day_order df')) 1
      (header_cells max_column (PStr "Provider" :: fmap PStr (fmap entry_label (day_order df'))))
      = Ok date_cells /\
    enumerate_mapM (fill_data_row (day_order df') pst (providers df')) 0
      (fmap (fun x : string * list pyval => fmap new_cell (PStr x.1 :: x.2))
         (zip (providers df')
            (iterrows (length (fmap entry_label (day_order df')))
               (fmap (fun row : list pyval => fmap map_status row)
                  (reindex m (providers df') (fmap entry_label (day_order df')))))))
      = Ok data /\
    ws = [[new_cell (PStr timestamp)]; [new_cell (PStr "")]; [new_cell (PStr title)];
          weekday_cells; date_cells] ++ data.
Proof.
  unfold build_pivot_table. intros H.
  bind_inv H. rename a into m, Ha into Hm.
  bind_inv H. rename a into pst, Ha into Hpst.
  bind_inv H. rename a into weekday_cells, Ha into Hw.
  bind_inv H. rename a into date_cells, Ha into Hd.
  bind_inv H. rename a into data, Ha into Hdata.
  injection H as <- <-. split; [reflexivity |].
  exists m, pst, weekday_cells, date_cells, data.
  rewrite foldl_data_rows in Hdata |- *.
  rewrite drop_app_length' in Hdata by reflexivity.
  rewrite take_app_length' by reflexivity.
  by repeat split.
Qed.

(** The rows of a block: their number, their width and their first cells;
    and the sheet it was written on was no wider than the block. *)
Lemma build_pivot_table_rows (max_column : nat) (df : list activity_record)
    (title : string) (df' : list pivot_row) (ws : worksheet) :
  build_pivot_table max_column df title = Ok (df', ws) ->
  (max_column <= S (length (day_order df')))%nat /\
  length ws = (5 + length (providers df'))%nat /\
  ws !! 0%nat = Some [new_cell (PStr timestamp)] /\
  ws !! 1%nat = Some [new_cell (PStr "")] /\
  ws !! 2%nat = Some [new_cell (PStr title)] /\
  (forall k row, ws !! (3 + k)%nat = Some row -> length row = S (length (day_order df'))) /\
  sheet_cell ws 3 0 = Some (new_cell (PStr "")) /\
  sheet_cell ws 4 0 = Some (new_cell (PStr "Provider")) /\
  (forall i p, providers df' !! i = Some p ->
     sheet_cell ws (5 + i) 0 = Some (new_cell (PStr p))).
Proof.
  intros H.
  destruct (build_pivot_table_inv _ _ _ _ _ H)
    as (_ & m & pst & wc & dc & data & _ & _ & Hw & Hd & Hdata & ->).
  set (order := day_order df') in *. set (ps := providers df') in *.
  pose proof Hw as Hwl. pose proof Hd as Hdl.
  apply header_row_width in Hwl as [Hmax Hwl]; [| simpl; by rewrite !length_fmap].
  apply header_row_width in Hdl as [_ Hdl]; [| simpl; by rewrite !length_fmap].
  unfold iterrows in Hdata. set (dt := values_dtype _ _) in Hdata.
  assert (length (zip ps (fmap (fun row : list pyval => fmap (array_scalar dt) row)
                            (fmap (fun row : list pyval => fmap map_status row)
                               (reindex m ps (fmap entry_label order))))) = length ps)
    as Hzip.
  { rewrite length_zip_with, !length_fmap. unfold reindex. rewrite length_fmap. lia. }
  pose proof (enumerate_mapM_Ok _ _ _ _ Hdata) as [Hlen Hrows].
  rewrite length_fmap, Hzip in Hlen.
  split; [exact Hmax |].
  split; [rewrite length_app; simpl; lia |].
  split; [reflexivity |]. split; [reflexivity |]. split; [reflexivity |].
  split.
  { intros [|[|k]] row Hrow; simpl in Hrow.
    - by injection Hrow as <-.
    - by injection Hrow as <-.
    - destruct (enumerate_mapM_Ok_inv _ _ _ _ Hdata k row Hrow) as (x & Hx & Hf).
      rewrite list_lookup_fmap, lookup_zip_with in Hx.
      destruct (ps !! k) as [p|] eqn:Hp; [| discriminate]. simpl in Hx.
      rewrite !list_lookup_fmap in Hx. unfold reindex in Hx.
      rewrite list_lookup_fmap, Hp in Hx. simpl in Hx. injection Hx as <-.
      unfold fill_data_row in Hf. bind_inv Hf.
      apply enumerate_mapM_Ok in Hf as [-> _].
      simpl. by rewrite !length_fmap. }
  split.
  { unfold sheet_cell. simpl.
    destruct (enumerate_mapM_Ok _ _ _ _ Hw) as [_ Hc].
    destruct (Hc 0%nat (new_cell (PStr ""))) as (y & Hy & ->); [reflexivity |].
    by injection Hy as <-. }
  split.
  { unfold sheet_cell. simpl.
    destruct (enumerate_mapM_Ok _ _ _ _ Hd) as [_ Hc].
    destruct (Hc 0%nat (new_cell (PStr "Provider"))) as (y & Hy & ->); [reflexivity |].
    by injection Hy as <-. }
  intros i p Hp. unfold sheet_cell.
  change ((_ ++ data) !! (5 + i)%nat) with (data !! i).
  destruct (Hrows i (fmap new_cell
                       (PStr p :: fmap (array_scalar dt)
                          (fmap map_status
                             (fmap (fun l => default (PFloat nan) (m !! (p, l)))
                                (fmap entry_label order))))))
    as (row & Hrow & ->).
  { rewrite list_lookup_fmap, lookup_zip_with, Hp. simpl.
    rewrite !list_lookup_fmap. unfold reindex. by rewrite list_lookup_fmap, Hp. }
  unfold fill_data_row in Hrow. bind_inv Hrow.
  apply enumerate_mapM_Ok in Hrow as [_ Hc].
  destruct (Hc 0%nat (new_cell (PStr p))) as (y & Hy & ->); [reflexivity |].
  by injection Hy as <-.
Qed.

Lemma build_pivot_table_width (max_column : nat) (df : list activity_record)
    (title : string) (df' : list pivot_row) (ws : worksheet) :
  build_pivot_table max_column df title = Ok (df', ws) ->
  block_width ws = S (length (day_order df')).
Proof.
  intros H. apply build_pivot_table_rows in H
    as (_ & Hlen & H0 & H1 & H2 & Hrows & _).
  unfold worksheet in *. apply Nat.le_antisymm.
  - apply block_width_le, Forall_lookup. intros [|[|[|k]]] row Hk.
    + assert (row = [new_cell (PStr timestamp)]) as -> by congruence. simpl. lia.
    + assert (row = [new_cell (PStr "")]) as -> by congruence. simpl. lia.
    + assert (row = [new_cell (PStr title)]) as -> by congruence. simpl. lia.
    + by rewrite (Hrows k row Hk).
  - destruct (lookup_lt_is_Some_2 ws 3) as [row Hrow]; [lia |].
    rewrite <- (Hrows 0%nat row Hrow). apply block_width_ge.
    by eapply list_elem_of_lookup_2.
Qed.

(** ** What a data cell can hold *)

Lemma map_status_int (v : pyval) (n : Z) :
  map_status v = PInt n -> isna v = false /\ py_int v = Ok n.
Proof.
  unfold map_status. destruct (isna v); [discriminate |].
  destruct (py_float v) as [f|]; simpl; [| discriminate].
  destruct (f =? 0)%float; [discriminate |].
  destruct (py_int v) as [n'|]; simpl; [| discriminate].
  intros [= <-]. by split.
Qed.

(** X1. In the block [build_pivot_table] writes for a frame of dates in
    range, the cell of every provider and every day holds either the string
    ["MISSING"], with the red fill, or an integer [n], with the green, the
    yellow or the orange fill: it is never left without a fill and never
    holds a string other than ["MISSING"] or nothing.  The integer is held
    as an [int], as a numpy integer, which is always green, or as the float
    nearest to it.  It is [int()] of the value the pivot holds for a row the
    frame has for that provider and that day: the record count of the row,
    which is not absent, or the float nearest to it when it is an [int]
    (the pivot of a column of integers holds floats once a provider has no
    row for a day). *)
Theorem data_cell_is_missing_or_count (max_column : nat) (df : list activity_record)
    (title : string) (df' : list pivot_row) (ws : worksheet) (i j : nat) (p : string)
    (e : day_entry) :
  build_pivot_table max_column df title = Ok (df', ws) ->
  Forall (fun r => date_in_range (ACTIVITY_DATE r)) df ->
  providers df' !! i = Some p ->
  day_order df' !! j = Some e ->
  exists c,
    sheet_cell ws (5 + i) (1 + j) = Some c /\
    ((value c = PStr "MISSING" /\ fill c = Some red_fill) \/
     (exists n r v,
         (value c = PInt n \/ (value c = PNumpy n /\ fill c = Some green_fill) \/
          value c = PFloat (float_of_Z n)) /\
         r ∈ df /\ PROVIDER r = p /\ ACTIVITY_DATE r = entry_date e /\
         isna (RECORDS r) = false /\
         (v = RECORDS r \/ exists k, RECORDS r = PInt k /\ v = PFloat (float_of_Z k)) /\
         py_int v = Ok n /\
         (fill c = Some green_fill \/ fill c = Some yellow_fill \/
          fill c = Some orange_fill))).
Proof.
  intros H Hrange Hp He.
  destruct (build_pivot_table_cells _ _ _ _ _ H) as (Hdf & m0 & pst & _ & _ & Hcells).
  destruct (Hcells i j p e Hp He) as (c & Hc & _). clear Hcells m0 pst.
  exists c. split; [exact Hc |].
  destruct (build_pivot_table_data_cell _ _ _ _ _ H) as (m & Hm & Hcell).
  subst df'.
  destruct (day_order_entry _ _ _ He) as (Hentry & r0 & Hr0 & Hd0).
  assert (entry_label e = strftime_dmy (entry_date e)) as Hlabel by (by rewrite Hentry at 1).
  destruct (Hcell i j p e c Hp He Hc) as [(_ & Hv & Hf)|(n & Hn & Hkind)]; [by left |].
  right. apply map_status_int in Hn as [Hna Hint].
  destruct (m !! (p, entry_label e)) as [v|] eqn:Hlook.
  2:{ change (isna (PFloat nan) = false) in Hna. by rewrite isna_nan in Hna. }
  simpl in Hna, Hint.
  destruct (df_pivot_lookup_key _ _ _ _ Hm Hlook) as (r' & Hr' & Hkey & Hrec).
  apply pivot_key_assign in Hr' as (r & Hr & Hbase & Hkey').
  rewrite Hkey' in Hkey.
  pose proof (f_equal fst Hkey) as Hprov. pose proof (f_equal snd Hkey) as Hlab.
  simpl in Hprov, Hlab. rewrite Hbase in Hrec.
  exists n, r, v.
  assert (fill c = Some green_fill \/ fill c = Some yellow_fill \/ fill c = Some orange_fill)
    as Hfill.
  { destruct Hkind as [(_ & -> & _)|(st & f & _ & _ & Hf & ->)]; [by left |].
    apply baseline_fill_range in Hf. destruct Hf as [->|[->| ->]]; auto. }
  split.
  { destruct Hkind as [(Hv & Hf & _)|(st & f & [[Hv _]|[Hv _]] & _)]; auto. }
  split; [exact Hr |]. split; [exact Hprov |].
  rewrite Forall_forall in Hrange.
  split.
  { apply strftime_dmy_inj; [by apply Hrange | rewrite <- Hd0; by apply Hrange |].
    by rewrite Hlab, Hlabel. }
  split.
  { destruct Hrec as [<- | ->]; [exact Hna |]. by destruct (RECORDS r). }
  split.
  { destruct Hrec as [-> | ->]; [by left |].
    destruct (RECORDS r) as [|k|f|s|k]; simpl; eauto. }
  split; [exact Hint | exact Hfill].
Qed.

(** X2. Two cells in the row of one provider that show the same value, on
    two days of the same weekday class (both weekdays, or both weekend
    days), have the same fill: the fill of a cell depends on its provider,
    the class of its day and its value, and on no other cell of its row. *)
Theorem same_count_same_fill (max_column : nat) (df : list activity_record)
    (title : string) (df' : list pivot_row) (ws : worksheet) (i j1 j2 : nat) (p : string)
    (e1 e2 : day_entry) (c1 c2 : cell) :
  build_pivot_table max_column df title = Ok (df', ws) ->
  providers df' !! i = Some p ->
  day_order df' !! j1 = Some e1 ->
  day_order df' !! j2 = Some e2 ->
  sheet_cell ws (5 + i) (1 + j1) = Some c1 ->
  sheet_cell ws (5 + i) (1 + j2) = Some c2 ->
  is_weekend (entry_date e1) = is_weekend (entry_date e2) ->
  value c1 = value c2 ->
  fill c1 = fill c2.
Proof.
  intros H Hp He1 He2 Hc1 Hc2 Hclass Hval.
  destruct (build_pivot_table_data_cell _ _ _ _ _ H) as (m & _ & Hcell).
  destruct (Hcell i j1 p e1 c1 Hp He1 Hc1)
    as [(_ & Hm1 & Hf1)
       |(n1 & _ & [(Hn1 & Hf1 & _)|(st1 & f1 & [[Hn1 _]|[Hn1 _]] & Hst1 & Hb1 & Hf1)])];
    destruct (Hcell i j2 p e2 c2 Hp He2 Hc2)
      as [(_ & Hm2 & Hf2)
         |(n2 & _ & [(Hn2 & Hf2 & _)|(st2 & f2 & [[Hn2 _]|[Hn2 _]] & Hst2 & Hb2 & Hf2)])];
    try congruence;
    rewrite Hst1 in Hst2; injection Hst2 as <-;
    rewrite Hclass, Hval in Hb1; congruence.
Qed.

(** X3. The block [build_pivot_table] writes has five rows above the data
    and one data row per provider.  Its first three rows hold one cell
    each: the time stamp, the empty string and the title.  Every row from
    the weekday row down is one cell wider than the frame has days.  The
    first cells of the weekday row and of the date row are [""] and
    ["Provider"], and the first cell of a data row is the name of its
    provider, in the order of [providers]; none of these three has a
    fill. *)
Theorem pivot_block_layout (max_column : nat) (df : list activity_record)
    (title : string) (df' : list pivot_row) (ws : worksheet) :
  build_pivot_table max_column df title = Ok (df', ws) ->
  length ws = (5 + length (providers df'))%nat /\
  ws !! 0%nat = Some [new_cell (PStr timestamp)] /\
  ws !! 1%nat = Some [new_cell (PStr "")] /\
  ws !! 2%nat = Some [new_cell (PStr title)] /\
  (forall k row, ws !! (3 + k)%nat = Some row ->
     length row = S (length (day_order df'))) /\
  sheet_cell ws 3 0 = Some (new_cell (PStr "")) /\
  sheet_cell ws 4 0 = Some (new_cell (PStr "Provider")) /\
  (forall i p, providers df' !! i = Some p ->
     sheet_cell ws (5 + i) 0 = Some (new_cell (PStr p))).
Proof. intros H. by apply build_pivot_table_rows in H as [_ H]. Qed.

(** ** What the pivot renderer raises *)

(** X5. A frame with two rows for the same provider and the same day makes
    [build_pivot_table] raise [ValueError], at the pivot of line 140,
    whatever the two counts are and whatever else the frame holds: no block
    is written. *)
Theorem repeated_day_raises_ValueError (max_column : nat) (df : list activity_record)
    (title : string) (i j : nat) (r1 r2 : activity_record) :
  df !! i = Some r1 -> df !! j = Some r2 -> i <> j ->
  PROVIDER r1 = PROVIDER r2 -> ACTIVITY_DATE r1 = ACTIVITY_DATE r2 ->
  build_pivot_table max_column df title = Raise ValueError.
Proof.
  intros Hi Hj Hne Hp Hd. unfold build_pivot_table.
  destruct (df_pivot_cases (assign_columns df)) as [(m & _ & Hm & _)|[_ ->]]; [| reflexivity].
  exfalso. apply pivot_entries_NoDup in Hm. apply Hne.
  eapply NoDup_lookup; [exact Hm | |];
    unfold assign_columns; rewrite !list_lookup_fmap.
  - rewrite Hi. reflexivity.
  - rewrite Hj. simpl. unfold pivot_key. simpl. by rewrite Hp, Hd.
Qed.

Lemma series_stats_cases (series : list pyval) :
  (exists st, series_stats series = Ok st) \/ series_stats series = Raise TypeError.
Proof.
  unfold series_stats. destruct (valid_values_cases series) as [[valid ->]| ->]; simpl.
  - left. destruct (2 <? length valid)%nat; eauto.
  - by right.
Qed.

Lemma stats_of_provider_cases (df : list pivot_row) (p : string) :
  (exists st, stats_of_provider df p = Ok st) \/ stats_of_provider df p = Raise TypeError.
Proof.
  unfold stats_of_provider.
  match goal with
  | |- context [bind (series_stats ?a) (fun x => bind (series_stats ?b) _)] =>
      destruct (series_stats_cases a) as [[s1 ->]| ->];
      destruct (series_stats_cases b) as [[s2 ->]| ->]
  end; simpl; eauto.
Qed.

Lemma stats_of_provider_text (df : list pivot_row) (r : pivot_row) (s : string) :
  r ∈ df -> RECORDS (base r) = PStr s ->
  stats_of_provider df (PROVIDER (base r)) = Raise TypeError.
Proof.
  intros Hr Hs. unfold stats_of_provider, series_stats.
  destruct (decide (weekday_of (ACTIVITY_DATE (base r)) < 5)) as [Hw|Hw].
  - rewrite (valid_values_text _ s); [reflexivity |].
    apply list_elem_of_fmap. exists r. split; [by rewrite Hs |].
    by rewrite !list_elem_of_filter.
  - match goal with
    | |- context [bind (bind (valid_values ?a) _) _] =>
        destruct (valid_values_cases a) as [[v1 ->]| ->]; [| reflexivity]
    end.
    rewrite (valid_values_text _ s).
    + simpl. by destruct (2 <? length v1)%nat.
    + apply list_elem_of_fmap. exists r. split; [by rewrite Hs |].
      rewrite !list_elem_of_filter. split; [lia | by split].
Qed.

Lemma provider_stats_loop_text (df : list pivot_row) (ps : list string) (p : string) :
  p ∈ ps -> stats_of_provider df p = Raise TypeError ->
  forall acc, provider_stats_loop df ps acc = Raise TypeError.
Proof.
  intros Hp Hraise. induction ps as [|q ps IH]; intros acc; [by apply elem_of_nil in Hp |].
  simpl. destruct (stats_of_provider_cases df q) as [[st Hst]|Hq].
  - rewrite Hst. simpl. apply elem_of_cons in Hp as [->|Hp]; [congruence |]. by apply IH.
  - by rewrite Hq.
Qed.

(** X6. On a frame of dates in range with one row per provider and day, a
    record count that is a string makes [build_pivot_table] raise
    [TypeError]: the comparison [series > 0] of line 152 meets the string
    before [map_status], which would have caught the failure, is applied.
    This holds whether or not the string reads as a number. *)
Theorem text_count_raises_TypeError (max_column : nat) (df : list activity_record)
    (title : string) (r : activity_record) (s : string) :
  Forall (fun r => date_in_range (ACTIVITY_DATE r)) df ->
  NoDup (fmap (fun r => (PROVIDER r, ACTIVITY_DATE r)) df) ->
  r ∈ df -> RECORDS r = PStr s ->
  build_pivot_table max_column df title = Raise TypeError.
Proof.
  intros Hrange Hnd Hr Hs.
  destruct (pivot_entries_assign_total df Hrange Hnd) as [m0 Hm0].
  destruct (df_pivot_total _ _ Hm0) as [m Hm].
  unfold build_pivot_table. rewrite Hm. cbn [bind].
  rewrite (provider_stats_loop_text _ _ (PROVIDER r)); [reflexivity | |].
  - apply elem_of_providers. by exists r.
  - apply (stats_of_provider_text _
             {| base := r; DAY_LABEL := strftime_dmy (ACTIVITY_DATE r);
                WEEKDAY := substring 0 3 (day_name (ACTIVITY_DATE r)) |} s); [| exact Hs].
    unfold assign_columns. apply list_elem_of_fmap. by exists r.
Qed.

(** X7. [map_status] returns ["MISSING"] on a float that is not finite: on
    NaN, which [pd.isna] reports, and on either infinity, on which [int()]
    raises [OverflowError] inside the [try]. *)
Theorem map_status_not_finite (f : float) :
  is_nan f = true \/ is_infinity f = true ->
  map_status (PFloat f) = PStr "MISSING".
Proof.
  intros [H|H]; unfold map_status; simpl.
  - by rewrite H.
  - destruct (float_infinity_int f H) as (-> & -> & ->). reflexivity.
Qed.

(** X8. The header loops of lines 178 and 189 run over [ws[header_row]],
    which spans the width of the sheet, and look up one day per cell after
    the first.  On a frame of dates in range with one row per provider and
    day whose counts are integers or missing, [build_pivot_table]
    therefore returns when the sheet so far is at most one column wider
    than the frame has days, and raises [IndexError] when it is wider. *)
Theorem pivot_block_needs_room (max_column : nat) (df : list activity_record)
    (title : string) :
  Forall (fun r => date_in_range (ACTIVITY_DATE r)) df ->
  NoDup (fmap (fun r => (PROVIDER r, ACTIVITY_DATE r)) df) ->
  Forall (fun r => integer_or_missing (RECORDS r)) df ->
  let days := length (day_order (assign_columns df)) in
  ((max_column <= 1 + days)%nat ->
     exists ws, build_pivot_table max_column df title = Ok (assign_columns df, ws)) /\
  ((1 + days < max_column)%nat ->
     build_pivot_table max_column df title = Raise IndexError).
Proof.
  intros Hrange Hnd Hint days. split; intros Hmax.
  - by apply build_pivot_table_total.
  - destruct (pivot_entries_assign_total df Hrange Hnd) as [m0 Hm0].
    destruct (df_pivot_total _ _ Hm0) as [m Hm].
    assert (Forall (fun r => integer_or_missing (RECORDS (base r))) (assign_columns df))
      as Hint' by (unfold assign_columns; by apply Forall_fmap).
    destruct (provider_stats_loop_total _ (providers (assign_columns df)) Hint' ∅)
      as [pst Hpst].
    unfold build_pivot_table. rewrite Hm, Hpst. cbn [bind].
    rewrite header_row_raises; [reflexivity | simpl; by rewrite !length_fmap | exact Hmax].
Qed.

(** X9. The baselines of a provider are computed from its own rows: rows of
    other providers, before or after them in the frame, do not change
    them. *)
Theorem baseline_ignores_other_providers (before df after : list activity_record)
    (p : string) :
  Forall (fun r => PROVIDER r <> p) before ->
  Forall (fun r => PROVIDER r <> p) after ->
  stats_of_provider (assign_columns (before ++ df ++ after)) p
  = stats_of_provider (assign_columns df) p.
Proof.
  intros Hb Ha. unfold stats_of_provider, assign_columns.
  rewrite !fmap_app, !filter_app.
  rewrite (filter_none _ (fmap _ before)), (filter_none _ (fmap _ after)).
  - by rewrite !filter_nil, !app_nil_r.
  - by apply Forall_fmap.
  - by apply Forall_fmap.
Qed.

(** ** The summary block *)

Lemma build_summary_table_inv (df : list summary_row) (title : string)
    (df' : list summary_row) (ws : worksheet) :
  build_summary_table df title = Ok (df', ws) ->
  df' = df /\
  exists data,
    enumerate_mapM (fun _ row => fill_summary_row row) 0
      (fmap (fun x => fmap new_cell (summary_values x)) df) = Ok data /\
    ws = [[new_cell (PStr title)]; fmap new_cell summary_headers] ++ data.
Proof.
  unfold build_summary_table. intros H. bind_inv H. injection H as <- <-.
  rewrite foldl_ws_append in Ha |- *.
  rewrite drop_app_length' in Ha by reflexivity.
  rewrite take_app_length' by reflexivity.
  split; [reflexivity |]. exists a. by split.
Qed.

Lemma fill_summary_row_length (row cells : list cell) :
  fill_summary_row row = Ok cells -> length cells = 6%nat.
Proof.
  unfold fill_summary_row.
  destruct row as [|c1 [|c2 [|c3 [|c4 [|c5 [|c6 [|c7 row]]]]]]]; try discriminate.
  intros H. bind_inv H. by destruct (0 <? a); injection H as <-.
Qed.

Lemma build_summary_table_shape (df : list summary_row) (title : string)
    (df' : list summary_row) (ws : worksheet) :
  build_summary_table df title = Ok (df', ws) ->
  length ws = (2 + length df)%nat /\ block_width ws = 6%nat.
Proof.
  intros H. apply build_summary_table_inv in H as (_ & data & Hdata & ->).
  pose proof (enumerate_mapM_Ok _ _ _ _ Hdata) as [Hlen _]. rewrite length_fmap in Hlen.
  split; [rewrite length_app; simpl; lia |].
  rewrite block_width_app.
  assert (block_width data <= 6)%nat as Hle.
  { apply block_width_le, Forall_lookup. intros k cells Hk.
    destruct (enumerate_mapM_Ok_inv _ _ _ _ Hdata k cells Hk) as (row & _ & Hrow).
    by rewrite (fill_summary_row_length _ _ Hrow). }
  change (block_width [[new_cell (PStr title)]; fmap new_cell summary_headers]) with 6%nat.
  lia.
Qed.

(** X10. The block [build_summary_table] writes has the title row, the row
    of the six headers, both without a fill, and one row per frame row, in
    order.  A data row holds the six values of its frame row and is filled
    in one colour: red when [int()] of its total is above 0 and green
    otherwise, whatever the type of the total ([int()] succeeded on it). *)
Theorem summary_block_layout (df : list summary_row) (title : string)
    (df' : list summary_row) (ws : worksheet) :
  build_summary_table df title = Ok (df', ws) ->
  length ws = (2 + length df)%nat /\
  ws !! 0%nat = Some [new_cell (PStr title)] /\
  ws !! 1%nat = Some (fmap new_cell summary_headers) /\
  forall i row, df !! i = Some row ->
    exists t cells,
      py_int (TOTAL_MISSING_SUBMISSIONS row) = Ok t /\
      ws !! (2 + i)%nat = Some cells /\
      fmap value cells = summary_values row /\
      Forall (fun c => fill c = Some (if 0 <? t then red_fill else green_fill)) cells.
Proof.
  intros H. pose proof (build_summary_table_shape _ _ _ _ H) as [Hlen _].
  split; [exact Hlen |].
  destruct (build_summary_table_rows _ _ _ _ H) as [_ Hrows].
  apply build_summary_table_inv in H as (_ & data & _ & ->).
  split; [reflexivity |]. split; [reflexivity |].
  intros i row Hrow. destruct (Hrows i row Hrow) as (t & Ht & Hi).
  exists t. eexists. split; [exact Ht |]. split; [exact Hi |].
  split; [reflexivity |]. unfold summary_values. by repeat constructor.
Qed.

Lemma py_int_isna (v : pyval) (t : Z) : isna v = true -> py_int v = Ok t -> False.
Proof.
  destruct v as [|n|f|s|n]; try discriminate. simpl. unfold is_nan, int_of_float.
  rewrite FloatAxioms.eqb_spec. unfold SFeqb.
  destruct (Prim2SF f) as [[]|[]| |[] m e]; try discriminate; simpl;
    by rewrite Z.compare_refl, Pos.compare_cont_refl.
Qed.

(** X11. The summary renderer has no case for a total that is absent: when
    the total of one row of the frame is [None] or NaN, [int()] raises at
    line 123 and [build_summary_table] raises with it, whatever the other
    rows hold. *)
Theorem summary_absent_total_raises (df : list summary_row) (title : string)
    (row : summary_row) :
  row ∈ df -> isna (TOTAL_MISSING_SUBMISSIONS row) = true ->
  exists e, build_summary_table df title = Raise e.
Proof.
  intros Hrow Hna. destruct (build_summary_table df title) as [[df' ws]|e] eqn:H; [| eauto].
  exfalso. destruct (build_summary_table_rows _ _ _ _ H) as [_ Hrows].
  apply list_elem_of_lookup_1 in Hrow as [i Hi].
  destruct (Hrows i row Hi) as (t & Ht & _). by apply (py_int_isna _ t Hna).
Qed.

(** ** The report *)

(** The report is the four blocks, and each pivot renderer meets a sheet as
    wide as the widest block above it. *)
Lemma export_to_excel_inv (df_summary : list summary_row)
    (df_inpatient df_op df_ecds : list activity_record) (ws : worksheet) :
  export_to_excel df_summary df_inpatient df_op df_ecds = Ok ws ->
  exists summary inpatient outpatient ecds,
    build_summary_table df_summary
      "Provider Missing Days Summary (Rolling 20 Day Monitoring Window)"
      = Ok (df_summary, summary) /\
    build_pivot_table 6 df_inpatient "Inpatient Provider Daily Status"
      = Ok (assign_columns df_inpatient, inpatient) /\
    build_pivot_table (S (length (day_order (assign_columns df_inpatient)))) df_op
      "Outpatient Provider Daily Status" = Ok (assign_columns df_op, outpatient) /\
    build_pivot_table (S (length (day_order (assign_columns df_op)))) df_ecds
      "Emergency Attendances (ECDS) Daily Status" = Ok (assign_columns df_ecds, ecds) /\
    ws = summary ++ inpatient ++ [[]; []] ++ outpatient ++ [[]; []] ++ ecds.
Proof.
  unfold export_to_excel. intros H.
  bind_inv H. destruct a as [s' summary]. rename Ha into Hs.
  bind_inv H. destruct a as [i' inpatient]. rename Ha into Hi.
  bind_inv H. destruct a as [o' outpatient]. rename Ha into Ho.
  bind_inv H. destruct a as [e' ecds]. rename Ha into He.
  injection H as <-. cbn [snd] in *.
  pose proof (build_summary_table_inv _ _ _ _ Hs) as [-> _].
  pose proof (build_summary_table_shape _ _ _ _ Hs) as [_ Hws].
  rewrite Hws in Hi.
  pose proof (build_pivot_table_inv _ _ _ _ _ Hi) as [-> _].
  pose proof (build_pivot_table_rows _ _ _ _ _ Hi) as [Hmi _].
  pose proof (build_pivot_table_width _ _ _ _ _ Hi) as Hwi.
  rewrite block_width_app, Hws, Hwi, Nat.max_r in Ho by exact Hmi.
  pose proof (build_pivot_table_inv _ _ _ _ _ Ho) as [-> _].
  pose proof (build_pivot_table_rows _ _ _ _ _ Ho) as [Hmo _].
  pose proof (build_pivot_table_width _ _ _ _ _ Ho) as Hwo.
  rewrite !block_width_app, Hws, Hwi, Hwo in He.
  change (block_width [[]; []]) with 0%nat in He.
  rewrite (Nat.max_r 6), Nat.max_0_l, Nat.max_r in He by lia.
  pose proof (build_pivot_table_inv _ _ _ _ _ He) as [-> _].
  exists summary, inpatient, outpatient, ecds.
  repeat split; try assumption.
  by rewrite <- !app_assoc.
Qed.

(** X12. [export_to_excel] returns only if the inpatient frame has at least
    five days, the outpatient frame at least as many days as the inpatient
    frame and the ECDS frame at least as many as the outpatient frame: a
    block that is narrower than the summary or than a block above it makes
    the header loop of its renderer raise. *)
Theorem export_needs_growing_day_counts (df_summary : list summary_row)
    (df_inpatient df_op df_ecds : list activity_record) (ws : worksheet) :
  export_to_excel df_summary df_inpatient df_op df_ecds = Ok ws ->
  let days := fun df : list activity_record => length (day_order (assign_columns df)) in
  (5 <= days df_inpatient)%nat /\
  (days df_inpatient <= days df_op)%nat /\
  (days df_op <= days df_ecds)%nat.
Proof.
  intros H days.
  apply export_to_excel_inv in H as (s & i & o & e & _ & Hi & Ho & He & _).
  apply build_pivot_table_rows in Hi as [Hi _].
  apply build_pivot_table_rows in Ho as [Ho _].
  apply build_pivot_table_rows in He as [He _].
  unfold days. lia.
Qed.

(** X13. Where the blocks of the report are.  The summary block takes the
    first rows; the time stamp of the inpatient block is on the row right
    below it (the two empty rows appended at line 262 receive the first two
    rows of that block) and its title two rows further down; two empty rows
    come before the outpatient block and before the ECDS block; the report
    ends with the last data row of the ECDS block. *)
Theorem export_block_positions (df_summary : list summary_row)
    (df_inpatient df_op df_ecds : list activity_record) (ws : worksheet) :
  export_to_excel df_summary df_inpatient df_op df_ecds = Ok ws ->
  let rows := fun df : list activity_record => length (providers (assign_columns df)) in
  let inpatient_start := (2 + length df_summary)%nat in
  let op_start := (inpatient_start + 5 + rows df_inpatient + 2)%nat in
  let ecds_start := (op_start + 5 + rows df_op + 2)%nat in
  length ws = (ecds_start + 5 + rows df_ecds)%nat /\
  ws !! inpatient_start = Some [new_cell (PStr timestamp)] /\
  ws !! (inpatient_start + 2)%nat
    = Some [new_cell (PStr "Inpatient Provider Daily Status")] /\
  ws !! (op_start - 2)%nat = Some [] /\
  ws !! (op_start - 1)%nat = Some [] /\
  ws !! (op_start + 2)%nat = Some [new_cell (PStr "Outpatient Provider Daily Status")] /\
  ws !! (ecds_start - 2)%nat = Some [] /\
  ws !! (ecds_start - 1)%nat = Some [] /\
  ws !! (ecds_start + 2)%nat
    = Some [new_cell (PStr "Emergency Attendances (ECDS) Daily Status")].
Proof.
  intros H rows inpatient_start op_start ecds_start.
  apply export_to_excel_inv in H as (s & i & o & e & Hs & Hi & Ho & He & ->).
  apply build_summary_table_shape in Hs as [Hls _].
  apply build_pivot_table_rows in Hi as (_ & Hli & Hi0 & _ & Hi2 & _).
  apply build_pivot_table_rows in Ho as (_ & Hlo & _ & _ & Ho2 & _).
  apply build_pivot_table_rows in He as (_ & Hle & _ & _ & He2 & _).
  fold (rows df_inpatient) in Hli. fold (rows df_op) in Hlo. fold (rows df_ecds) in Hle.
  fold inpatient_start in Hls. unfold worksheet in *.
  assert (forall (l1 l2 : list (list cell)) (n k : nat),
            length l1 = n -> (l1 ++ l2) !! (n + k)%nat = l2 !! k) as Hskip.
  { intros l1 l2 n k <-. rewrite lookup_app_r by lia. f_equal. lia. }
  split.
  { rewrite !length_app, Hls, Hli, Hlo, Hle. simpl. unfold ecds_start, op_start. lia. }
  split.
  { rewrite <- (Nat.add_0_r inpatient_start), (Hskip _ _ _ _ Hls).
    by apply lookup_app_l_Some. }
  split.
  { rewrite (Hskip _ _ _ _ Hls). by apply lookup_app_l_Some. }
  assert (forall k, (s ++ i ++ [[]; []] ++ o ++ [[]; []] ++ e) !! (op_start - 2 + k)%nat
                    = ([[]; []] ++ o ++ [[]; []] ++ e) !! k) as Hop.
  { intros k. replace (op_start - 2 + k)%nat
      with (inpatient_start + ((5 + rows df_inpatient) + k))%nat
      by (unfold op_start; lia).
    rewrite (Hskip _ _ _ _ Hls). by rewrite (Hskip _ _ _ _ Hli). }
  assert (forall k, (s ++ i ++ [[]; []] ++ o ++ [[]; []] ++ e) !! (ecds_start - 2 + k)%nat
                    = ([[]; []] ++ e) !! k) as Hecds.
  { intros k. replace (ecds_start - 2 + k)%nat
      with (op_start - 2 + (2 + ((5 + rows df_op) + k)))%nat
      by (unfold ecds_start, op_start; lia).
    rewrite Hop, (Hskip [[]; []] _ 2%nat _ eq_refl). by rewrite (Hskip _ _ _ _ Hlo). }
  split; [by rewrite <- (Nat.add_0_r (op_start - 2)), Hop |].
  split.
  { replace (op_start - 1)%nat with (op_start - 2 + 1)%nat by (unfold op_start; lia).
    by rewrite Hop. }
  split.
  { replace (op_start + 2)%nat with (op_start - 2 + 4)%nat by (unfold op_start; lia).
    rewrite Hop. by apply (lookup_app_l_Some o _ 2). }
  split; [by rewrite <- (Nat.add_0_r (ecds_start - 2)), Hecds |].
  split.
  { replace (ecds_start - 1)%nat with (ecds_start - 2 + 1)%nat
      by (unfold ecds_start; lia).
    by rewrite Hecds. }
  replace (ecds_start + 2)%nat with (ecds_start - 2 + 4)%nat by (unfold ecds_start; lia).
  rewrite Hecds. exact He2.
Qed.

(** X14. [export_to_excel] returns a sheet when the totals of the summary
    are integers, each of the three frames has dates in range, one row per
    provider and day and counts that are integers or missing, the inpatient
    frame has at least five days and the day counts do not decrease from
    the inpatient to the outpatient to the ECDS frame. *)
Theorem export_returns (df_summary : list summary_row)
    (df_inpatient df_op df_ecds : list activity_record) :
  let well_formed := fun df : list activity_record =>
    Forall (fun r => date_in_range (ACTIVITY_DATE r)) df /\
    NoDup (fmap (fun r => (PROVIDER r, ACTIVITY_DATE r)) df) /\
    Forall (fun r => integer_or_missing (RECORDS r)) df in
  let days := fun df : list activity_record => length (day_order (assign_columns df)) in
  (forall row, row ∈ df_summary -> exists t, TOTAL_MISSING_SUBMISSIONS row = PInt t) ->
  well_formed df_inpatient -> well_formed df_op -> well_formed df_ecds ->
  (5 <= days df_inpatient)%nat ->
  (days df_inpatient <= days df_op)%nat ->
  (days df_op <= days df_ecds)%nat ->
  exists ws, export_to_excel df_summary df_inpatient df_op df_ecds = Ok ws.
Proof.
  intros well_formed days Hsum (Hi1 & Hi2 & Hi3) (Ho1 & Ho2 & Ho3) (He1 & He2 & He3)
    Hdi Hdo Hde.
  unfold export_to_excel.
  destruct (build_summary_table_total df_summary
              "Provider Missing Days Summary (Rolling 20 Day Monitoring Window)")
    as [s Hs].
  { intros row Hrow. destruct (Hsum row Hrow) as [t Ht]. exists t. by rewrite Ht. }
  rewrite Hs. cbn [bind snd].
  pose proof (build_summary_table_shape _ _ _ _ Hs) as [_ Hws]. rewrite Hws.
  destruct (build_pivot_table_total 6 df_inpatient "Inpatient Provider Daily Status"
              Hi1 Hi2 Hi3)
    as [i Hi]; [fold (days df_inpatient); lia |].
  rewrite Hi. cbn [bind snd].
  pose proof (build_pivot_table_width _ _ _ _ _ Hi) as Hwi.
  rewrite block_width_app, Hws, Hwi, Nat.max_r by (fold (days df_inpatient); lia).
  destruct (build_pivot_table_total (S (days df_inpatient)) df_op
              "Outpatient Provider Daily Status" Ho1 Ho2 Ho3)
    as [o Ho]; [fold (days df_op); lia |].
  fold (days df_inpatient). rewrite Ho. cbn [bind snd].
  pose proof (build_pivot_table_width _ _ _ _ _ Ho) as Hwo.
  rewrite !block_width_app, Hws, Hwi, Hwo.
  change (block_width [[]; []]) with 0%nat.
  rewrite (Nat.max_r 6), Nat.max_0_l, Nat.max_r by (fold (days df_inpatient) (days df_op); lia).
  destruct (build_pivot_table_total (S (days df_op)) df_ecds
              "Emergency Attendances (ECDS) Daily Status" He1 He2 He3)
    as [e He]; [fold (days df_ecds); lia |].
  fold (days df_op). rewrite He. cbn [bind snd]. eauto.
Qed.

End Facts.

(** * The claims on concrete frames *)

Ltac computed := vm_compute; first [reflexivity | discriminate | exact I].

(** In the inpatient block, which has ["MISSING"] cells, the 400 records of
    Trust A on Wednesday 10 January are an [int], score above 3 on the
    weekday baseline and are SEVERE. *)
Example severe_count_beside_missing_cells :
  let e := day_entry_of (january 10) in
  let c := {| value := PInt 400; fill := Some orange_fill |} in
  let b := default {| mean := 0; std := 0 |} (weekday trust_a_stats) in
  sheet_cell inpatient_sheet 5 10 = Some c /\
  sheet_cell inpatient_sheet 5 13 = Some {| value := PStr "MISSING"; fill := Some red_fill |} /\
  exists x,
    py_float float_of_str_ref (value c) = Ok x /\
    let z := (abs (x - mean b) / std b)%float in
    ((3 <? z)%float = true ->
       fill c = Some orange_fill /\ classify (fill c) = Some SEVERE) /\
    ((2 <? z)%float = true -> (z <=? 3)%float = true ->
       fill c = Some yellow_fill /\ classify (fill c) = Some MODERATE) /\
    ((z <=? 2)%float = true ->
       fill c = Some green_fill /\ classify (fill c) = Some NORMAL).
Proof.
  cbv zeta.
  assert (build_pivot_table float_of_str_ref int_of_str_ref mean_ref std_ref run_timestamp
            6 inpatient_frame inpatient_title = Ok (inpatient_rows, inpatient_sheet))
    as H1 by computed.
  assert (providers inpatient_rows !! 0%nat = Some "Trust A") as H2 by computed.
  assert (day_order inpatient_rows !! 9%nat = Some (day_entry_of (january 10)))
    as H3 by computed.
  assert (sheet_cell inpatient_sheet 5 10
          = Some {| value := PInt 400; fill := Some orange_fill |}) as H4 by computed.
  assert (is_number (value {| value := PInt 400; fill := Some orange_fill |}) = true)
    as H5 by reflexivity.
  assert (stats_of_provider mean_ref std_ref inpatient_rows "Trust A" = Ok trust_a_stats)
    as H6 by computed.
  assert ((if is_weekend (entry_date (day_entry_of (january 10)))
           then weekend trust_a_stats else weekday trust_a_stats)
          = Some (default {| mean := 0; std := 0 |} (weekday trust_a_stats)))
    as H7 by computed.
  assert ((0 <? std (default {| mean := 0; std := 0 |} (weekday trust_a_stats)))%float = true)
    as H8 by computed.
  split; [exact H4 |]. split; [computed |].
  exact (zscore_classification_of_number float_of_str_ref int_of_str_ref mean_ref std_ref
           run_timestamp 6 inpatient_frame inpatient_title inpatient_rows inpatient_sheet
           0 9 "Trust A" _ _ _ _ H1 H2 H3 H4 H5 H6 H7 H8).
Qed.

(** C1. The program does not classify by the score on a block without a
    ["MISSING"] cell.  In [full_frame] Trust A reports a positive count on
    every day, so every column of the pivot is a column of integers and the
    rows of line 199 hold numpy integers, which are not instances of [int]:
    the test of line 228 fails and line 245 fills the cell green.  The 400
    records of Wednesday 10 January score above 3 on the weekday baseline
    (mean 120, deviation about 77.5), which is SEVERE and orange by the
    specification; the cell is green, as is every data cell of the block. *)
Theorem severe_count_is_filled_green :
  exists ws st b x c,
    build_pivot_table float_of_str_ref int_of_str_ref mean_ref std_ref run_timestamp
      6 full_frame inpatient_title = Ok (assign_columns full_frame, ws) /\
    providers (assign_columns full_frame) !! 0%nat = Some "Trust A" /\
    day_order (assign_columns full_frame) !! 9%nat = Some (day_entry_of (january 10)) /\
    is_weekend (january 10) = false /\
    stats_of_provider mean_ref std_ref (assign_columns full_frame) "Trust A" = Ok st /\
    weekday st = Some b /\ (0 <? std b)%float = true /\
    sheet_cell ws 5 10 = Some c /\
    value c = PNumpy 400 /\ value c <> PStr "MISSING" /\
    py_float float_of_str_ref (value c) = Ok x /\
    (3 <? abs (x - mean b) / std b)%float = true /\
    baseline_fill float_of_str_ref (weekday st) (value c) = Ok orange_fill /\
    is_number (value c) = false /\
    fill c = Some green_fill /\ classify (fill c) = Some NORMAL /\
    Forall (fun row : list cell => Forall (fun c => fill c = Some green_fill) (drop 1 row))
      (drop 5 ws).
Proof.
  exists full_sheet, full_stats, (default {| mean := 0; std := 0 |} (weekday full_stats)),
    400%float, {| value := PNumpy 400; fill := Some green_fill |}.
  repeat split; try computed.
  apply (bool_decide_unpack _). computed.
Qed.

(** Trust B has two weekday values and one weekend value in
    [inpatient_frame]: it has no baseline. *)
Lemma baseline_needs_three_values_witness :
  (build_pivot_table float_of_str_ref int_of_str_ref mean_ref std_ref run_timestamp
     6 inpatient_frame inpatient_title = Ok (inpatient_rows, inpatient_sheet) /\
   providers inpatient_rows !! 1%nat = Some "Trust B") /\
  exists st,
    stats_of_provider mean_ref std_ref inpatient_rows "Trust B" = Ok st /\
    (forall on_weekend : bool,
        let valid := qualifying_values inpatient_frame "Trust B" on_weekend in
        (if on_weekend then weekend st else weekday st) =
          (if (2 <? length valid)%nat
           then Some {| mean := mean_ref valid; std := std_ref valid |}
           else None)) /\
    (forall j e c,
        day_order inpatient_rows !! j = Some e ->
        sheet_cell inpatient_sheet (5 + 1) (1 + j) = Some c ->
        value c <> PStr "MISSING" ->
        let stats := if is_weekend (entry_date e) then weekend st else weekday st in
        (stats = None \/ exists b, stats = Some b /\ (std b =? 0)%float = true) ->
        fill c = Some green_fill /\ classify (fill c) = Some NORMAL).
Proof.
  assert (build_pivot_table float_of_str_ref int_of_str_ref mean_ref std_ref run_timestamp
            6 inpatient_frame inpatient_title = Ok (inpatient_rows, inpatient_sheet))
    as H1 by computed.
  assert (providers inpatient_rows !! 1%nat = Some "Trust B") as H2 by computed.
  split; [by split |].
  exact (baseline_needs_three_values float_of_str_ref int_of_str_ref mean_ref std_ref
           run_timestamp 6 inpatient_frame inpatient_title inpatient_rows inpatient_sheet
           1 "Trust B" H1 H2).
Defined.

(** The count 900 of Trust B on 3 January is far from its other value, 12,
    and is NORMAL all the same. *)
Example extreme_value_without_baseline :
  sheet_cell inpatient_sheet 6 3 = Some {| value := PInt 900; fill := Some green_fill |} /\
  trust_b_stats = {| weekday := None; weekend := None |}.
Proof. split; computed. Qed.

(** Trust A reported a count of 0 for Saturday 13 January. *)
Lemma absent_or_zero_is_missing_witness :
  let e := day_entry_of (january 13) in
  (build_pivot_table float_of_str_ref int_of_str_ref mean_ref std_ref run_timestamp
     6 inpatient_frame inpatient_title = Ok (inpatient_rows, inpatient_sheet) /\
   Forall (fun r => date_in_range (ACTIVITY_DATE r)) inpatient_frame /\
   providers inpatient_rows !! 0%nat = Some "Trust A" /\
   day_order inpatient_rows !! 12%nat = Some e /\
   ((forall r, r ∈ inpatient_frame -> PROVIDER r = "Trust A" ->
       ACTIVITY_DATE r <> entry_date e) \/
    (exists r, r ∈ inpatient_frame /\ PROVIDER r = "Trust A" /\
       ACTIVITY_DATE r = entry_date e /\
       (isna (RECORDS r) = true \/ RECORDS r = PInt 0 \/
        exists f, RECORDS r = PFloat f /\ (f =? 0)%float = true)))) /\
  exists c,
    sheet_cell inpatient_sheet (5 + 0) (1 + 12) = Some c /\
    value c = PStr "MISSING" /\ fill c = Some red_fill /\
    classify (fill c) = Some MISSING.
Proof.
  cbv zeta.
  assert (build_pivot_table float_of_str_ref int_of_str_ref mean_ref std_ref run_timestamp
            6 inpatient_frame inpatient_title = Ok (inpatient_rows, inpatient_sheet))
    as H1 by computed.
  assert (Forall (fun r => date_in_range (ACTIVITY_DATE r)) inpatient_frame) as H2
    by (apply (bool_decide_unpack _); computed).
  assert (providers inpatient_rows !! 0%nat = Some "Trust A") as H3 by computed.
  assert (day_order inpatient_rows !! 12%nat = Some (day_entry_of (january 13)))
    as H4 by computed.
  assert ((forall r, r ∈ inpatient_frame -> PROVIDER r = "Trust A" ->
             ACTIVITY_DATE r <> entry_date (day_entry_of (january 13))) \/
          (exists r, r ∈ inpatient_frame /\ PROVIDER r = "Trust A" /\
             ACTIVITY_DATE r = entry_date (day_entry_of (january 13)) /\
             (isna (RECORDS r) = true \/ RECORDS r = PInt 0 \/
              exists f, RECORDS r = PFloat f /\ (f =? 0)%float = true))) as H5.
  { right. exists (mkActivity "Trust A" (january 13) (PInt 0)).
    split; [apply (list_elem_of_lookup_2 _ 12%nat); computed |].
    split; [reflexivity |]. split; [reflexivity |]. right. by left. }
  split; [by repeat split |].
  exact (absent_or_zero_is_missing float_of_str_ref int_of_str_ref mean_ref std_ref
           run_timestamp 6 inpatient_frame inpatient_title inpatient_rows inpatient_sheet
           0 12 "Trust A" _ H1 H2 H3 H4 H5).
Defined.

(** Trust B has no row for Monday 1 January: its cell is MISSING too. *)
Example absent_row_is_missing :
  (forall r, r ∈ inpatient_frame -> PROVIDER r = "Trust B" -> ACTIVITY_DATE r <> january 1) /\
  sheet_cell inpatient_sheet 6 1
  = Some {| value := PStr "MISSING"; fill := Some red_fill |}.
Proof.
  split; [| computed].
  apply (proj1 (Forall_forall
                  (fun r => PROVIDER r = "Trust B" -> ACTIVITY_DATE r <> january 1)
                  inpatient_frame)).
  apply (bool_decide_unpack _). computed.
Qed.

(** The example of the specification: providers A and B on two days. *)
Lemma pivot_grid_shape_witness :
  (Forall (fun r => date_in_range (ACTIVITY_DATE r)) two_by_two_frame /\
   NoDup (fmap (fun r => (PROVIDER r, ACTIVITY_DATE r)) two_by_two_frame)) /\
  let df' := assign_columns two_by_two_frame in
  let ps := providers df' in
  let order := day_order df' in
  exists m,
    df_pivot df' = Ok m /\
    let grid := reindex m ps (fmap entry_label order) in
    length grid = length ps /\
    StronglySorted str_lt ps /\
    (forall p, p ∈ ps <-> exists r, r ∈ two_by_two_frame /\ PROVIDER r = p) /\
    Forall (fun row => length row = length order) grid /\
    StronglySorted date_lt (fmap entry_date order) /\
    (forall d, d ∈ fmap entry_date order <->
                 exists r, r ∈ two_by_two_frame /\ ACTIVITY_DATE r = d) /\
    forall i j p e,
      ps !! i = Some p -> order !! j = Some e ->
      exists v,
        grid_cell grid i j = Some v /\
        (forall r, r ∈ two_by_two_frame -> PROVIDER r = p ->
           ACTIVITY_DATE r = entry_date e ->
           v = RECORDS r \/ exists n, RECORDS r = PInt n /\ v = PFloat (float_of_Z n)) /\
        ((forall r, r ∈ two_by_two_frame -> PROVIDER r = p ->
            ACTIVITY_DATE r <> entry_date e) ->
           isna v = true /\
           map_status float_of_str_ref int_of_str_ref v = PStr "MISSING" /\
           forall pst dt,
             fill_data_cell float_of_str_ref order pst p (2 + j)
               (new_cell (array_scalar dt (map_status float_of_str_ref int_of_str_ref v)))
             = Ok (set_fill red_fill (new_cell (PStr "MISSING")))).
Proof.
  assert (Forall (fun r => date_in_range (ACTIVITY_DATE r)) two_by_two_frame) as H1
    by (apply (bool_decide_unpack _); computed).
  assert (NoDup (fmap (fun r => (PROVIDER r, ACTIVITY_DATE r)) two_by_two_frame)) as H2
    by (apply (bool_decide_unpack _); computed).
  split; [by split |].
  exact (pivot_grid_shape float_of_str_ref int_of_str_ref two_by_two_frame H1 H2).
Defined.

(** The grid of that example: two rows, A then B, and two columns, 1 January
    then 2 January, with NaN for B on the first day; the three counts are
    held as floats.  The block shows them as the integers they are, beside
    the ["MISSING"] cell. *)
Example two_by_two_grid :
  let df' := assign_columns two_by_two_frame in
  providers df' = ["A"; "B"] /\
  fmap entry_label (day_order df') = ["01/01/2024"; "02/01/2024"] /\
  match df_pivot df' with
  | Ok m => Some (reindex m (providers df') (fmap entry_label (day_order df')))
  | Raise _ => None
  end = Some [[PFloat 3; PFloat 4]; [PFloat nan; PFloat 5]] /\
  match build_pivot_table float_of_str_ref int_of_str_ref mean_ref std_ref run_timestamp
          3 two_by_two_frame inpatient_title with
  | Ok (_, ws) => fmap (fun row : list cell => fmap value (drop 1 row)) (drop 5 ws)
  | Raise _ => []
  end = [[PInt 3; PInt 4]; [PStr "MISSING"; PInt 5]].
Proof. cbv zeta. repeat split; computed. Qed.

(** An integer above 2 ^ 53 that has no float of its own: beside a day
    without a row the pivot holds the float nearest to it, and the block
    shows that one. *)
Example large_count_is_rounded :
  let df := [ mkActivity "A" (january 1) (PInt (2 ^ 53 + 1));
              mkActivity "A" (january 2) (PInt 4);
              mkActivity "B" (january 2) (PInt 5) ] in
  match build_pivot_table float_of_str_ref int_of_str_ref mean_ref std_ref run_timestamp
          3 df inpatient_title with
  | Ok (_, ws) => fmap (fun row : list cell => fmap value (drop 1 row)) (drop 5 ws)
  | Raise _ => []
  end = [[PInt (2 ^ 53); PInt 4]; [PStr "MISSING"; PInt 5]].
Proof. cbv zeta. computed. Qed.

(** Saturday 6 January in the inpatient block. *)
Example weekend_baseline_in_the_inpatient_block :
  let e := day_entry_of (january 6) in
  (is_weekend (entry_date e) = true <->
     day_name (entry_date e) = "Saturday" \/ day_name (entry_date e) = "Sunday") /\
  sheet_cell inpatient_sheet 3 (1 + 5)
  = Some (weekend_mark e (new_cell (PStr (entry_weekday e)))) /\
  sheet_cell inpatient_sheet 4 (1 + 5)
  = Some (weekend_mark e (new_cell (PStr (entry_label e)))) /\
  forall i p c,
    providers inpatient_rows !! i = Some p ->
    sheet_cell inpatient_sheet (5 + i) (1 + 5) = Some c ->
    is_number (value c) = true ->
    exists st f,
      stats_of_provider mean_ref std_ref inpatient_rows p = Ok st /\ fill c = Some f /\
      (is_weekend (entry_date e) = true ->
         baseline_fill float_of_str_ref (weekend st) (value c) = Ok f) /\
      (is_weekend (entry_date e) = false ->
         baseline_fill float_of_str_ref (weekday st) (value c) = Ok f).
Proof.
  cbv zeta.
  assert (build_pivot_table float_of_str_ref int_of_str_ref mean_ref std_ref run_timestamp
            6 inpatient_frame inpatient_title = Ok (inpatient_rows, inpatient_sheet))
    as H1 by computed.
  assert (day_order inpatient_rows !! 5%nat = Some (day_entry_of (january 6)))
    as H2 by computed.
  exact (weekend_baseline_of_number float_of_str_ref int_of_str_ref mean_ref std_ref
           run_timestamp 6 inpatient_frame inpatient_title inpatient_rows inpatient_sheet
           5 _ H1 H2).
Qed.

(** C5. The weekend test and the weekend marks of the header are as the
    specification says, but on a block without a ["MISSING"] cell the fill
    of a cell comes from no baseline at all.  In [full_frame], Saturday 13
    January is a weekend day and its two header cells are marked.  Trust A
    has a weekend baseline (mean about 41.7, deviation about 28.6), on which
    the 100 records of that day score above 2: MODERATE and yellow by the
    specification.  The cell holds a numpy integer, fails the test of line
    228 and is filled green at line 245; neither baseline is read. *)
Theorem weekend_cell_is_filled_without_baseline :
  exists ws st b c,
    build_pivot_table float_of_str_ref int_of_str_ref mean_ref std_ref run_timestamp
      6 full_frame inpatient_title = Ok (assign_columns full_frame, ws) /\
    providers (assign_columns full_frame) !! 0%nat = Some "Trust A" /\
    day_order (assign_columns full_frame) !! 12%nat = Some (day_entry_of (january 13)) /\
    day_name (january 13) = "Saturday" /\ is_weekend (january 13) = true /\
    sheet_cell ws 3 13 = Some {| value := PStr "Sat"; fill := Some weekend_fill |} /\
    sheet_cell ws 4 13 = Some {| value := PStr "13/01/2024"; fill := Some weekend_fill |} /\
    stats_of_provider mean_ref std_ref (assign_columns full_frame) "Trust A" = Ok st /\
    weekend st = Some b /\ (0 <? std b)%float = true /\
    sheet_cell ws 5 13 = Some c /\
    value c = PNumpy 100 /\ value c <> PStr "MISSING" /\
    baseline_fill float_of_str_ref (weekend st) (value c) = Ok yellow_fill /\
    is_number (value c) = false /\
    fill c = Some green_fill /\
    forall order pst p,
      fill_data_cell float_of_str_ref order pst p 14 (new_cell (value c))
      = Ok (set_fill green_fill (new_cell (value c))).
Proof.
  exists full_sheet, full_stats, (default {| mean := 0; std := 0 |} (weekend full_stats)),
    {| value := PNumpy 100; fill := Some green_fill |}.
  repeat split; computed.
Qed.

(** The header cells of that Saturday are highlighted and tagged ["Sat"];
    those of Friday 5 January are not. *)
Example weekend_header_cells :
  sheet_cell inpatient_sheet 3 6 = Some {| value := PStr "Sat"; fill := Some weekend_fill |} /\
  sheet_cell inpatient_sheet 4 6
  = Some {| value := PStr "06/01/2024"; fill := Some weekend_fill |} /\
  sheet_cell inpatient_sheet 3 5 = Some {| value := PStr "Fri"; fill := None |}.
Proof. repeat split; computed. Qed.

(** The two rows of the specification's example: a total of 0 and a total
    of 2. *)
Lemma summary_row_colour_witness :
  (forall row, row ∈ summary_frame -> exists t, TOTAL_MISSING_SUBMISSIONS row = PInt t) /\
  exists ws,
    build_summary_table int_of_str_ref summary_frame summary_title = Ok (summary_frame, ws) /\
    forall i row t,
      summary_frame !! i = Some row -> TOTAL_MISSING_SUBMISSIONS row = PInt t ->
      exists cells,
        ws !! (2 + i)%nat = Some cells /\ length cells = 6%nat /\
        fmap value cells = summary_values row /\
        (0 < t -> Forall (fun c => fill c = Some red_fill) cells) /\
        (t <= 0 -> Forall (fun c => fill c = Some green_fill) cells).
Proof.
  assert (forall row, row ∈ summary_frame ->
            exists t, TOTAL_MISSING_SUBMISSIONS row = PInt t) as H1.
  { intros row Hrow. unfold summary_frame in Hrow.
    apply elem_of_cons in Hrow as [->|Hrow]; [by exists 0 |].
    apply elem_of_cons in Hrow as [->|Hrow]; [by exists 2 |].
    by apply elem_of_nil in Hrow. }
  split; [exact H1 |].
  exact (summary_row_colour int_of_str_ref summary_frame summary_title H1).
Defined.

Example summary_sheet_fills :
  fmap (fun row : list cell => fmap fill row) (drop 2 summary_sheet)
  = [replicate 6 (Some green_fill); replicate 6 (Some red_fill)].
Proof. computed. Qed.

Lemma renderers_keep_input_witness :
  (build_pivot_table float_of_str_ref int_of_str_ref mean_ref std_ref run_timestamp
     6 inpatient_frame inpatient_title = Ok (inpatient_rows, inpatient_sheet) /\
   build_summary_table int_of_str_ref summary_frame summary_title
   = Ok (summary_frame, summary_sheet)) /\
  summary_frame = summary_frame /\
  fmap base inpatient_rows = inpatient_frame /\
  fmap (fun r => PROVIDER (base r)) inpatient_rows = fmap PROVIDER inpatient_frame /\
  fmap (fun r => RECORDS (base r)) inpatient_rows = fmap RECORDS inpatient_frame /\
  Forall (fun r => DAY_LABEL r = strftime_dmy (ACTIVITY_DATE (base r)) /\
                   WEEKDAY r = substring 0 3 (day_name (ACTIVITY_DATE (base r))))
    inpatient_rows.
Proof.
  assert (build_pivot_table float_of_str_ref int_of_str_ref mean_ref std_ref run_timestamp
            6 inpatient_frame inpatient_title = Ok (inpatient_rows, inpatient_sheet))
    as H1 by computed.
  assert (build_summary_table int_of_str_ref summary_frame summary_title
          = Ok (summary_frame, summary_sheet)) as H2 by computed.
  split; [by split |].
  exact (renderers_keep_input float_of_str_ref int_of_str_ref mean_ref std_ref run_timestamp
           6 inpatient_frame inpatient_title inpatient_rows inpatient_sheet
           summary_frame summary_frame summary_title summary_sheet H1 H2).
Defined.

(** The string ["n/a"] is not a number. *)
Lemma map_status_not_a_number_witness :
  (isna (PStr "n/a") = false /\
   py_float float_of_str_ref (PStr "n/a") = Raise ValueError) /\
  map_status float_of_str_ref int_of_str_ref (PStr "n/a") = PStr "MISSING".
Proof.
  assert (isna (PStr "n/a") = false) as H1 by reflexivity.
  assert (py_float float_of_str_ref (PStr "n/a") = Raise ValueError) as H2 by reflexivity.
  split; [by split |].
  exact (map_status_not_a_number float_of_str_ref int_of_str_ref (PStr "n/a") ValueError
           H1 H2).
Defined.

(** Half a record: Trust B on Sunday 7 January. *)
Example half_a_record_shows_zero :
  map_status float_of_str_ref int_of_str_ref (PFloat 0.5) = PInt 0 /\
  is_missing (map_status float_of_str_ref int_of_str_ref (PFloat 0.5)) = false.
Proof.
  assert ((0 <? 0.5)%float = true) as H1 by reflexivity.
  assert ((0.5 <? 1)%float = true) as H2 by reflexivity.
  destruct (fraction_shows_zero float_of_str_ref int_of_str_ref 0.5 H1 H2) as (H3 & H4 & _).
  by split.
Qed.

(** C10. [map_status] makes the integer 0 of a count between 0 and 1 and
    the cell is not MISSING, but on a block without a ["MISSING"] cell it
    is not classified by its score.  In [fraction_frame] the counts are
    floats and Trust A reports every day, half a record on Wednesday 10
    January.  Every column of the pivot through [map_status] is a column of
    integers, the cell holds the numpy integer 0, fails the test of line
    228 and is filled green at line 245.  By its score on the weekday
    baseline (mean about 93.4, deviation about 25.7; the half record is one
    of the qualifying values) the integer 0 is above 3, SEVERE. *)
Theorem fraction_is_filled_without_score :
  exists ws st c,
    build_pivot_table float_of_str_ref int_of_str_ref mean_ref std_ref run_timestamp
      6 fraction_frame inpatient_title = Ok (assign_columns fraction_frame, ws) /\
    fraction_frame !! 9%nat = Some (mkActivity "Trust A" (january 10) (PFloat 0.5)) /\
    (0 <? 0.5)%float = true /\ (0.5 <? 1)%float = true /\
    map_status float_of_str_ref int_of_str_ref (PFloat 0.5) = PInt 0 /\
    providers (assign_columns fraction_frame) !! 0%nat = Some "Trust A" /\
    day_order (assign_columns fraction_frame) !! 9%nat = Some (day_entry_of (january 10)) /\
    sheet_cell ws 5 10 = Some c /\
    value c = PNumpy 0 /\ value c <> PStr "MISSING" /\
    is_number (value c) = false /\
    fill c = Some green_fill /\
    stats_of_provider mean_ref std_ref (assign_columns fraction_frame) "Trust A" = Ok st /\
    baseline_fill float_of_str_ref (weekday st) (PInt 0) = Ok orange_fill /\
    baseline_fill float_of_str_ref (weekday st) (value c) = Ok orange_fill /\
    forall order pst p,
      fill_data_cell float_of_str_ref order pst p 11 (new_cell (value c))
      = Ok (set_fill green_fill (new_cell (value c))).
Proof.
  exists fraction_sheet, fraction_stats, {| value := PNumpy 0; fill := Some green_fill |}.
  repeat split; computed.
Qed.

Example half_a_record_in_the_sheet :
  nth_error inpatient_frame 23 = Some (mkActivity "Trust B" (january 7) (PFloat 0.5)) /\
  sheet_cell inpatient_sheet 6 7 = Some {| value := PInt 0; fill := Some green_fill |}.
Proof. split; computed. Qed.

(** A block with fewer day columns than the sheet is wide: the header loop
    runs over the width of the sheet and looks up a day that is not there. *)
Example narrow_block_raises :
  build_pivot_table float_of_str_ref int_of_str_ref mean_ref std_ref run_timestamp
    6 two_by_two_frame inpatient_title = Raise IndexError /\
  exists ws,
    build_pivot_table float_of_str_ref int_of_str_ref mean_ref std_ref run_timestamp
      3 two_by_two_frame inpatient_title = Ok (assign_columns two_by_two_frame, ws).
Proof.
  split; [computed |].
  apply build_pivot_table_total.
  - apply (bool_decide_unpack _). computed.
  - apply (bool_decide_unpack _). computed.
  - unfold two_by_two_frame. repeat apply Forall_cons_2; [right; eauto .. | constructor].
  - vm_compute. lia.
Qed.

(** * Further properties: the day labels, the dbt commands, the connection *)

(** X4. Two columns of the block of a frame of dates in range stand for two
    different days and carry two different labels: the label dd/mm/yyyy,
    which is the key of the pivot of line 140, determines the day. *)
Theorem day_labels_are_distinct (df : list activity_record) (j1 j2 : nat)
    (e1 e2 : day_entry) :
  Forall (fun r => date_in_range (ACTIVITY_DATE r)) df ->
  day_order (assign_columns df) !! j1 = Some e1 ->
  day_order (assign_columns df) !! j2 = Some e2 ->
  j1 <> j2 ->
  entry_label e1 <> entry_label e2 /\ entry_date e1 <> entry_date e2.
Proof.
  intros Hrange H1 H2 Hne.
  destruct (day_order_entry _ _ _ H1) as (Hentry1 & r1 & Hr1 & Hd1).
  destruct (day_order_entry _ _ _ H2) as (Hentry2 & r2 & Hr2 & Hd2).
  rewrite Forall_forall in Hrange.
  assert (entry_date e1 <> entry_date e2) as Hdate.
  { intros Heq. apply Hne.
    assert (NoDup (day_order (assign_columns df))) as Hnd.
    { unfold day_order.
      by destruct (sorted_unique_spec entry_le
                     (fmap (fun r => (ACTIVITY_DATE (base r), DAY_LABEL r, WEEKDAY r))
                        (assign_columns df))) as (_ & Hnd & _). }
    apply (NoDup_lookup _ _ _ e1 Hnd H1). rewrite H2, Hentry1, Hentry2. by rewrite Heq. }
  split; [| exact Hdate].
  intros Hl. apply Hdate.
  rewrite Hentry1, Hentry2 in Hl. simpl in Hl.
  apply strftime_dmy_inj; [rewrite <- Hd1 | rewrite <- Hd2 | exact Hl]; by apply Hrange.
Qed.

(** X15. [run_dbt] returns exactly when [dbt run] exits with status 0 and
    [dbt test] can be started: a failing [dbt test] is tolerated, with the
    warning printed exactly then, and [dbt test] is launched only after a
    [dbt run] that exited with status 0; any other status of [dbt run]
    leaves [run_dbt] with [CalledProcessError]. *)
Theorem run_dbt_tolerates_failing_tests (dbt : list string -> completed) :
  ((run_dbt dbt).2 = Returned <->
     dbt ["dbt"; "run"] = Exited 0 /\ exists code, dbt ["dbt"; "test"] = Exited code) /\
  (Launch ["dbt"; "test"] project_dir ∈ (run_dbt dbt).1 <->
     dbt ["dbt"; "run"] = Exited 0) /\
  (Printed dbt_test_warning ∈ (run_dbt dbt).1 <->
     dbt ["dbt"; "run"] = Exited 0 /\
     exists code, code <> 0 /\ dbt ["dbt"; "test"] = Exited code) /\
  (forall code, dbt ["dbt"; "run"] = Exited code -> code <> 0 ->
     (run_dbt dbt).2 = CalledProcessError ["dbt"; "run"] code).
Proof.
  unfold run_dbt. cbv zeta.
  destruct (dbt ["dbt"; "run"]) as [|c]; [| destruct (Z.eqb_spec c 0) as [->|Hc]];
    [| destruct (dbt ["dbt"; "test"]) as [|c']; [| destruct (Z.eqb_spec c' 0) as [->|Hc']] |];
    cbn [fst snd app];
    rewrite ?elem_of_cons, ?elem_of_nil;
    repeat split; intros;
    repeat match goal with
      | H : _ \/ _ |- _ => destruct H
      | H : _ /\ _ |- _ => destruct H
      | H : exists _, _ |- _ => destruct H
      | H : False |- _ => destruct H
      | H : _ = _ |- _ => discriminate H
      | H : Exited _ = Exited _ |- _ => injection H as H; subst
      end;
    first [done | congruence | by eauto | repeat (first [by left | right])].
Qed.

(** X16. The connection of the two query functions needs the five
    variables SNOWFLAKE_USER, SNOWFLAKE_ACCOUNT, SNOWFLAKE_WAREHOUSE,
    SNOWFLAKE_DATABASE and SNOWFLAKE_SCHEMA: its arguments are obtained
    exactly when all five are set, and [KeyError] is raised exactly when one
    is not.  The arguments are the values of the environment; the role is
    the value of SNOWFLAKE_ROLE, or [None], and the authenticator the value
    of SNOWFLAKE_AUTHENTICATOR, or ["externalbrowser"]. *)
Theorem connection_needs_five_variables (env : environ) :
  ((exists args, connect_arguments env = Ok args) <->
     Forall (fun name => is_Some (env !! name))
       ["SNOWFLAKE_USER"; "SNOWFLAKE_ACCOUNT"; "SNOWFLAKE_WAREHOUSE";
        "SNOWFLAKE_DATABASE"; "SNOWFLAKE_SCHEMA"]) /\
  (connect_arguments env = Raise KeyError <->
     Exists (fun name => env !! name = None)
       ["SNOWFLAKE_USER"; "SNOWFLAKE_ACCOUNT"; "SNOWFLAKE_WAREHOUSE";
        "SNOWFLAKE_DATABASE"; "SNOWFLAKE_SCHEMA"]) /\
  (forall args, connect_arguments env = Ok args ->
     env !! "SNOWFLAKE_USER" = Some (user args) /\
     env !! "SNOWFLAKE_ACCOUNT" = Some (account args) /\
     env !! "SNOWFLAKE_WAREHOUSE" = Some (warehouse args) /\
     env !! "SNOWFLAKE_DATABASE" = Some (database args) /\
     env !! "SNOWFLAKE_SCHEMA" = Some (schema args) /\
     role args = env !! "SNOWFLAKE_ROLE" /\
     authenticator args = default "externalbrowser" (env !! "SNOWFLAKE_AUTHENTICATOR")).
Proof.
  unfold connect_arguments, environ_getitem.
  rewrite !Forall_cons, Forall_nil, !Exists_cons, Exists_nil.
  destruct (env !! "SNOWFLAKE_USER") as [v1|];
    destruct (env !! "SNOWFLAKE_ACCOUNT") as [v2|];
    destruct (env !! "SNOWFLAKE_WAREHOUSE") as [v3|];
    destruct (env !! "SNOWFLAKE_DATABASE") as [v4|];
    destruct (env !! "SNOWFLAKE_SCHEMA") as [v5|];
    cbn [bind]; unfold is_Some.
  all: split; [split; [intros [args H]; first [discriminate | by repeat split; eauto] |
                       intros (H1 & H2 & H3 & H4 & H5 & _);
                       repeat match goal with H : exists _, None = Some _ |- _ =>
                                destruct H; discriminate end; eauto] |].
  all: split; [split; [intros H; try discriminate; tauto |
                       intros H; try reflexivity; exfalso;
                       repeat destruct H as [H|H]; discriminate || done] |].
  all: intros args [= <-]; by repeat split.
Qed.

(** * The further properties on concrete frames *)

(** The count of 400 of Trust A on Wednesday 10 January. *)
Lemma data_cell_is_missing_or_count_witness :
  let e := day_entry_of (january 10) in
  (build_pivot_table float_of_str_ref int_of_str_ref mean_ref std_ref run_timestamp
     6 inpatient_frame inpatient_title = Ok (inpatient_rows, inpatient_sheet) /\
   Forall (fun r => date_in_range (ACTIVITY_DATE r)) inpatient_frame /\
   providers inpatient_rows !! 0%nat = Some "Trust A" /\
   day_order inpatient_rows !! 9%nat = Some e) /\
  exists c,
    sheet_cell inpatient_sheet (5 + 0) (1 + 9) = Some c /\
    ((value c = PStr "MISSING" /\ fill c = Some red_fill) \/
     (exists n r v,
         (value c = PInt n \/ (value c = PNumpy n /\ fill c = Some green_fill) \/
          value c = PFloat (float_of_Z n)) /\
         r ∈ inpatient_frame /\ PROVIDER r = "Trust A" /\
         ACTIVITY_DATE r = entry_date e /\
         isna (RECORDS r) = false /\
         (v = RECORDS r \/ exists k, RECORDS r = PInt k /\ v = PFloat (float_of_Z k)) /\
         py_int int_of_str_ref v = Ok n /\
         (fill c = Some green_fill \/ fill c = Some yellow_fill \/
          fill c = Some orange_fill))).
Proof.
  cbv zeta.
  assert (build_pivot_table float_of_str_ref int_of_str_ref mean_ref std_ref run_timestamp
            6 inpatient_frame inpatient_title = Ok (inpatient_rows, inpatient_sheet))
    as H1 by computed.
  assert (Forall (fun r => date_in_range (ACTIVITY_DATE r)) inpatient_frame) as H2
    by (apply (bool_decide_unpack _); computed).
  assert (providers inpatient_rows !! 0%nat = Some "Trust A") as H3 by computed.
  assert (day_order inpatient_rows !! 9%nat = Some (day_entry_of (january 10)))
    as H4 by computed.
  split; [by repeat split |].
  exact (data_cell_is_missing_or_count float_of_str_ref int_of_str_ref mean_ref std_ref
           run_timestamp 6 inpatient_frame inpatient_title inpatient_rows inpatient_sheet
           0 9 "Trust A" _ H1 H2 H3 H4).
Defined.

(** Trust A on Monday 1 and on Tuesday 2 January: 100 records each day. *)
Lemma same_count_same_fill_witness :
  let e1 := day_entry_of (january 1) in
  let e2 := day_entry_of (january 2) in
  let c := {| value := PInt 100; fill := Some green_fill |} in
  (build_pivot_table float_of_str_ref int_of_str_ref mean_ref std_ref run_timestamp
     6 inpatient_frame inpatient_title = Ok (inpatient_rows, inpatient_sheet) /\
   providers inpatient_rows !! 0%nat = Some "Trust A" /\
   day_order inpatient_rows !! 0%nat = Some e1 /\
   day_order inpatient_rows !! 1%nat = Some e2 /\
   sheet_cell inpatient_sheet (5 + 0) (1 + 0) = Some c /\
   sheet_cell inpatient_sheet (5 + 0) (1 + 1) = Some c /\
   is_weekend (entry_date e1) = is_weekend (entry_date e2) /\
   value c = value c) /\
  fill c = fill c.
Proof.
  cbv zeta.
  assert (build_pivot_table float_of_str_ref int_of_str_ref mean_ref std_ref run_timestamp
            6 inpatient_frame inpatient_title = Ok (inpatient_rows, inpatient_sheet))
    as H1 by computed.
  assert (providers inpatient_rows !! 0%nat = Some "Trust A") as H2 by computed.
  assert (day_order inpatient_rows !! 0%nat = Some (day_entry_of (january 1)))
    as H3 by computed.
  assert (day_order inpatient_rows !! 1%nat = Some (day_entry_of (january 2)))
    as H4 by computed.
  assert (sheet_cell inpatient_sheet (5 + 0) (1 + 0)
          = Some {| value := PInt 100; fill := Some green_fill |}) as H5 by computed.
  assert (sheet_cell inpatient_sheet (5 + 0) (1 + 1)
          = Some {| value := PInt 100; fill := Some green_fill |}) as H6 by computed.
  assert (is_weekend (entry_date (day_entry_of (january 1)))
          = is_weekend (entry_date (day_entry_of (january 2)))) as H7 by computed.
  assert (value {| value := PInt 100; fill := Some green_fill |}
          = value {| value := PInt 100; fill := Some green_fill |}) as H8 by reflexivity.
  split; [by repeat split |].
  exact (same_count_same_fill float_of_str_ref int_of_str_ref mean_ref std_ref
           run_timestamp 6 inpatient_frame inpatient_title inpatient_rows inpatient_sheet
           0 0 1 "Trust A" _ _ _ _ H1 H2 H3 H4 H5 H6 H7 H8).
Defined.

Lemma pivot_block_layout_witness :
  build_pivot_table float_of_str_ref int_of_str_ref mean_ref std_ref run_timestamp
    6 inpatient_frame inpatient_title = Ok (inpatient_rows, inpatient_sheet) /\
  length inpatient_sheet = (5 + length (providers inpatient_rows))%nat /\
  inpatient_sheet !! 0%nat = Some [new_cell (PStr run_timestamp)] /\
  inpatient_sheet !! 1%nat = Some [new_cell (PStr "")] /\
  inpatient_sheet !! 2%nat = Some [new_cell (PStr inpatient_title)] /\
  (forall k row, inpatient_sheet !! (3 + k)%nat = Some row ->
     length row = S (length (day_order inpatient_rows))) /\
  sheet_cell inpatient_sheet 3 0 = Some (new_cell (PStr "")) /\
  sheet_cell inpatient_sheet 4 0 = Some (new_cell (PStr "Provider")) /\
  (forall i p, providers inpatient_rows !! i = Some p ->
     sheet_cell inpatient_sheet (5 + i) 0 = Some (new_cell (PStr p))).
Proof.
  assert (build_pivot_table float_of_str_ref int_of_str_ref mean_ref std_ref run_timestamp
            6 inpatient_frame inpatient_title = Ok (inpatient_rows, inpatient_sheet))
    as H1 by computed.
  split; [exact H1 |].
  exact (pivot_block_layout float_of_str_ref int_of_str_ref mean_ref std_ref run_timestamp
           6 inpatient_frame inpatient_title inpatient_rows inpatient_sheet H1).
Defined.

(** The block of [inpatient_frame]: eight rows of twenty-two cells, with
    the three trusts in the first column. *)
Example inpatient_block_shape :
  length inpatient_sheet = 8%nat /\
  fmap (fun row : list cell => length row) (drop 3 inpatient_sheet) = replicate 5 22%nat /\
  fmap (fun row : list cell => fmap value (take 1 row)) (drop 5 inpatient_sheet)
  = [[PStr "Trust A"]; [PStr "Trust B"]; [PStr "Trust C"]].
Proof. repeat split; computed. Qed.

(** Monday 1 and Tuesday 2 January in [inpatient_frame]. *)
Lemma day_labels_are_distinct_witness :
  let e1 := day_entry_of (january 1) in
  let e2 := day_entry_of (january 2) in
  (Forall (fun r => date_in_range (ACTIVITY_DATE r)) inpatient_frame /\
   day_order (assign_columns inpatient_frame) !! 0%nat = Some e1 /\
   day_order (assign_columns inpatient_frame) !! 1%nat = Some e2 /\
   0%nat <> 1%nat) /\
  entry_label e1 <> entry_label e2 /\ entry_date e1 <> entry_date e2.
Proof.
  cbv zeta.
  assert (Forall (fun r => date_in_range (ACTIVITY_DATE r)) inpatient_frame) as H1
    by (apply (bool_decide_unpack _); computed).
  assert (day_order (assign_columns inpatient_frame) !! 0%nat
          = Some (day_entry_of (january 1))) as H2 by computed.
  assert (day_order (assign_columns inpatient_frame) !! 1%nat
          = Some (day_entry_of (january 2))) as H3 by computed.
  assert (0%nat <> 1%nat) as H4 by discriminate.
  split; [by repeat split |].
  exact (day_labels_are_distinct inpatient_frame 0 1 _ _ H1 H2 H3 H4).
Defined.

(** Trust A twice on 1 January, with the same count. *)
Lemma repeated_day_raises_ValueError_witness :
  let r := mkActivity "Trust A" (january 1) (PInt 100) in
  (repeated_frame !! 0%nat = Some r /\ repeated_frame !! 2%nat = Some r /\
   0%nat <> 2%nat /\ PROVIDER r = PROVIDER r /\ ACTIVITY_DATE r = ACTIVITY_DATE r) /\
  build_pivot_table float_of_str_ref int_of_str_ref mean_ref std_ref run_timestamp
    6 repeated_frame inpatient_title = Raise ValueError.
Proof.
  cbv zeta.
  assert (repeated_frame !! 0%nat = Some (mkActivity "Trust A" (january 1) (PInt 100)))
    as H1 by reflexivity.
  assert (repeated_frame !! 2%nat = Some (mkActivity "Trust A" (january 1) (PInt 100)))
    as H2 by reflexivity.
  assert (0%nat <> 2%nat) as H3 by discriminate.
  split; [by repeat split |].
  exact (repeated_day_raises_ValueError float_of_str_ref int_of_str_ref mean_ref std_ref
           run_timestamp 6 repeated_frame inpatient_title 0 2 _ _ H1 H2 H3
           eq_refl eq_refl).
Defined.

(** The count ["n/a"] of Trust A on 2 January. *)
Lemma text_count_raises_TypeError_witness :
  let r := mkActivity "Trust A" (january 2) (PStr "n/a") in
  (Forall (fun r => date_in_range (ACTIVITY_DATE r)) text_frame /\
   NoDup (fmap (fun r => (PROVIDER r, ACTIVITY_DATE r)) text_frame) /\
   r ∈ text_frame /\ RECORDS r = PStr "n/a") /\
  build_pivot_table float_of_str_ref int_of_str_ref mean_ref std_ref run_timestamp
    6 text_frame inpatient_title = Raise TypeError.
Proof.
  cbv zeta.
  assert (Forall (fun r => date_in_range (ACTIVITY_DATE r)) text_frame) as H1
    by (apply (bool_decide_unpack _); computed).
  assert (NoDup (fmap (fun r => (PROVIDER r, ACTIVITY_DATE r)) text_frame)) as H2
    by (apply (bool_decide_unpack _); computed).
  assert (mkActivity "Trust A" (january 2) (PStr "n/a") ∈ text_frame) as H3
    by (apply (list_elem_of_lookup_2 _ 1%nat); reflexivity).
  split; [by repeat split |].
  exact (text_count_raises_TypeError float_of_str_ref int_of_str_ref mean_ref std_ref
           run_timestamp 6 text_frame inpatient_title _ "n/a" H1 H2 H3 eq_refl).
Defined.

(** The same string is ["MISSING"] for [map_status] alone. *)
Example text_count_alone_is_missing :
  map_status float_of_str_ref int_of_str_ref (PStr "n/a") = PStr "MISSING".
Proof. reflexivity. Qed.

Lemma map_status_not_finite_witness :
  (is_nan infinity = true \/ is_infinity infinity = true) /\
  map_status float_of_str_ref int_of_str_ref (PFloat infinity) = PStr "MISSING".
Proof.
  assert (is_nan infinity = true \/ is_infinity infinity = true) as H1
    by (right; reflexivity).
  split; [exact H1 |].
  exact (map_status_not_finite float_of_str_ref int_of_str_ref infinity H1).
Defined.

(** The two days of [two_by_two_frame] below the six columns of the
    summary, and on a sheet of three columns. *)
Lemma pivot_block_needs_room_witness :
  (Forall (fun r => date_in_range (ACTIVITY_DATE r)) two_by_two_frame /\
   NoDup (fmap (fun r => (PROVIDER r, ACTIVITY_DATE r)) two_by_two_frame) /\
   Forall (fun r => integer_or_missing (RECORDS r)) two_by_two_frame) /\
  let days := length (day_order (assign_columns two_by_two_frame)) in
  ((6 <= 1 + days)%nat ->
     exists ws,
       build_pivot_table float_of_str_ref int_of_str_ref mean_ref std_ref run_timestamp
         6 two_by_two_frame inpatient_title = Ok (assign_columns two_by_two_frame, ws)) /\
  ((1 + days < 6)%nat ->
     build_pivot_table float_of_str_ref int_of_str_ref mean_ref std_ref run_timestamp
       6 two_by_two_frame inpatient_title = Raise IndexError).
Proof.
  assert (Forall (fun r => date_in_range (ACTIVITY_DATE r)) two_by_two_frame) as H1
    by (apply (bool_decide_unpack _); computed).
  assert (NoDup (fmap (fun r => (PROVIDER r, ACTIVITY_DATE r)) two_by_two_frame)) as H2
    by (apply (bool_decide_unpack _); computed).
  assert (Forall (fun r => integer_or_missing (RECORDS r)) two_by_two_frame) as H3
    by (unfold two_by_two_frame; repeat apply Forall_cons_2; [right; eauto .. | constructor]).
  split; [by repeat split |].
  exact (pivot_block_needs_room float_of_str_ref int_of_str_ref mean_ref std_ref
           run_timestamp 6 two_by_two_frame inpatient_title H1 H2 H3).
Defined.

(** Trust A between rows of Trust B and Trust C. *)
Lemma baseline_ignores_other_providers_witness :
  let before := [mkActivity "Trust B" (january 2) (PInt 12)] in
  let df := fmap (fun k => mkActivity "Trust A" (january k) (PInt (100 + k))) (seqZ 1 5) in
  let after := [mkActivity "Trust C" (january 1) (PInt 7)] in
  (Forall (fun r => PROVIDER r <> "Trust A") before /\
   Forall (fun r => PROVIDER r <> "Trust A") after) /\
  stats_of_provider mean_ref std_ref (assign_columns (before ++ df ++ after)) "Trust A"
  = stats_of_provider mean_ref std_ref (assign_columns df) "Trust A".
Proof.
  cbv zeta.
  assert (Forall (fun r => PROVIDER r <> "Trust A")
            [mkActivity "Trust B" (january 2) (PInt 12)]) as H1
    by (apply (bool_decide_unpack _); computed).
  assert (Forall (fun r => PROVIDER r <> "Trust A")
            [mkActivity "Trust C" (january 1) (PInt 7)]) as H2
    by (apply (bool_decide_unpack _); computed).
  split; [by split |].
  exact (baseline_ignores_other_providers mean_ref std_ref _
           (fmap (fun k => mkActivity "Trust A" (january k) (PInt (100 + k))) (seqZ 1 5))
           _ "Trust A" H1 H2).
Defined.

Lemma summary_block_layout_witness :
  build_summary_table int_of_str_ref summary_frame summary_title
  = Ok (summary_frame, summary_sheet) /\
  length summary_sheet = (2 + length summary_frame)%nat /\
  summary_sheet !! 0%nat = Some [new_cell (PStr summary_title)] /\
  summary_sheet !! 1%nat = Some (fmap new_cell summary_headers) /\
  forall i row, summary_frame !! i = Some row ->
    exists t cells,
      py_int int_of_str_ref (TOTAL_MISSING_SUBMISSIONS row) = Ok t /\
      summary_sheet !! (2 + i)%nat = Some cells /\
      fmap value cells = summary_values row /\
      Forall (fun c => fill c = Some (if 0 <? t then red_fill else green_fill)) cells.
Proof.
  assert (build_summary_table int_of_str_ref summary_frame summary_title
          = Ok (summary_frame, summary_sheet)) as H1 by computed.
  split; [exact H1 |].
  exact (summary_block_layout int_of_str_ref summary_frame summary_title summary_frame
           summary_sheet H1).
Defined.

(** Trust C has no total. *)
Lemma summary_absent_total_raises_witness :
  let row := mkSummary (PStr "Trust C") (PInt 1) PNone (PInt 0) PNone (PStr "Yes") in
  (row ∈ absent_total_frame /\ isna (TOTAL_MISSING_SUBMISSIONS row) = true) /\
  exists e, build_summary_table int_of_str_ref absent_total_frame summary_title = Raise e.
Proof.
  cbv zeta.
  assert (mkSummary (PStr "Trust C") (PInt 1) PNone (PInt 0) PNone (PStr "Yes")
          ∈ absent_total_frame) as H1
    by (apply (list_elem_of_lookup_2 _ 1%nat); reflexivity).
  split; [by split |].
  exact (summary_absent_total_raises int_of_str_ref absent_total_frame summary_title _
           H1 eq_refl).
Defined.

(** The exception is the one [int()] raises: [TypeError] on [None], and
    [ValueError] on the NaN that stands for a missing total in a column of
    numbers. *)
Example summary_absent_total_exceptions :
  build_summary_table int_of_str_ref absent_total_frame summary_title = Raise TypeError /\
  build_summary_table int_of_str_ref
    [ mkSummary (PStr "Trust C") (PFloat 1) (PFloat nan) (PFloat 0) (PFloat nan) (PStr "Yes") ]
    summary_title = Raise ValueError.
Proof. split; computed. Qed.

Lemma export_needs_growing_day_counts_witness :
  export_to_excel float_of_str_ref int_of_str_ref mean_ref std_ref run_timestamp
    summary_frame outpatient_frame outpatient_frame outpatient_frame = Ok report_sheet /\
  let days := fun df : list activity_record => length (day_order (assign_columns df)) in
  (5 <= days outpatient_frame)%nat /\
  (days outpatient_frame <= days outpatient_frame)%nat /\
  (days outpatient_frame <= days outpatient_frame)%nat.
Proof.
  assert (export_to_excel float_of_str_ref int_of_str_ref mean_ref std_ref run_timestamp
            summary_frame outpatient_frame outpatient_frame outpatient_frame
          = Ok report_sheet) as H1 by computed.
  split; [exact H1 |].
  exact (export_needs_growing_day_counts float_of_str_ref int_of_str_ref mean_ref std_ref
           run_timestamp summary_frame outpatient_frame outpatient_frame outpatient_frame
           report_sheet H1).
Defined.

(** A report whose inpatient feed has more days than its outpatient feed is
    not written. *)
Example export_with_a_shorter_outpatient_feed :
  export_to_excel float_of_str_ref int_of_str_ref mean_ref std_ref run_timestamp
    summary_frame inpatient_frame outpatient_frame outpatient_frame = Raise IndexError.
Proof. computed. Qed.

Lemma export_block_positions_witness :
  export_to_excel float_of_str_ref int_of_str_ref mean_ref std_ref run_timestamp
    summary_frame outpatient_frame outpatient_frame outpatient_frame = Ok report_sheet /\
  let rows := fun df : list activity_record => length (providers (assign_columns df)) in
  let inpatient_start := (2 + length summary_frame)%nat in
  let op_start := (inpatient_start + 5 + rows outpatient_frame + 2)%nat in
  let ecds_start := (op_start + 5 + rows outpatient_frame + 2)%nat in
  length report_sheet = (ecds_start + 5 + rows outpatient_frame)%nat /\
  report_sheet !! inpatient_start = Some [new_cell (PStr run_timestamp)] /\
  report_sheet !! (inpatient_start + 2)%nat
    = Some [new_cell (PStr "Inpatient Provider Daily Status")] /\
  report_sheet !! (op_start - 2)%nat = Some [] /\
  report_sheet !! (op_start - 1)%nat = Some [] /\
  report_sheet !! (op_start + 2)%nat
    = Some [new_cell (PStr "Outpatient Provider Daily Status")] /\
  report_sheet !! (ecds_start - 2)%nat = Some [] /\
  report_sheet !! (ecds_start - 1)%nat = Some [] /\
  report_sheet !! (ecds_start + 2)%nat
    = Some [new_cell (PStr "Emergency Attendances (ECDS) Daily Status")].
Proof.
  assert (export_to_excel float_of_str_ref int_of_str_ref mean_ref std_ref run_timestamp
            summary_frame outpatient_frame outpatient_frame outpatient_frame
          = Ok report_sheet) as H1 by computed.
  split; [exact H1 |].
  exact (export_block_positions float_of_str_ref int_of_str_ref mean_ref std_ref
           run_timestamp summary_frame outpatient_frame outpatient_frame outpatient_frame
           report_sheet H1).
Defined.

(** The report on [summary_frame] and [outpatient_frame] has 29 rows. *)
Example report_sheet_rows :
  length report_sheet = 29%nat /\
  fmap (fun row : list cell => fmap value (take 1 row)) (take 7 (drop 3 report_sheet))
  = [[PStr "Trust B"]; [PStr run_timestamp]; [PStr ""];
     [PStr "Inpatient Provider Daily Status"]; [PStr ""]; [PStr "Provider"];
     [PStr "Trust A"]].
Proof. split; computed. Qed.

Lemma export_returns_witness :
  let well_formed := fun df : list activity_record =>
    Forall (fun r => date_in_range (ACTIVITY_DATE r)) df /\
    NoDup (fmap (fun r => (PROVIDER r, ACTIVITY_DATE r)) df) /\
    Forall (fun r => integer_or_missing (RECORDS r)) df in
  let days := fun df : list activity_record => length (day_order (assign_columns df)) in
  ((forall row, row ∈ summary_frame -> exists t, TOTAL_MISSING_SUBMISSIONS row = PInt t) /\
   well_formed outpatient_frame /\
   (5 <= days outpatient_frame)%nat /\
   (days outpatient_frame <= days outpatient_frame)%nat) /\
  exists ws,
    export_to_excel float_of_str_ref int_of_str_ref mean_ref std_ref run_timestamp
      summary_frame outpatient_frame outpatient_frame outpatient_frame = Ok ws.
Proof.
  cbv zeta.
  assert (forall row, row ∈ summary_frame ->
            exists t, TOTAL_MISSING_SUBMISSIONS row = PInt t) as H1.
  { intros row Hrow. unfold summary_frame in Hrow.
    apply elem_of_cons in Hrow as [->|Hrow]; [by exists 0 |].
    apply elem_of_cons in Hrow as [->|Hrow]; [by exists 2 |].
    by apply elem_of_nil in Hrow. }
  assert (Forall (fun r => date_in_range (ACTIVITY_DATE r)) outpatient_frame) as H2
    by (apply (bool_decide_unpack _); computed).
  assert (NoDup (fmap (fun r => (PROVIDER r, ACTIVITY_DATE r)) outpatient_frame)) as H3
    by (apply (bool_decide_unpack _); computed).
  assert (Forall (fun r => integer_or_missing (RECORDS r)) outpatient_frame) as H4.
  { apply Forall_forall. intros r Hr. unfold outpatient_frame in Hr.
    apply elem_of_app in Hr as [Hr|Hr].
    - apply list_elem_of_fmap in Hr as (k & -> & _). right. eauto.
    - apply list_elem_of_singleton in Hr as ->. by left. }
  assert (5 <= length (day_order (assign_columns outpatient_frame)))%nat as H5
    by (vm_compute; lia).
  assert (length (day_order (assign_columns outpatient_frame))
          <= length (day_order (assign_columns outpatient_frame)))%nat as H6 by lia.
  split; [by repeat split |].
  exact (export_returns float_of_str_ref int_of_str_ref mean_ref std_ref run_timestamp
           summary_frame outpatient_frame outpatient_frame outpatient_frame
           H1 (conj H2 (conj H3 H4)) (conj H2 (conj H3 H4)) (conj H2 (conj H3 H4))
           H5 H6 H6).
Defined.

(** [dbt test] fails with status 1 after a [dbt run] that succeeded. *)
Example run_dbt_with_failing_tests :
  let dbt := fun args : list string =>
    if bool_decide (args = ["dbt"; "test"]) then Exited 1 else Exited 0 in
  run_dbt dbt =
    ([Printed "Running dbt models..."; Launch ["dbt"; "run"] project_dir;
      Printed "Running dbt tests..."; Launch ["dbt"; "test"] project_dir;
      Printed dbt_test_warning], Returned).
Proof. reflexivity. Qed.

(** [snowflake_env] sets no authenticator; without its schema there is no
    connection. *)
Example connect_arguments_of_snowflake_env :
  connect_arguments snowflake_env
  = Ok {| user := "reporter"; account := "nhs-sus"; warehouse := "REPORTING";
          database := "SUS"; schema := "UNIFIED"; role := Some "ANALYST";
          authenticator := "externalbrowser" |} /\
  connect_arguments (delete "SNOWFLAKE_SCHEMA" snowflake_env) = Raise KeyError /\
  (exists args, connect_arguments (delete "SNOWFLAKE_ROLE" snowflake_env) = Ok args /\
                role args = None).
Proof. split; [computed | split; [computed | eexists; split; computed]]. Qed.
